(** * Jedi payment middleware (masumi/main.py): the payment-gated job engine

    A shallow embedding of the handlers of [masumi/main.py] and of the three
    in-memory stores they share ([jobs], [payment_instances],
    [project_payments]).

    Modelling conventions.
    - A handler is a function from the world before the call to an outcome
      and the world after it.  The replies of the collaborators (the Express
      server, the Masumi payment service, [uuid4]) are arguments of the
      handler that awaits them.  [step] and [run] take every coroutine to
      its end before the next begins; [play1] and [play] cut the handlers at
      their awaits and let them overlap.
    - Exceptions are values of [exn]; [try_except] is Python's try/except.
    - The world carries a ghost [trace]: the calls made to the collaborators
      and the writes to a job's ["status"], in program order.
    - Payload dictionaries are only built by [create_project], [interact] and
      [analyze], always with the keys endpoint, method and data, where data
      maps field names to [str] fields of a validated request: they are
      records over [gmap string string].
    - Of the Masumi [Payment] object only the calls made here are modelled;
      [stop_status_monitoring] is taken not to raise.
    - The settlement callback of a job is the closure [payment_callback] that
      [create_payment_job] hands to [start_status_monitoring]. *)

From Stdlib Require Import ZArith Ascii DecimalString.
From stdpp Require Import gmap strings list fin_maps.

Local Open Scope Z_scope.

(** ** Strings *)

(** [str(n)] for a Python int. *)
Definition str_of_Z (n : Z) : string := NilZero.string_of_int (Z.to_int n).

(** [int(s)] for a string of decimal digits. *)
Definition int_of_str (s : string) : option Z :=
  match NilZero.int_of_string s with
  | Some d => Some (Z.of_int d)
  | None => None
  end.

(** [s.split(sep)] for a one-character separator: never an empty list. *)
Fixpoint split (sep : ascii) (s : string) : list string :=
  match s with
  | EmptyString => [EmptyString]
  | String c s' =>
      if decide (c = sep) then EmptyString :: split sep s'
      else match split sep s' with
           | h :: t => String c h :: t
           | [] => [String c EmptyString]
           end
  end.

(** [l[-1]] on the result of a split. *)
Definition last_item (l : list string) : string := List.last l EmptyString.

(** [s.replace(old, new)] for a non-empty [old]: occurrences are replaced from
    the left and do not overlap; [skip] counts the characters of the current
    occurrence still to be dropped. *)
Fixpoint replace_from (old new : string) (skip : nat) (s : string) : string :=
  match s with
  | EmptyString => EmptyString
  | String c s' =>
      match skip with
      | S k => replace_from old new k s'
      | O =>
          if String.prefix old s
          then new +:+ replace_from old new (Nat.pred (String.length old)) s'
          else String c (replace_from old new 0 s')
      end
  end.

Definition replace (old new s : string) : string := replace_from old new 0 s.

(** ** Values *)

(** A decoded JSON document, as [response.json()] returns it.  [JNull] is
    Python's [None]. *)
#[warnings="-register-all"]
Inductive json :=
| JNull
| JBool (b : bool)
| JNum (n : Z)
| JStr (s : string)
| JArr (items : list json)
| JObj (fields : list (string * json)).

(** The four values ever written to a job's ["status"]. *)
Inductive job_status := awaiting_payment | running | completed | failed.

Global Instance job_status_eq_dec : EqDecision job_status.
Proof. solve_decision. Defined.

Definition terminal (s : job_status) : bool :=
  match s with completed | failed => true | _ => false end.

(** Exceptions.  [TimeoutException] and [HTTPStatusError] are httpx's and never
    leave [call_express_api]; [Exception] stands for whatever a Masumi call
    raises, with its message. *)
Inductive exn :=
| HTTPException (status_code : Z) (detail : string)
| KeyError (key : string)
| ValueError (msg : string)
| TimeoutException
| HTTPStatusError (status_code : Z) (text : string)
| Exception (msg : string).

(** [str(e)].  Starlette prints an [HTTPException] as its status code, a colon
    and the detail; a [KeyError] prints the repr of the missing key. *)
Definition str (e : exn) : string :=
  match e with
  | HTTPException c d => str_of_Z c +:+ ": " +:+ d
  | KeyError k => "'" +:+ k +:+ "'"
  | ValueError m => m
  | TimeoutException => EmptyString
  | HTTPStatusError c t => t
  | Exception m => m
  end.

Module Payload.
Record t := mk {
  endpoint : string;
  method : string;
  data : gmap string string
}.
End Payload.

Module Amount.
Record t := mk { amount : string; unit : string }.
End Amount.

(** The [masumi.payment.Payment] object, as far as this file touches it. *)
Module Payment.
Record t := mk {
  agent_identifier : option string;
  amounts : list Amount.t;
  identifier_from_purchaser : string;
  input_data : string * Payload.t;
  network : option string;
  payment_ids : gset string;
  input_hash : string
}.
End Payment.

(** An entry of [jobs].  The key ["error"] is absent until a failure. *)
Module Job.
Record t := mk {
  status : job_status;
  payment_status : option string;
  payment_id : string;
  action : string;
  payload : Payload.t;
  result : json;
  identifier_from_purchaser : string;
  error : option string
}.
End Job.

(** ** The world *)

Inductive event :=
| HttpRequest (method endpoint : string) (body : option (gmap string string))
| CreatePaymentRequest (p : Payment.t)
| StartStatusMonitoring (job_id : string)
| StopStatusMonitoring (job_id : string)
| CheckPaymentStatus (job_id : string)
| CompletePayment (job_id payment_id : string) (result : json)
| SetStatus (job_id : string) (s : job_status).

Record world := World {
  jobs : gmap string Job.t;
  payment_instances : gmap string Payment.t;
  project_payments : gmap string bool;
  environ : gmap string string;
  trace : list event
}.

(** The module right after import: the three stores are empty. *)
Definition init (env : gmap string string) : world :=
  World ∅ ∅ ∅ env [].

(** ** The monad of handlers: state and exceptions *)

Inductive outcome (A : Type) :=
| Ret (a : A)
| Raise (e : exn).
Arguments Ret {A} a.
Arguments Raise {A} e.

Definition M (A : Type) : Type := world -> outcome A * world.

Definition ret {A} (a : A) : M A := fun w => (Ret a, w).

Definition raise {A} (e : exn) : M A := fun w => (Raise e, w).

Definition bind {A B} (m : M A) (k : A -> M B) : M B :=
  fun w =>
    match m w with
    | (Ret a, w') => k a w'
    | (Raise e, w') => (Raise e, w')
    end.

Definition try_except {A} (m : M A) (handler : exn -> M A) : M A :=
  fun w =>
    match m w with
    | (Ret a, w') => (Ret a, w')
    | (Raise e, w') => handler e w'
    end.

Notation "x <- m ;; k" := (bind m (fun x => k))
  (at level 100, m at next level, right associativity).
Notation "m ;; k" := (bind m (fun _ => k))
  (at level 100, right associativity).

(** What a collaborator answers: a value or an exception. *)
Definition answer {A} (o : outcome A) : M A := fun w => (o, w).

Definition emit (e : event) : M unit :=
  fun w => (Ret tt, World (jobs w) (payment_instances w) (project_payments w)
                          (environ w) (trace w ++ [e])).

(** [os.getenv(name)]. *)
Definition getenv (name : string) : M (option string) :=
  fun w => (Ret (environ w !! name), w).

(** [d[key]] on a dictionary. *)
Definition getitem {V} (d : gmap string V) (key : string) : M V :=
  match d !! key with
  | Some v => ret v
  | None => raise (KeyError key)
  end.

(** ** The stores *)

Definition with_jobs (f : gmap string Job.t -> gmap string Job.t) (w : world) : world :=
  World (f (jobs w)) (payment_instances w) (project_payments w) (environ w) (trace w).

Definition with_payment_instances
    (f : gmap string Payment.t -> gmap string Payment.t) (w : world) : world :=
  World (jobs w) (f (payment_instances w)) (project_payments w) (environ w) (trace w).

Definition with_project_payments (f : gmap string bool -> gmap string bool) (w : world) : world :=
  World (jobs w) (payment_instances w) (f (project_payments w)) (environ w) (trace w).

(** [jobs[job_id][field] = value]: a [KeyError] when the job is unknown. *)
Definition update_job (job_id : string) (f : Job.t -> Job.t) : M unit :=
  fun w =>
    match jobs w !! job_id with
    | Some j => (Ret tt, with_jobs (insert job_id (f j)) w)
    | None => (Raise (KeyError job_id), w)
    end.

Definition set_status (s : job_status) (j : Job.t) : Job.t :=
  Job.mk s (Job.payment_status j) (Job.payment_id j) (Job.action j) (Job.payload j)
         (Job.result j) (Job.identifier_from_purchaser j) (Job.error j).

Definition set_payment_status (ps : option string) (j : Job.t) : Job.t :=
  Job.mk (Job.status j) ps (Job.payment_id j) (Job.action j) (Job.payload j)
         (Job.result j) (Job.identifier_from_purchaser j) (Job.error j).

Definition set_result (r : json) (j : Job.t) : Job.t :=
  Job.mk (Job.status j) (Job.payment_status j) (Job.payment_id j) (Job.action j)
         (Job.payload j) r (Job.identifier_from_purchaser j) (Job.error j).

Definition set_error (msg : string) (j : Job.t) : Job.t :=
  Job.mk (Job.status j) (Job.payment_status j) (Job.payment_id j) (Job.action j)
         (Job.payload j) (Job.result j) (Job.identifier_from_purchaser j) (Some msg).

(** [jobs[job_id]["status"] = s], recorded in the trace when it happens. *)
Definition write_status (job_id : string) (s : job_status) : M unit :=
  update_job job_id (set_status s) ;;
  emit (SetStatus job_id s).

(** [jobs[job_id] = job]. *)
Definition store_job (job_id : string) (j : Job.t) : M unit :=
  fun w => (Ret tt, with_jobs (insert job_id j) w).

(** [payment_instances[job_id]]. *)
Definition payment_instance (job_id : string) : M Payment.t :=
  fun w => getitem (payment_instances w) job_id w.

(** [project_payments[project_id] = True]. *)
Definition mark_paid (project_id : string) : M unit :=
  fun w => (Ret tt, with_project_payments (insert project_id true) w).

(** The block that ends both branches of [process_payment_and_execute]:
    [if job_id in payment_instances: stop_status_monitoring(); del ...].
    Stopping does not raise. *)
Definition release_monitoring (job_id : string) : M unit :=
  fun w =>
    match payment_instances w !! job_id with
    | Some _ =>
        (emit (StopStatusMonitoring job_id) ;;
         fun w' => (Ret tt, with_payment_instances (delete job_id) w')) w
    | None => (Ret tt, w)
    end.

(** ** Express server communication *)

(** What the HTTP client does with a request that was sent. *)
Inductive express_reply :=
| ReplyJson (body : json)
| ReplyTimeout
| ReplyStatusError (status_code : Z) (text : string)
| ReplyException (msg : string).

Definition client_send (reply : express_reply) : M json :=
  match reply with
  | ReplyJson body => ret body
  | ReplyTimeout => raise TimeoutException
  | ReplyStatusError c t => raise (HTTPStatusError c t)
  | ReplyException m => raise (Exception m)
  end.

Definition call_express_api (reply : express_reply)
    (endpoint method : string) (data : option (gmap string string)) : M json :=
  try_except
    (if decide (method = "POST") then
       emit (HttpRequest "POST" endpoint data) ;; client_send reply
     else if decide (method = "GET") then
       emit (HttpRequest "GET" endpoint None) ;; client_send reply
     else raise (ValueError ("Unsupported HTTP method: " +:+ method)))
    (fun e =>
       match e with
       | TimeoutException => raise (HTTPException 504 "Express server timeout")
       | HTTPStatusError c t =>
           raise (HTTPException c ("Express server error: " +:+ t))
       | _ =>
           raise (HTTPException 500
                    ("Failed to communicate with Express server: " +:+ str e))
       end).

(** ** Payment processing *)

(** The resource key of a create_project job: the payload's projectId, else
    the last segment of its repoUrl. *)
Definition project_key (payload : Payload.t) : string :=
  match Payload.data payload !! "projectId" with
  | Some project_id => project_id
  | None => last_item (split "/" (default EmptyString (Payload.data payload !! "repoUrl")))
  end.

(** [payment_instances[job_id].complete_payment(payment_id, result)]. *)
Definition complete_payment (completion : outcome unit)
    (job_id payment_id : string) (result : json) : M unit :=
  _ <- payment_instance job_id ;;
  emit (CompletePayment job_id payment_id result) ;;
  answer completion.

Definition process_payment_and_execute
    (reply : express_reply) (completion : outcome unit)
    (job_id payment_id action : string) (payload : Payload.t) : M unit :=
  try_except
    (write_status job_id running ;;
     result <- call_express_api reply (Payload.endpoint payload) (Payload.method payload)
                                (Some (Payload.data payload)) ;;
     complete_payment completion job_id payment_id result ;;
     write_status job_id completed ;;
     update_job job_id (set_payment_status (Some "completed")) ;;
     update_job job_id (set_result result) ;;
     (if decide (action = "create_project") then mark_paid (project_key payload)
      else ret tt) ;;
     release_monitoring job_id)
    (fun e =>
       write_status job_id failed ;;
       update_job job_id (set_error (str e)) ;;
       release_monitoring job_id).

(** ** Creating a payment job *)

(** What the outside world decides while [create_payment_job] runs: the fresh
    uuid, the fingerprint the Payment object computes, the payment service's
    answer to the payment request, and whether monitoring could be started. *)
Module Creation.
Record t := mk {
  uuid4 : string;
  input_hash : string;
  payment_request : outcome (gmap string (gmap string string));
  monitoring : outcome unit
}.
End Creation.

(** The dictionary [create_payment_job] returns. *)
Module Created.
Record t := mk {
  status : string;
  job_id : string;
  blockchainIdentifier : string;
  submitResultTime : string;
  unlockTime : string;
  externalDisputeUnlockTime : string;
  agentIdentifier : option string;
  sellerVkey : option string;
  identifierFromPurchaser : string;
  amounts : list Amount.t;
  input_hash : string
}.
End Created.

Definition add_payment_id (payment_id : string) (p : Payment.t) : Payment.t :=
  Payment.mk (Payment.agent_identifier p) (Payment.amounts p)
             (Payment.identifier_from_purchaser p) (Payment.input_data p)
             (Payment.network p) ({[payment_id]} ∪ Payment.payment_ids p)
             (Payment.input_hash p).

Definition create_payment_job (o : Creation.t)
    (identifier_from_purchaser amount action : string) (payload : Payload.t)
    : M Created.t :=
  let job_id := Creation.uuid4 o in
  agent_identifier <- getenv "AGENT_IDENTIFIER" ;;
  let amounts := [Amount.mk amount "lovelace"] in
  NETWORK <- getenv "NETWORK" ;;
  let payment :=
    Payment.mk agent_identifier amounts identifier_from_purchaser (action, payload)
               NETWORK ∅ (Creation.input_hash o) in
  emit (CreatePaymentRequest payment) ;;
  payment_request <- answer (Creation.payment_request o) ;;
  request_data <- getitem payment_request "data" ;;
  payment_id <- getitem request_data "blockchainIdentifier" ;;
  let payment := add_payment_id payment_id payment in
  store_job job_id
    (Job.mk awaiting_payment (Some "pending") payment_id action payload JNull
            identifier_from_purchaser None) ;;
  emit (SetStatus job_id awaiting_payment) ;;
  (fun w => (Ret tt, with_payment_instances (insert job_id payment) w)) ;;
  emit (StartStatusMonitoring job_id) ;;
  answer (Creation.monitoring o) ;;
  blockchainIdentifier <- getitem request_data "blockchainIdentifier" ;;
  submitResultTime <- getitem request_data "submitResultTime" ;;
  unlockTime <- getitem request_data "unlockTime" ;;
  externalDisputeUnlockTime <- getitem request_data "externalDisputeUnlockTime" ;;
  sellerVkey <- getenv "SELLER_VKEY" ;;
  ret (Created.mk "success" job_id blockchainIdentifier submitResultTime unlockTime
                  externalDisputeUnlockTime agent_identifier sellerVkey
                  identifier_from_purchaser amounts (Payment.input_hash payment)).

(** ** API endpoints *)

Module CreateProjectRequest.
Record t := mk {
  identifier_from_purchaser : string;
  repoUrl : string;
  walletAddress : string;
  side : string
}.
End CreateProjectRequest.

Module SetupInfoRequest.
Record t := mk {
  projectId : string;
  name : string;
  description : string;
  technicalDescription : string;
  imageUrl : string
}.
End SetupInfoRequest.

Module InteractRequest.
Record t := mk {
  identifier_from_purchaser : string;
  projectId : string;
  prompt : string
}.
End InteractRequest.

Module AnalyzeRequest.
Record t := mk {
  identifier_from_purchaser : string;
  repoUrl : string;
  userId : string;
  projectKey : string
}.
End AnalyzeRequest.

(** The project id [create_project] generates; [time_low] is the first field
    of a fresh uuid. *)
Definition new_project_id (repoUrl : string) (time_low : Z) : string :=
  replace ".git" EmptyString (last_item (split "/" repoUrl)) +:+ "-" +:+ str_of_Z time_low.

Definition create_project_payload (data : CreateProjectRequest.t) (time_low : Z)
    : Payload.t :=
  Payload.mk "/api/projects/create" "POST"
    (list_to_map
       [("repoUrl", CreateProjectRequest.repoUrl data);
        ("walletAddress", CreateProjectRequest.walletAddress data);
        ("side", CreateProjectRequest.side data);
        ("projectId", new_project_id (CreateProjectRequest.repoUrl data) time_low)]).

(** 1) Create Project (5 ADA payment required). *)
Definition create_project (o : Creation.t) (time_low : Z)
    (data : CreateProjectRequest.t) : M Created.t :=
  try_except
    (create_payment_job o (CreateProjectRequest.identifier_from_purchaser data)
       "5000000" "create_project" (create_project_payload data time_low))
    (fun e => raise (HTTPException 500 ("Failed to create project: " +:+ str e))).

(** The dictionary a free operation returns. *)
Module Done.
Record t := mk { status : string; result : json }.
End Done.

(** 2) Setup Project Info (free if the project was paid for). *)
Definition setup_info (reply : express_reply) (data : SetupInfoRequest.t) : M Done.t :=
  try_except
    (paid <- (fun w => (Ret (project_payments w), w)) ;;
     (if decide (paid !! SetupInfoRequest.projectId data = None)
      then raise (HTTPException 402 "Project creation payment required first")
      else ret tt) ;;
     result <- call_express_api reply
                 ("/api/projects/" +:+ SetupInfoRequest.projectId data +:+ "/setup-info")
                 "POST"
                 (Some (list_to_map
                    [("name", SetupInfoRequest.name data);
                     ("description", SetupInfoRequest.description data);
                     ("technicalDescription", SetupInfoRequest.technicalDescription data);
                     ("imageUrl", SetupInfoRequest.imageUrl data)])) ;;
     ret (Done.mk "success" result))
    (fun e =>
       match e with
       | HTTPException _ _ => raise e
       | _ => raise (HTTPException 500 ("Failed to setup project info: " +:+ str e))
       end).

Definition interact_payload (data : InteractRequest.t) : Payload.t :=
  Payload.mk ("/api/projects/" +:+ InteractRequest.projectId data +:+ "/interact") "POST"
    (list_to_map [("prompt", InteractRequest.prompt data)]).

(** 6) Interact with Project (1 ADA payment required). *)
Definition interact (o : Creation.t) (data : InteractRequest.t) : M Created.t :=
  try_except
    (create_payment_job o (InteractRequest.identifier_from_purchaser data)
       "1000000" "interact" (interact_payload data))
    (fun e => raise (HTTPException 500 ("Failed to process interaction: " +:+ str e))).

Definition analyze_payload (data : AnalyzeRequest.t) : Payload.t :=
  Payload.mk "/api/github/analyze" "POST"
    (list_to_map
       [("repoUrl", AnalyzeRequest.repoUrl data);
        ("userId", AnalyzeRequest.userId data);
        ("projectKey", AnalyzeRequest.projectKey data)]).

(** 7) Analyze GitHub Repository (2 ADA payment required). *)
Definition analyze (o : Creation.t) (data : AnalyzeRequest.t) : M Created.t :=
  try_except
    (create_payment_job o (AnalyzeRequest.identifier_from_purchaser data)
       "2000000" "analyze" (analyze_payload data))
    (fun e => raise (HTTPException 500 ("Failed to analyze repository: " +:+ str e))).

(** ** Status *)

(** The dictionary [get_status] returns. *)
Module View.
Record t := mk {
  job_id : string;
  status : job_status;
  payment_status : option string;
  action : string;
  result : json
}.
End View.

(** [status.get("data", {}).get("status")]. *)
Definition polled_status (status : gmap string (gmap string string)) : option string :=
  default ∅ (status !! "data") !! "status".

Definition get_status (poll : outcome (gmap string (gmap string string)))
    (job_id : string) : M View.t :=
  known <- (fun w => (Ret (jobs w), w)) ;;
  (if decide (known !! job_id = None)
   then raise (HTTPException 404 "Job not found")
   else ret tt) ;;
  instances <- (fun w => (Ret (payment_instances w), w)) ;;
  (if decide (instances !! job_id = None) then ret tt
   else
     try_except
       (emit (CheckPaymentStatus job_id) ;;
        status <- answer poll ;;
        update_job job_id (set_payment_status (polled_status status)))
       (fun e => update_job job_id (set_payment_status (Some "error")))) ;;
  job <- (fun w => getitem (jobs w) job_id w) ;;
  ret (View.mk job_id (Job.status job) (Job.payment_status job) (Job.action job)
               (Job.result job)).

(** ** Runs of the engine *)

(** The callback [create_payment_job] registers for a job: the closure
    captures the job id, the action and the payload, which are also what the
    job record keeps (no handler rewrites those two fields).  No closure exists
    for an id that was never created. *)
Definition payment_callback (reply : express_reply) (completion : outcome unit)
    (job_id payment_id : string) : world -> world :=
  fun w =>
    match jobs w !! job_id with
    | Some j =>
        snd (process_payment_and_execute reply completion job_id payment_id
               (Job.action j) (Job.payload j) w)
    | None => w
    end.

Inductive op :=
| CreateProject (o : Creation.t) (time_low : Z) (data : CreateProjectRequest.t)
| Interact (o : Creation.t) (data : InteractRequest.t)
| Analyze (o : Creation.t) (data : AnalyzeRequest.t)
| SetupInfo (reply : express_reply) (data : SetupInfoRequest.t)
| GetStatus (poll : outcome (gmap string (gmap string string))) (job_id : string)
| Settled (reply : express_reply) (completion : outcome unit) (job_id payment_id : string).

Definition step (w : world) (o : op) : world :=
  match o with
  | CreateProject c time_low data => snd (create_project c time_low data w)
  | Interact c data => snd (interact c data w)
  | Analyze c data => snd (analyze c data w)
  | SetupInfo reply data => snd (setup_info reply data w)
  | GetStatus poll job_id => snd (get_status poll job_id w)
  | Settled reply completion job_id payment_id =>
      payment_callback reply completion job_id payment_id w
  end.

Definition run (ops : list op) (w : world) : world := foldl step w ops.

(** The values the events [es] write to the status of [job_id], oldest first. *)
Definition statuses (job_id : string) (es : list event) : list job_status :=
  omap (fun e => match e with
                 | SetStatus j s => if decide (j = job_id) then Some s else None
                 | _ => None
                 end) es.

(** Every value the status of [job_id] has had. *)
Definition status_history (job_id : string) (w : world) : list job_status :=
  statuses job_id (trace w).

(** The requests sent to the Express server are the dispatches. *)
Definition is_dispatch (e : event) : bool :=
  match e with HttpRequest _ _ _ => true | _ => false end.

(** The requests sent to the Express server, oldest first. *)
Definition dispatches (w : world) : list event := List.filter is_dispatch (trace w).

(** ** What the handlers compute, in closed form *)

(** [w] with further events at the end of its trace. *)
Definition logged (w : world) (es : list event) : world :=
  World (jobs w) (payment_instances w) (project_payments w) (environ w) (trace w ++ es).

(** What [call_express_api] returns or raises for a reply of the server. *)
Definition express_outcome (reply : express_reply) (method : string) : outcome json :=
  if decide (method = "POST" \/ method = "GET") then
    match reply with
    | ReplyJson body => Ret body
    | ReplyTimeout => Raise (HTTPException 504 "Express server timeout")
    | ReplyStatusError c t => Raise (HTTPException c ("Express server error: " +:+ t))
    | ReplyException m =>
        Raise (HTTPException 500 ("Failed to communicate with Express server: " +:+ m))
    end
  else Raise (HTTPException 500 ("Failed to communicate with Express server: " +:+
                                 "Unsupported HTTP method: " +:+ method)).

(** The request [call_express_api] sends, if the method is one it knows. *)
Definition express_events (endpoint method : string) (data : option (gmap string string))
    : list event :=
  if decide (method = "POST") then [HttpRequest "POST" endpoint data]
  else if decide (method = "GET") then [HttpRequest "GET" endpoint None]
  else [].

(** The job record at the end of the except branch of the callback. *)
Definition failed_job (e : exn) (j : Job.t) : Job.t :=
  set_error (str e) (set_status failed (set_status running j)).

(** The job record at the end of the try branch of the callback. *)
Definition completed_job (r : json) (j : Job.t) : Job.t :=
  set_result r (set_payment_status (Some "completed")
                  (set_status completed (set_status running j))).

(** The call to [stop_status_monitoring], made when the instance is registered. *)
Definition stop_events (pis : gmap string Payment.t) (job_id : string) : list event :=
  if pis !! job_id is Some _ then [StopStatusMonitoring job_id] else [].

(** What one run of the callback does to a known job. *)
Definition settled (reply : express_reply) (completion : outcome unit)
    (job_id payment_id action : string) (payload : Payload.t) (j : Job.t) (w : world)
    : world :=
  let sent := express_events (Payload.endpoint payload) (Payload.method payload)
                             (Some (Payload.data payload)) in
  let giving_up e evs :=
    World (<[job_id := failed_job e j]> (jobs w)) (delete job_id (payment_instances w))
          (project_payments w) (environ w)
          (trace w ++ SetStatus job_id running :: sent ++ evs ++
             SetStatus job_id failed :: stop_events (payment_instances w) job_id) in
  match express_outcome reply (Payload.method payload) with
  | Raise e => giving_up e []
  | Ret r =>
      match payment_instances w !! job_id with
      | None => giving_up (KeyError job_id) []
      | Some _ =>
          match completion with
          | Raise e => giving_up e [CompletePayment job_id payment_id r]
          | Ret _ =>
              World (<[job_id := completed_job r j]> (jobs w))
                    (delete job_id (payment_instances w))
                    (if decide (action = "create_project")
                     then <[project_key payload := true]> (project_payments w)
                     else project_payments w)
                    (environ w)
                    (trace w ++ SetStatus job_id running :: sent ++
                       [CompletePayment job_id payment_id r; SetStatus job_id completed;
                        StopStatusMonitoring job_id])
          end
      end
  end.

(** The [Payment] object [create_payment_job] builds. *)
Definition new_payment (o : Creation.t) (identifier_from_purchaser amount action : string)
    (payload : Payload.t) (w : world) : Payment.t :=
  Payment.mk (environ w !! "AGENT_IDENTIFIER") [Amount.mk amount "lovelace"]
             identifier_from_purchaser (action, payload) (environ w !! "NETWORK") ∅
             (Creation.input_hash o).

(** The job record [create_payment_job] stores. *)
Definition new_job (payment_id action : string) (payload : Payload.t)
    (identifier_from_purchaser : string) : Job.t :=
  Job.mk awaiting_payment (Some "pending") payment_id action payload JNull
         identifier_from_purchaser None.

(** The payment id a creation obtains, or the exception that stops it before
    anything is stored. *)
Definition requested (o : Creation.t) : outcome string :=
  match Creation.payment_request o with
  | Raise e => Raise e
  | Ret payment_request =>
      match payment_request !! "data" with
      | None => Raise (KeyError "data")
      | Some request_data =>
          match request_data !! "blockchainIdentifier" with
          | None => Raise (KeyError "blockchainIdentifier")
          | Some payment_id => Ret payment_id
          end
      end
  end.

(** The world a call of [create_payment_job] leaves, however it ends. *)
Definition created (o : Creation.t) (identifier_from_purchaser amount action : string)
    (payload : Payload.t) (w : world) : world :=
  let payment := new_payment o identifier_from_purchaser amount action payload w in
  match requested o with
  | Raise _ => logged w [CreatePaymentRequest payment]
  | Ret payment_id =>
      World (<[Creation.uuid4 o := new_job payment_id action payload identifier_from_purchaser]>
               (jobs w))
            (<[Creation.uuid4 o := add_payment_id payment_id payment]> (payment_instances w))
            (project_payments w) (environ w)
            (trace w ++ [CreatePaymentRequest payment;
                         SetStatus (Creation.uuid4 o) awaiting_payment;
                         StartStatusMonitoring (Creation.uuid4 o)])
  end.

(** A handler fragment that does not change the world. *)
Definition reads_only {A} (m : M A) : Prop := forall w, snd (m w) = w.

(** The dictionary [get_status] returns for a job record. *)
Definition view_of (job_id : string) (j : Job.t) : View.t :=
  View.mk job_id (Job.status j) (Job.payment_status j) (Job.action j) (Job.result j).

(** The payment status a poll leaves in the job. *)
Definition refreshed (poll : outcome (gmap string (gmap string string))) : option string :=
  match poll with
  | Ret status => polled_status status
  | Raise _ => Some "error"
  end.

(** The payment-required signal: the exception the gate of a free operation
    raises.  (A 402 of the Express server itself is relayed with another
    detail, Express server error: ....) *)
Definition payment_required : exn :=
  HTTPException 402 "Project creation payment required first".

(** The request [setup_info] sends to the Express server. *)
Definition setup_info_request (data : SetupInfoRequest.t) : event :=
  HttpRequest "POST" ("/api/projects/" +:+ SetupInfoRequest.projectId data +:+ "/setup-info")
    (Some (list_to_map
       [("name", SetupInfoRequest.name data);
        ("description", SetupInfoRequest.description data);
        ("technicalDescription", SetupInfoRequest.technicalDescription data);
        ("imageUrl", SetupInfoRequest.imageUrl data)])).

(** ** Observations on the trace *)

(** The methods for which [call_express_api] sends a request. *)
Definition sends_request (method : string) : Prop := method = "POST" \/ method = "GET".

(** The amounts asked of the payment service so far, oldest first. *)
Definition fee_requests (w : world) : list Amount.t :=
  flat_map (fun e => match e with
                     | CreatePaymentRequest p => Payment.amounts p
                     | _ => []
                     end) (trace w).

(** ** Creations and the lifecycle of a job *)

(** What a creation endpoint does to the world, whichever of the three it is. *)
Definition creation_of (o : op) : option (world -> world) :=
  match o with
  | CreateProject c time_low data =>
      Some (created c (CreateProjectRequest.identifier_from_purchaser data) "5000000"
              "create_project" (create_project_payload data time_low))
  | Interact c data =>
      Some (created c (InteractRequest.identifier_from_purchaser data) "1000000"
              "interact" (interact_payload data))
  | Analyze c data =>
      Some (created c (AnalyzeRequest.identifier_from_purchaser data) "2000000"
              "analyze" (analyze_payload data))
  | _ => None
  end.

(** The way a job reaches a status. *)
Definition lifecycle (s : job_status) : list job_status :=
  match s with
  | awaiting_payment => [awaiting_payment]
  | running => [awaiting_payment; running]
  | completed => [awaiting_payment; running; completed]
  | failed => [awaiting_payment; running; failed]
  end.

(** ** A concrete run *)

(** A concrete run used to exercise the theorems: a project is requested, the
    payment service answers with a complete payment request, and monitoring
    starts. *)
Definition demo_creation : Creation.t :=
  Creation.mk "job-1" "hash"
    (Ret {[ "data" := list_to_map [("blockchainIdentifier", "pay-1");
                                   ("submitResultTime", "100");
                                   ("unlockTime", "200");
                                   ("externalDisputeUnlockTime", "300")] ]})
    (Ret tt).

Definition demo_project : CreateProjectRequest.t :=
  CreateProjectRequest.mk "buyer" "https://github.com/acme/repo.git" "addr1" "light".

Definition demo_payload : Payload.t := create_project_payload demo_project 7.

Definition demo_job : Job.t := new_job "pay-1" "create_project" demo_payload "buyer".

Definition demo_payment : Payment.t :=
  add_payment_id "pay-1"
    (new_payment demo_creation "buyer" "5000000" "create_project" demo_payload (init ∅)).

Definition demo_world : world := snd (create_project demo_creation 7 demo_project (init ∅)).

(** A successful answer of the Express server to the project creation. *)
Definition demo_reply : express_reply := ReplyJson (JObj [("projectId", JStr "p1")]).

(** The demo job after its payment settled and everything went well. *)
Definition demo_settled : world :=
  snd (process_payment_and_execute demo_reply (Ret tt) "job-1" "pay-1" "create_project"
         demo_payload demo_world).

(** The same callback delivered a second time. *)
Definition demo_settled_twice : world :=
  snd (process_payment_and_execute demo_reply (Ret tt) "job-1" "pay-1" "create_project"
         demo_payload demo_settled).

(** A creation whose payment request succeeds but whose monitoring cannot be
    started. *)
Definition demo_unmonitored : Creation.t :=
  Creation.mk "job-1" "hash" (Creation.payment_request demo_creation)
              (Raise (Exception "monitoring unavailable")).

(** A setup_info request for a project. *)
Definition demo_setup (projectId : string) : SetupInfoRequest.t :=
  SetupInfoRequest.mk projectId "Repo" "A repository" "Rocq" "https://example.org/logo.png".

(** A payment request whose answer lacks the unlock times. *)
Definition demo_incomplete : Creation.t :=
  Creation.mk "job-1" "hash"
    (Ret {[ "data" := list_to_map [("blockchainIdentifier", "pay-1");
                                   ("submitResultTime", "100")] ]})
    (Ret tt).

(** ** The setup_ip endpoint *)

Module SetupIPRequest.
Record t := mk {
  projectId : string;
  title : string;
  description : string;
  imageURL : string;
  remixFee : string;
  commercialRevShare : string
}.
End SetupIPRequest.

(** 5) Setup IP (free if the project was paid for). *)
Definition setup_ip (reply : express_reply) (data : SetupIPRequest.t) : M Done.t :=
  try_except
    (paid <- (fun w => (Ret (project_payments w), w)) ;;
     (if decide (paid !! SetupIPRequest.projectId data = None)
      then raise (HTTPException 402 "Project creation payment required first")
      else ret tt) ;;
     result <- call_express_api reply
                 ("/api/projects/" +:+ SetupIPRequest.projectId data +:+ "/setup-ip")
                 "POST"
                 (Some (list_to_map
                    [("title", SetupIPRequest.title data);
                     ("description", SetupIPRequest.description data);
                     ("imageURL", SetupIPRequest.imageURL data);
                     ("remixFee", SetupIPRequest.remixFee data);
                     ("commercialRevShare", SetupIPRequest.commercialRevShare data)])) ;;
     ret (Done.mk "success" result))
    (fun e =>
       match e with
       | HTTPException _ _ => raise e
       | _ => raise (HTTPException 500 ("Failed to setup IP: " +:+ str e))
       end).

(** The request [setup_ip] sends to the Express server. *)
Definition setup_ip_request (data : SetupIPRequest.t) : event :=
  HttpRequest "POST" ("/api/projects/" +:+ SetupIPRequest.projectId data +:+ "/setup-ip")
    (Some (list_to_map
       [("title", SetupIPRequest.title data);
        ("description", SetupIPRequest.description data);
        ("imageURL", SetupIPRequest.imageURL data);
        ("remixFee", SetupIPRequest.remixFee data);
        ("commercialRevShare", SetupIPRequest.commercialRevShare data)])).

(** ** Further observations: creations, static fields, strings *)

(** The job id a creation endpoint uses. *)
Definition creates (o : op) : option string :=
  match o with
  | CreateProject c _ _ | Interact c _ | Analyze c _ => Some (Creation.uuid4 c)
  | _ => None
  end.

(** The fields of a job record that are set at creation and never assigned
    again: payment id, action, payload and purchaser. *)
Definition static_part (j : Job.t) : string * string * Payload.t * string :=
  (Job.payment_id j, Job.action j, Job.payload j, Job.identifier_from_purchaser j).

(** [sep.join(l)]. *)
Fixpoint join (sep : string) (l : list string) : string :=
  match l with
  | [] => EmptyString
  | [x] => x
  | x :: rest => x +:+ sep +:+ join sep rest
  end.

(** [c in s] for a character. *)
Fixpoint has_char (c : ascii) (s : string) : bool :=
  match s with
  | EmptyString => false
  | String c' s' => if decide (c' = c) then true else has_char c s'
  end.

(** ** Handlers that overlap *)

(** Every handler is a coroutine: at an await it is suspended and other
    handlers run.  A [task] is a handler suspended at one of the awaits after
    which it still writes to the stores, with the local variables it holds:
    [create_payment_job] at [create_payment_request] (line 202), [get_status]
    at [check_payment_status] (line 458), the callback at [call_express_api]
    (line 146) and at [complete_payment] (line 151). *)
Inductive task :=
| AwaitingPaymentRequest (o : Creation.t) (payment : Payment.t)
                         (identifier_from_purchaser action : string) (payload : Payload.t)
| AwaitingPoll (job_id : string)
| AwaitingExpress (job_id payment_id action : string) (payload : Payload.t)
| AwaitingCompletion (job_id payment_id action : string) (payload : Payload.t)
                     (result : json).

Record config := Config { state : world; in_flight : list task }.

Definition initial (env : gmap string string) : config := Config (init env) [].

(** [create_payment_job] up to its first await: the Payment is built and the
    payment request sent. *)
Definition create_payment_job_begin (o : Creation.t)
    (identifier_from_purchaser amount action : string) (payload : Payload.t)
    : M Payment.t :=
  agent_identifier <- getenv "AGENT_IDENTIFIER" ;;
  let amounts := [Amount.mk amount "lovelace"] in
  NETWORK <- getenv "NETWORK" ;;
  let payment :=
    Payment.mk agent_identifier amounts identifier_from_purchaser (action, payload)
               NETWORK ∅ (Creation.input_hash o) in
  emit (CreatePaymentRequest payment) ;;
  ret payment.

(** [create_payment_job] from the answer to the payment request up to the
    await of [start_status_monitoring]: the job is stored and the payment
    instance registered.  What follows that await only builds the returned
    dictionary. *)
Definition create_payment_job_store (o : Creation.t) (payment : Payment.t)
    (identifier_from_purchaser action : string) (payload : Payload.t) : M unit :=
  let job_id := Creation.uuid4 o in
  payment_request <- answer (Creation.payment_request o) ;;
  request_data <- getitem payment_request "data" ;;
  payment_id <- getitem request_data "blockchainIdentifier" ;;
  let payment := add_payment_id payment_id payment in
  store_job job_id
    (Job.mk awaiting_payment (Some "pending") payment_id action payload JNull
            identifier_from_purchaser None) ;;
  emit (SetStatus job_id awaiting_payment) ;;
  (fun w => (Ret tt, with_payment_instances (insert job_id payment) w)) ;;
  emit (StartStatusMonitoring job_id).

(** [get_status] from the answer of the poll on: the try block's assignment,
    or the except branch.  The dictionary [job] it writes to is the one found
    in [jobs] before the await; job ids being fresh, it is still [jobs[job_id]]. *)
Definition get_status_resume (poll : outcome (gmap string (gmap string string)))
    (job_id : string) : M unit :=
  try_except
    (status <- answer poll ;;
     update_job job_id (set_payment_status (polled_status status)))
    (fun e => update_job job_id (set_payment_status (Some "error"))).

(** The except branch of the callback. *)
Definition callback_except (job_id : string) (e : exn) : M unit :=
  write_status job_id failed ;;
  update_job job_id (set_error (str e)) ;;
  release_monitoring job_id.

(** The callback from the answer of [complete_payment] to its end. *)
Definition callback_finish (job_id action : string) (payload : Payload.t) (result : json)
    : M unit :=
  try_except
    (write_status job_id completed ;;
     update_job job_id (set_payment_status (Some "completed")) ;;
     update_job job_id (set_result result) ;;
     (if decide (action = "create_project") then mark_paid (project_key payload)
      else ret tt) ;;
     release_monitoring job_id)
    (callback_except job_id).

(** What the outside world does next: a request arrives and its handler runs
    up to its first await, or the answer a suspended handler waits for arrives
    and the handler (the [i]-th in flight) runs up to its next await or its
    end.  [setup_info] writes nothing after its await, and is one step. *)
Inductive move :=
| CreationBegins (o : Creation.t) (identifier_from_purchaser amount action : string)
                 (payload : Payload.t)
| PaymentRequestReplies (i : nat)
| SetupInfoCalled (reply : express_reply) (data : SetupInfoRequest.t)
| StatusBegins (job_id : string)
| PollReplies (i : nat) (poll : outcome (gmap string (gmap string string)))
| CallbackBegins (job_id payment_id : string)
| ExpressReplies (i : nat) (reply : express_reply)
| CompletionReplies (i : nat) (completion : outcome unit).

(** The callback up to the await of the Express call: the status becomes
    running and the request is sent.  For an unknown job the except branch
    raises in its turn. *)
Definition callback_begin (job_id payment_id action : string) (payload : Payload.t)
    (c : config) : config :=
  match write_status job_id running (state c) with
  | (Ret _, w) =>
      Config (logged w (express_events (Payload.endpoint payload) (Payload.method payload)
                          (Some (Payload.data payload))))
             (in_flight c ++ [AwaitingExpress job_id payment_id action payload])
  | (Raise e, w) => Config (snd (callback_except job_id e w)) (in_flight c)
  end.

(** The callback from the answer of the Express call to the await of
    [complete_payment], or through the except branch to its end. *)
Definition callback_dispatched (reply : express_reply)
    (job_id payment_id action : string) (payload : Payload.t)
    (w : world) : world * list task :=
  match express_outcome reply (Payload.method payload) with
  | Raise e => (snd (callback_except job_id e w), [])
  | Ret result =>
      match (_ <- payment_instance job_id ;;
             emit (CompletePayment job_id payment_id result)) w with
      | (Ret _, w') => (w', [AwaitingCompletion job_id payment_id action payload result])
      | (Raise e, w') => (snd (callback_except job_id e w'), [])
      end
  end.

Definition play1 (c : config) (m : move) : config :=
  match m with
  | CreationBegins o identifier_from_purchaser amount action payload =>
      match create_payment_job_begin o identifier_from_purchaser amount action payload
              (state c) with
      | (Ret payment, w) =>
          Config w (in_flight c ++
                    [AwaitingPaymentRequest o payment identifier_from_purchaser action payload])
      | (Raise _, w) => Config w (in_flight c)
      end
  | PaymentRequestReplies i =>
      match in_flight c !! i with
      | Some (AwaitingPaymentRequest o payment identifier_from_purchaser action payload) =>
          Config (snd (create_payment_job_store o payment identifier_from_purchaser action
                         payload (state c)))
                 (delete i (in_flight c))
      | _ => c
      end
  | SetupInfoCalled reply data =>
      Config (snd (setup_info reply data (state c))) (in_flight c)
  | StatusBegins job_id =>
      match jobs (state c) !! job_id, payment_instances (state c) !! job_id with
      | Some _, Some _ =>
          Config (logged (state c) [CheckPaymentStatus job_id])
                 (in_flight c ++ [AwaitingPoll job_id])
      | _, _ => c
      end
  | PollReplies i poll =>
      match in_flight c !! i with
      | Some (AwaitingPoll job_id) =>
          Config (snd (get_status_resume poll job_id (state c))) (delete i (in_flight c))
      | _ => c
      end
  | CallbackBegins job_id payment_id =>
      match jobs (state c) !! job_id with
      | Some j => callback_begin job_id payment_id (Job.action j) (Job.payload j) c
      | None => c
      end
  | ExpressReplies i reply =>
      match in_flight c !! i with
      | Some (AwaitingExpress job_id payment_id action payload) =>
          let (w, next) := callback_dispatched reply job_id payment_id action payload
                             (state c) in
          Config w (delete i (in_flight c) ++ next)
      | _ => c
      end
  | CompletionReplies i completion =>
      match in_flight c !! i with
      | Some (AwaitingCompletion job_id payment_id action payload result) =>
          Config (snd (match completion with
                       | Ret _ => callback_finish job_id action payload result (state c)
                       | Raise e => callback_except job_id e (state c)
                       end))
                 (delete i (in_flight c))
      | _ => c
      end
  end.

Definition play (moves : list move) (c : config) : config := foldl play1 c moves.

(** The callbacks of [job_id] that are suspended. *)
Definition is_callback_of (job_id : string) (t : task) : bool :=
  match t with
  | AwaitingExpress j _ _ _ | AwaitingCompletion j _ _ _ _ => bool_decide (j = job_id)
  | _ => false
  end.

Definition callbacks_of (job_id : string) (l : list task) : nat :=
  length (List.filter (is_callback_of job_id) l).

(** A move the engine can meet when job ids are fresh and the payment monitor
    invokes the callback of a job at most once: a creation stores under an id
    that is not in use, and a callback begins only for a job whose status was
    never set to running. *)
Definition allowed (c : config) (m : move) : Prop :=
  match m with
  | PaymentRequestReplies i =>
      match in_flight c !! i with
      | Some (AwaitingPaymentRequest o _ _ _ _) => jobs (state c) !! Creation.uuid4 o = None
      | _ => True
      end
  | CallbackBegins job_id _ => running ∉ status_history job_id (state c)
  | _ => True
  end.

(** A schedule all of whose moves are allowed where they happen. *)
Fixpoint allowed_schedule (c : config) (moves : list move) : Prop :=
  match moves with
  | [] => True
  | m :: rest => allowed c m /\ allowed_schedule (play1 c m) rest
  end.

(** The invariant of allowed schedules, for one job id. *)
Definition job_inv (c : config) (job_id : string) : Prop :=
  match Job.status <$> jobs (state c) !! job_id with
  | None =>
      status_history job_id (state c) = [] /\
      callbacks_of job_id (in_flight c) = 0%nat /\
      payment_instances (state c) !! job_id = None
  | Some s =>
      status_history job_id (state c) = lifecycle s /\
      callbacks_of job_id (in_flight c) = (if decide (s = running) then 1 else 0)%nat /\
      (is_Some (payment_instances (state c) !! job_id) <-> terminal s = false)
  end.

(** A schedule in which the demo job is created and its callback runs to the
    end while a status query is suspended at its poll. *)
Definition demo_overlap : list move :=
  [CreationBegins demo_creation "buyer" "5000000" "create_project" demo_payload;
   PaymentRequestReplies 0;
   StatusBegins "job-1";
   CallbackBegins "job-1" "pay-1";
   ExpressReplies 1 demo_reply;
   CompletionReplies 1 (Ret tt)].

(** The demo job is created and its callback is suspended at the Express call. *)
Definition demo_dispatching : list move :=
  [CreationBegins demo_creation "buyer" "5000000" "create_project" demo_payload;
   PaymentRequestReplies 0;
   CallbackBegins "job-1" "pay-1"].

(** * The model on concrete inputs *)

Example split_url :
  split "/" "https://github.com/acme/repo.git" =
    ["https:"; EmptyString; "github.com"; "acme"; "repo.git"].
Proof. reflexivity. Qed.

Example split_trailing_slash : last_item (split "/" "acme/repo/") = EmptyString.
Proof. reflexivity. Qed.

Example replace_git : replace ".git" EmptyString "my.github.git" = "myhub".
Proof. reflexivity. Qed.

Example new_project_id_demo :
  new_project_id "https://github.com/acme/repo.git" 7 = "repo-7".
Proof. reflexivity. Qed.

Example str_timeout :
  str (HTTPException 504 "Express server timeout") = "504: Express server timeout".
Proof. reflexivity. Qed.

Example create_project_demo :
  fst (create_project demo_creation 7 demo_project (init ∅)) =
    Ret (Created.mk "success" "job-1" "pay-1" "100" "200" "300" None None "buyer"
           [Amount.mk "5000000" "lovelace"] "hash").
Proof. vm_compute. reflexivity. Qed.

Example demo_world_trace :
  trace demo_world =
    [CreatePaymentRequest
       (new_payment demo_creation "buyer" "5000000" "create_project" demo_payload (init ∅));
     SetStatus "job-1" awaiting_payment;
     StartStatusMonitoring "job-1"].
Proof. vm_compute. reflexivity. Qed.

Example demo_settled_trace :
  trace demo_settled =
    trace demo_world ++
    [SetStatus "job-1" running;
     HttpRequest "POST" "/api/projects/create" (Some (Payload.data demo_payload));
     CompletePayment "job-1" "pay-1" (JObj [("projectId", JStr "p1")]);
     SetStatus "job-1" completed;
     StopStatusMonitoring "job-1"].
Proof. vm_compute. reflexivity. Qed.

(** * Equations of the handlers *)

Lemma call_express_api_eq reply endpoint method data w :
  call_express_api reply endpoint method data w =
    (express_outcome reply method, logged w (express_events endpoint method data)).
Proof.
  unfold call_express_api, express_outcome, express_events, try_except, bind, emit, logged.
  destruct (decide (method = "POST")) as [->|Hp].
  - rewrite decide_True by (left; reflexivity). destruct reply; reflexivity.
  - destruct (decide (method = "GET")) as [->|Hg].
    + rewrite decide_True by (right; reflexivity). destruct reply; reflexivity.
    + rewrite decide_False by (intros [?|?]; congruence). cbn.
      destruct w; cbn. rewrite app_nil_r. reflexivity.
Qed.

Section Steps.
Context (js : gmap string Job.t) (pis : gmap string Payment.t)
        (pp : gmap string bool) (env : gmap string string) (tr : list event).

Lemma update_job_eq job_id f j :
  js !! job_id = Some j ->
  update_job job_id f (World js pis pp env tr) =
    (Ret tt, World (<[job_id := f j]> js) pis pp env tr).
Proof. intros H. unfold update_job. cbn. rewrite H. reflexivity. Qed.

Lemma write_status_eq job_id s j :
  js !! job_id = Some j ->
  write_status job_id s (World js pis pp env tr) =
    (Ret tt, World (<[job_id := set_status s j]> js) pis pp env (tr ++ [SetStatus job_id s])).
Proof. intros H. unfold write_status, bind. rewrite (update_job_eq _ _ _ H). reflexivity. Qed.

Lemma release_monitoring_eq job_id :
  release_monitoring job_id (World js pis pp env tr) =
    (Ret tt, World js (delete job_id pis) pp env
               (tr ++ if pis !! job_id is Some _ then [StopStatusMonitoring job_id] else [])).
Proof.
  unfold release_monitoring. cbn. destruct (pis !! job_id) eqn:E; cbn.
  - reflexivity.
  - rewrite app_nil_r, delete_id by done. reflexivity.
Qed.

Lemma complete_payment_eq completion job_id payment_id r :
  complete_payment completion job_id payment_id r (World js pis pp env tr) =
    match pis !! job_id with
    | Some _ => (completion, World js pis pp env (tr ++ [CompletePayment job_id payment_id r]))
    | None => (Raise (KeyError job_id), World js pis pp env tr)
    end.
Proof.
  unfold complete_payment, payment_instance, getitem, bind, emit, answer. cbn.
  destruct (pis !! job_id); reflexivity.
Qed.
End Steps.

Ltac job_step :=
  first
    [ erewrite write_status_eq by (first [eassumption | apply lookup_insert_eq])
    | erewrite update_job_eq by (first [eassumption | apply lookup_insert_eq])
    | rewrite release_monitoring_eq
    | rewrite call_express_api_eq ];
  cbv beta iota; unfold logged;
  cbn [jobs payment_instances project_payments environ trace];
  rewrite ?insert_insert_eq.

Lemma process_payment_and_execute_known reply completion job_id payment_id action payload j w :
  jobs w !! job_id = Some j ->
  process_payment_and_execute reply completion job_id payment_id action payload w =
    (Ret tt, settled reply completion job_id payment_id action payload j w).
Proof.
  destruct w as [js pis pp env tr]. cbn [jobs]. intros Hj.
  unfold process_payment_and_execute, settled, try_except, failed_job, completed_job, stop_events.
  cbn [jobs payment_instances project_payments environ trace].
  unfold bind at 1. job_step. unfold bind at 1. job_step.
  destruct (express_outcome reply (Payload.method payload)) as [r|e].
  - cbv beta iota. unfold bind at 1. rewrite complete_payment_eq.
    destruct (pis !! job_id) as [pay|] eqn:Hp.
    + destruct completion as [[]|e]; cbv beta iota.
      * unfold bind at 1. job_step. unfold bind at 1. job_step. unfold bind at 1. job_step.
        unfold bind at 1, mark_paid, ret, with_project_payments.
        destruct (decide (action = "create_project")); cbv beta iota;
          cbn [jobs payment_instances project_payments environ trace];
          job_step; rewrite Hp, <- !app_assoc; reflexivity.
      * unfold bind at 1. job_step. unfold bind at 1. job_step. job_step.
        rewrite Hp. rewrite <- !app_assoc. reflexivity.
    + cbv beta iota. unfold bind at 1. job_step. unfold bind at 1. job_step. job_step.
      rewrite Hp. rewrite <- !app_assoc. rewrite delete_id by done. reflexivity.
  - cbv beta iota. unfold bind at 1. job_step. unfold bind at 1. job_step. job_step.
    rewrite <- !app_assoc. reflexivity.
Qed.

Lemma create_payment_job_aborts o identifier_from_purchaser amount action payload w e :
  requested o = Raise e ->
  create_payment_job o identifier_from_purchaser amount action payload w =
    (Raise e, logged w [CreatePaymentRequest
                          (new_payment o identifier_from_purchaser amount action payload w)]).
Proof.
  unfold requested, create_payment_job, new_payment, logged.
  unfold bind at 1. unfold getenv at 1. cbv beta iota.
  unfold bind at 1. unfold getenv at 1. cbv beta iota.
  unfold bind at 1. unfold emit at 1. cbv beta iota.
  unfold bind at 1. unfold answer at 1. cbn [jobs payment_instances project_payments environ trace].
  destruct (Creation.payment_request o) as [pr|e']; [|intros [= ->]; reflexivity].
  unfold bind at 1, getitem at 1.
  destruct (pr !! "data") as [d|]; [|intros [= <-]; reflexivity].
  unfold ret at 1. cbv beta iota. unfold bind at 1, getitem at 1.
  destruct (d !! "blockchainIdentifier") as [pid|]; [|intros [= <-]; reflexivity].
  discriminate.
Qed.

Lemma reads_only_bind {A B} (m : M A) (k : A -> M B) :
  reads_only m -> (forall a, reads_only (k a)) -> reads_only (bind m k).
Proof.
  intros Hm Hk w. unfold bind. specialize (Hm w).
  destruct (m w) as [[a|e] w']; cbn in Hm; subst; [apply Hk | reflexivity].
Qed.

Lemma reads_only_getitem {V} (d : gmap string V) key : reads_only (getitem d key).
Proof. intros w. unfold getitem. destruct (d !! key); reflexivity. Qed.

Lemma reads_only_answer {A} (o : outcome A) : reads_only (answer o).
Proof. intros w. reflexivity. Qed.

Lemma reads_only_getenv name : reads_only (getenv name).
Proof. intros w. reflexivity. Qed.

Lemma reads_only_ret {A} (a : A) : reads_only (ret a).
Proof. intros w. reflexivity. Qed.

Lemma create_payment_job_world o identifier_from_purchaser amount action payload w :
  snd (create_payment_job o identifier_from_purchaser amount action payload w) =
    created o identifier_from_purchaser amount action payload w.
Proof.
  unfold created. destruct (requested o) as [pid|e] eqn:Hr.
  - unfold requested in Hr. unfold create_payment_job, new_payment, new_job.
    unfold bind at 1. unfold getenv at 1. cbv beta iota.
    unfold bind at 1. unfold getenv at 1. cbv beta iota.
    unfold bind at 1. unfold emit at 1. cbv beta iota.
    unfold bind at 1. unfold answer at 1.
    destruct (Creation.payment_request o) as [pr|e']; [|discriminate].
    unfold bind at 1, getitem at 1.
    destruct (pr !! "data") as [d|]; [|discriminate].
    unfold ret at 1. cbv beta iota. unfold bind at 1, getitem at 1.
    destruct (d !! "blockchainIdentifier") as [pid'|]; [|discriminate].
    injection Hr as ->.
    unfold ret at 1. cbv beta iota.
    unfold bind at 1. unfold store_job at 1. cbv beta iota.
    unfold bind at 1. unfold emit at 1. cbv beta iota.
    unfold bind at 1. cbv beta iota.
    unfold bind at 1. unfold emit at 1. cbv beta iota.
    unfold with_jobs, with_payment_instances.
    cbn [jobs payment_instances project_payments environ trace].
    rewrite <- !app_assoc.
    apply reads_only_bind; [apply reads_only_answer|]. intros _.
    repeat (apply reads_only_bind;
            [first [apply reads_only_getitem | apply reads_only_getenv]|]; intros ?).
    apply reads_only_ret.
  - rewrite (create_payment_job_aborts _ _ _ _ _ _ _ Hr). reflexivity.
Qed.

Lemma get_status_eq poll job_id w :
  get_status poll job_id w =
    match jobs w !! job_id with
    | None => (Raise (HTTPException 404 "Job not found"), w)
    | Some j =>
        match payment_instances w !! job_id with
        | None => (Ret (view_of job_id j), w)
        | Some _ =>
            let j' := set_payment_status (refreshed poll) j in
            (Ret (view_of job_id j'),
             World (<[job_id := j']> (jobs w)) (payment_instances w) (project_payments w)
                   (environ w) (trace w ++ [CheckPaymentStatus job_id]))
        end
    end.
Proof.
  destruct w as [js pis pp env tr]. unfold get_status, view_of, refreshed.
  unfold bind at 1. cbv beta iota. cbn [jobs payment_instances project_payments environ trace].
  unfold bind at 1.
  destruct (js !! job_id) as [j|] eqn:Hj.
  - rewrite decide_False by discriminate. unfold ret at 1. cbv beta iota.
    unfold bind at 1. cbv beta iota.
    cbn [jobs payment_instances project_payments environ trace].
    unfold bind at 1.
    destruct (pis !! job_id) as [pay|] eqn:Hp.
    + rewrite decide_False by discriminate.
      unfold try_except, bind at 1, emit at 1. cbv beta iota.
      cbn [jobs payment_instances project_payments environ trace].
      unfold bind at 1, answer at 1.
      destruct poll as [st|e]; cbv beta iota.
      * erewrite update_job_eq by eassumption. cbv beta iota.
        unfold bind, getitem, ret. cbn [jobs]. rewrite lookup_insert_eq. reflexivity.
      * erewrite update_job_eq by eassumption. cbv beta iota.
        unfold bind, getitem, ret. cbn [jobs]. rewrite lookup_insert_eq. reflexivity.
    + rewrite decide_True by reflexivity. unfold ret at 1. cbv beta iota.
      unfold bind, getitem, ret. cbn [jobs]. rewrite Hj. reflexivity.
  - rewrite decide_True by reflexivity. reflexivity.
Qed.

Lemma setup_info_eq reply data w :
  setup_info reply data w =
    match project_payments w !! SetupInfoRequest.projectId data with
    | None => (Raise payment_required, w)
    | Some _ =>
        (match express_outcome reply "POST" with
         | Ret r => Ret (Done.mk "success" r)
         | Raise e => Raise e
         end, logged w [setup_info_request data])
    end.
Proof.
  unfold setup_info, try_except, payment_required, setup_info_request.
  unfold bind at 1. cbv beta iota. unfold bind at 1.
  destruct (project_payments w !! SetupInfoRequest.projectId data) as [b|] eqn:Hp.
  - rewrite decide_False by discriminate. unfold ret at 1. cbv beta iota.
    unfold bind at 1. rewrite call_express_api_eq.
    destruct reply; reflexivity.
  - rewrite decide_True by reflexivity. reflexivity.
Qed.

Lemma snd_try_raise {A} (m : M A) (f : exn -> exn) w :
  snd (try_except m (fun e => raise (f e)) w) = snd (m w).
Proof. unfold try_except, raise. destruct (m w) as [[a|e] w']; reflexivity. Qed.

(** * Failures after settlement (C6, C9) *)

Lemma str_HTTPException_nonempty c d : str (HTTPException c d) <> EmptyString.
Proof. cbn. destruct (str_of_Z c); discriminate. Qed.

Lemma express_outcome_error reply method e :
  express_outcome reply method = Raise e -> exists c d, e = HTTPException c d.
Proof.
  unfold express_outcome. destruct (decide _); [destruct reply|]; intros [= <-]; eauto.
Qed.

Lemma express_outcome_failure reply method :
  (forall body, reply <> ReplyJson body) -> exists e, express_outcome reply method = Raise e.
Proof.
  intros H. unfold express_outcome. destruct (decide _); [destruct reply|]; eauto.
  exfalso. eapply H. reflexivity.
Qed.

Lemma dispatches_app w es :
  dispatches (logged w es) = dispatches w ++ List.filter is_dispatch es.
Proof. unfold dispatches, logged. cbn. apply List.filter_app. Qed.

Lemma express_events_sent endpoint method data :
  sends_request method ->
  List.filter is_dispatch (express_events endpoint method data) =
    express_events endpoint method data /\
  length (express_events endpoint method data) = 1%nat.
Proof.
  unfold express_events. intros [-> | ->]; cbn; auto.
Qed.

Lemma dispatches_settled reply completion job_id payment_id action payload j w :
  sends_request (Payload.method payload) ->
  length (dispatches (settled reply completion job_id payment_id action payload j w)) =
    S (length (dispatches w)).
Proof.
  intros Hm. unfold settled, dispatches, stop_events.
  destruct (express_events_sent (Payload.endpoint payload) _ (Some (Payload.data payload)) Hm)
    as [Hf Hl].
  destruct (express_outcome reply (Payload.method payload));
    [destruct (payment_instances w !! job_id); [destruct completion|]|];
    cbn [trace]; rewrite List.filter_app; cbn [List.filter is_dispatch];
    rewrite List.filter_app, Hf, !length_app, Hl;
    try destruct (payment_instances w !! job_id); cbn; lia.
Qed.

(** C6. A settled job whose dispatch fails (timeout, non-success response or
    any other failure of the request) ends failed with a non-empty error, its
    result stays empty, exactly one request was sent (no retry), and monitoring
    is released: stop_status_monitoring is the last call made and the payment
    instance is gone. *)
Theorem dispatch_failure_fails_job w reply completion job_id payment_id j pay :
  jobs w !! job_id = Some j ->
  Job.result j = JNull ->
  payment_instances w !! job_id = Some pay ->
  sends_request (Payload.method (Job.payload j)) ->
  (forall body, reply <> ReplyJson body) ->
  let run := process_payment_and_execute reply completion job_id payment_id
               (Job.action j) (Job.payload j) w in
  fst run = Ret tt /\
  (exists j' msg,
     jobs (snd run) !! job_id = Some j' /\
     Job.status j' = failed /\
     Job.error j' = Some msg /\ msg <> EmptyString /\
     Job.result j' = JNull) /\
  length (dispatches (snd run)) = S (length (dispatches w)) /\
  payment_instances (snd run) !! job_id = None /\
  last (trace (snd run)) = Some (StopStatusMonitoring job_id).
Proof.
  intros Hj Hres Hpay Hm Hreply run. subst run.
  rewrite (process_payment_and_execute_known _ _ _ _ _ _ _ _ Hj). cbn [fst snd].
  split; [reflexivity|]. split; [|split; [apply dispatches_settled, Hm|]].
  - destruct (express_outcome_failure reply (Payload.method (Job.payload j)) Hreply) as [e He].
    destruct (express_outcome_error _ _ _ He) as (c & d & ->).
    unfold settled. rewrite He. cbn [jobs]. rewrite lookup_insert_eq.
    eexists _, _. split; [reflexivity|]. cbn.
    repeat split; auto. apply (str_HTTPException_nonempty c d).
  - destruct (express_outcome_failure reply (Payload.method (Job.payload j)) Hreply) as [e He].
    unfold settled, stop_events. rewrite He, Hpay. cbn [payment_instances trace].
    split; [apply lookup_delete_eq|].
    rewrite app_comm_cons, !app_assoc, last_app. reflexivity.
Qed.

Lemma dispatch_failure_fails_job_witness :
  length (dispatches (snd (process_payment_and_execute ReplyTimeout (Ret tt) "job-1" "pay-1"
                             "create_project" demo_payload demo_world))) = 1%nat /\
  payment_instances (snd (process_payment_and_execute ReplyTimeout (Ret tt) "job-1" "pay-1"
                            "create_project" demo_payload demo_world)) !! "job-1" = None.
Proof.
  destruct (dispatch_failure_fails_job demo_world ReplyTimeout (Ret tt) "job-1" "pay-1"
              demo_job demo_payment) as (_ & _ & Hd & Hp & _).
  - vm_compute. reflexivity.
  - reflexivity.
  - vm_compute. reflexivity.
  - left. reflexivity.
  - discriminate.
  - split; [exact Hd | exact Hp].
Defined.

(** C9. When the Express call succeeds but complete_payment raises, the job
    ends failed with the error recorded and no result, monitoring is released
    and no entitlement is written, although the request to the Express server
    was sent. *)
Theorem completion_failure_fails_job w body e job_id payment_id j pay :
  jobs w !! job_id = Some j ->
  Job.result j = JNull ->
  payment_instances w !! job_id = Some pay ->
  Payload.method (Job.payload j) = "POST" ->
  let run := process_payment_and_execute (ReplyJson body) (Raise e) job_id payment_id
               (Job.action j) (Job.payload j) w in
  fst run = Ret tt /\
  (exists j',
     jobs (snd run) !! job_id = Some j' /\
     Job.status j' = failed /\
     Job.error j' = Some (str e) /\
     Job.result j' = JNull) /\
  payment_instances (snd run) !! job_id = None /\
  project_payments (snd run) = project_payments w /\
  trace (snd run) =
    trace w ++ [SetStatus job_id running;
                HttpRequest "POST" (Payload.endpoint (Job.payload j))
                            (Some (Payload.data (Job.payload j)));
                CompletePayment job_id payment_id body;
                SetStatus job_id failed;
                StopStatusMonitoring job_id].
Proof.
  intros Hj Hres Hpay Hm run. subst run.
  rewrite (process_payment_and_execute_known _ _ _ _ _ _ _ _ Hj). cbn [fst snd].
  unfold settled, stop_events. rewrite Hm, Hpay.
  change (express_outcome (ReplyJson body) "POST") with (@Ret json body).
  change (express_events (Payload.endpoint (Job.payload j)) "POST"
            (Some (Payload.data (Job.payload j))))
    with [HttpRequest "POST" (Payload.endpoint (Job.payload j))
            (Some (Payload.data (Job.payload j)))].
  cbn [jobs payment_instances project_payments trace].
  rewrite lookup_insert_eq, lookup_delete_eq.
  repeat split; eauto.
Qed.

Lemma completion_failure_fails_job_witness :
  Job.status <$> jobs (snd (process_payment_and_execute
                              (ReplyJson (JObj [("projectId", JStr "p1")]))
                              (Raise (Exception "payment service down"))
                              "job-1" "pay-1" "create_project" demo_payload demo_world))
                   !! "job-1" = Some failed /\
  project_payments (snd (process_payment_and_execute
                           (ReplyJson (JObj [("projectId", JStr "p1")]))
                           (Raise (Exception "payment service down"))
                           "job-1" "pay-1" "create_project" demo_payload demo_world)) = ∅.
Proof.
  destruct (completion_failure_fails_job demo_world (JObj [("projectId", JStr "p1")])
              (Exception "payment service down") "job-1" "pay-1" demo_job demo_payment)
    as (_ & (j' & Hj' & Hs & _) & _ & Hpp & _).
  - vm_compute. reflexivity.
  - reflexivity.
  - vm_compute. reflexivity.
  - reflexivity.
  - split; [|exact Hpp].
    change (Job.action demo_job) with "create_project" in Hj'.
    change (Job.payload demo_job) with demo_payload in Hj'.
    rewrite Hj'. cbn. rewrite Hs. reflexivity.
Defined.

(** * Failure before the job exists (C7) *)

(** C7. When the payment request fails, create_payment_job raises that error
    before anything is stored: jobs, payment_instances and project_payments are
    what they were, and create_project turns the error into a 500. *)
Theorem instrument_failure_leaves_no_job
    o identifier_from_purchaser amount action payload time_low data w e :
  Creation.payment_request o = Raise e ->
  let run := create_payment_job o identifier_from_purchaser amount action payload w in
  let call := create_project o time_low data w in
  (fst run = Raise e /\
   jobs (snd run) = jobs w /\
   payment_instances (snd run) = payment_instances w /\
   project_payments (snd run) = project_payments w) /\
  (fst call = Raise (HTTPException 500 ("Failed to create project: " +:+ str e)) /\
   jobs (snd call) = jobs w /\
   payment_instances (snd call) = payment_instances w /\
   project_payments (snd call) = project_payments w).
Proof.
  intros Hreq run call. subst run call.
  assert (Hr : requested o = Raise e) by (unfold requested; rewrite Hreq; reflexivity).
  unfold create_project, try_except.
  rewrite !(create_payment_job_aborts _ _ _ _ _ _ _ Hr). cbn. auto 10.
Qed.

Lemma instrument_failure_leaves_no_job_witness :
  jobs (snd (create_project
               (Creation.mk "job-1" "hash" (Raise (Exception "network unreachable")) (Ret tt))
               7 demo_project (init ∅))) = ∅.
Proof.
  apply (instrument_failure_leaves_no_job
           (Creation.mk "job-1" "hash" (Raise (Exception "network unreachable")) (Ret tt))
           "buyer" "5000000" "create_project" demo_payload 7 demo_project (init ∅)
           (Exception "network unreachable")).
  reflexivity.
Defined.

(** * Status queries (C8) *)

(** C8. get_status raises 404 "Job not found" for an unknown id and changes
    nothing.  For a known job it returns the id, status, payment status, action
    and result; without a payment instance the record is returned as it is,
    with one the payment status is first refreshed from the poll, and a failed
    poll only sets it to "error": the query still returns. *)
Theorem get_status_view poll job_id w :
  (jobs w !! job_id = None ->
   get_status poll job_id w = (Raise (HTTPException 404 "Job not found"), w)) /\
  (forall j, jobs w !! job_id = Some j ->
     exists payment_status,
       fst (get_status poll job_id w) =
         Ret (View.mk job_id (Job.status j) payment_status (Job.action j) (Job.result j)) /\
       (payment_instances w !! job_id = None ->
          payment_status = Job.payment_status j /\ snd (get_status poll job_id w) = w) /\
       (is_Some (payment_instances w !! job_id) ->
          (forall status, poll = Ret status -> payment_status = polled_status status) /\
          (forall e, poll = Raise e -> payment_status = Some "error") /\
          jobs (snd (get_status poll job_id w)) !! job_id =
            Some (set_payment_status payment_status j) /\
          trace (snd (get_status poll job_id w)) = trace w ++ [CheckPaymentStatus job_id])).
Proof.
  rewrite get_status_eq. split.
  - intros ->. reflexivity.
  - intros j ->. destruct (payment_instances w !! job_id) as [pay|] eqn:Hp.
    + exists (refreshed poll). cbn. split; [reflexivity|]. split; [discriminate|].
      intros _. rewrite lookup_insert_eq.
      repeat split; try (intros ? ->; reflexivity).
    + exists (Job.payment_status j). cbn. split; [reflexivity|]. split; [auto|].
      intros [? [=]].
Qed.

Lemma get_status_view_witness :
  fst (get_status (Raise (Exception "poll failed")) "job-1" demo_world) =
    Ret (View.mk "job-1" awaiting_payment (Some "error") "create_project" JNull).
Proof.
  destruct (proj2 (get_status_view (Raise (Exception "poll failed")) "job-1" demo_world)
              demo_job) as (ps & Hv & _ & Hpoll).
  - vm_compute. reflexivity.
  - destruct Hpoll as (_ & He & _).
    + exists demo_payment. vm_compute. reflexivity.
    + rewrite Hv, (He _ eq_refl). reflexivity.
Defined.

(** * Fees (C10) *)

Lemma fee_requests_logged w es :
  fee_requests (logged w es) =
    fee_requests w ++ flat_map (fun e => match e with
                                         | CreatePaymentRequest p => Payment.amounts p
                                         | _ => []
                                         end) es.
Proof. unfold fee_requests, logged. cbn. apply flat_map_app. Qed.

Lemma fee_requests_created o identifier_from_purchaser amount action payload w :
  fee_requests (created o identifier_from_purchaser amount action payload w) =
    fee_requests w ++ [Amount.mk amount "lovelace"].
Proof.
  unfold created. destruct (requested o).
  - unfold fee_requests. cbn [trace]. rewrite flat_map_app. reflexivity.
  - rewrite fee_requests_logged. reflexivity.
Qed.

(** C10. The fee is fixed per action: create_project always asks the payment
    service for 5000000 lovelace and interact for 1000000 lovelace, and
    5000000 > 1000000 > 0.  A free operation asks for no payment: setup_info
    leaves jobs, payment_instances and project_payments as they are and makes
    no payment request. *)
Theorem fees_ordered_and_free_operations_unpaid :
  (forall o time_low data w,
     fee_requests (snd (create_project o time_low data w)) =
       fee_requests w ++ [Amount.mk "5000000" "lovelace"]) /\
  (forall o data w,
     fee_requests (snd (interact o data w)) =
       fee_requests w ++ [Amount.mk "1000000" "lovelace"]) /\
  (exists creation_fee interaction_fee,
     int_of_str "5000000" = Some creation_fee /\
     int_of_str "1000000" = Some interaction_fee /\
     0 < interaction_fee < creation_fee) /\
  (forall reply data w,
     fee_requests (snd (setup_info reply data w)) = fee_requests w /\
     payment_instances (snd (setup_info reply data w)) = payment_instances w /\
     jobs (snd (setup_info reply data w)) = jobs w /\
     project_payments (snd (setup_info reply data w)) = project_payments w).
Proof.
  split; [|split; [|split]].
  - intros. unfold create_project.
    rewrite (snd_try_raise _ (fun e => HTTPException 500 ("Failed to create project: " +:+ str e))).
    rewrite create_payment_job_world. apply fee_requests_created.
  - intros. unfold interact.
    rewrite (snd_try_raise _
               (fun e => HTTPException 500 ("Failed to process interaction: " +:+ str e))).
    rewrite create_payment_job_world. apply fee_requests_created.
  - exists 5000000, 1000000. vm_compute. repeat split; reflexivity.
  - intros. rewrite setup_info_eq.
    destruct (project_payments w !! SetupInfoRequest.projectId data); cbn [snd].
    + rewrite fee_requests_logged. cbn. rewrite app_nil_r. auto.
    + auto.
Qed.

(** * Duplicate notifications (C1) and errors of the callback (C3) *)

Lemma settled_status reply completion job_id payment_id action payload j w :
  exists j',
    jobs (settled reply completion job_id payment_id action payload j w) !! job_id = Some j' /\
    payment_instances (settled reply completion job_id payment_id action payload j w)
      !! job_id = None /\
    (Job.status j' = completed \/
     Job.status j' = failed /\ exists e, Job.error j' = Some (str e)).
Proof.
  unfold settled.
  destruct (express_outcome reply (Payload.method payload));
    [destruct (payment_instances w !! job_id); [destruct completion|]|];
    cbn [jobs payment_instances]; rewrite lookup_insert_eq, lookup_delete_eq;
    eexists; (split; [reflexivity|split; [reflexivity|]]);
    first [left; reflexivity | right; split; [reflexivity | eexists; reflexivity]].
Qed.

Lemma settled_unregistered reply completion job_id payment_id action payload j w :
  payment_instances w !! job_id = None ->
  exists j',
    jobs (settled reply completion job_id payment_id action payload j w) !! job_id = Some j' /\
    Job.status j' = failed.
Proof.
  intros Hp. unfold settled. rewrite Hp.
  destruct (express_outcome reply (Payload.method payload));
    cbn [jobs]; rewrite lookup_insert_eq; eexists; split; reflexivity.
Qed.

(** C1, as the code has it.  The callback has no terminal-state check: it only
    releases monitoring when it ends.  Delivered a second time for the same
    job, it sends the request to the Express server again (two requests in
    all) and leaves the job failed, whatever terminal state the first delivery
    reached. *)
Theorem duplicate_settlement_dispatches_again
    w j job_id payment_id action payload reply1 completion1 reply2 completion2 :
  jobs w !! job_id = Some j ->
  sends_request (Payload.method payload) ->
  let first := snd (process_payment_and_execute reply1 completion1 job_id payment_id
                      action payload w) in
  let second := snd (process_payment_and_execute reply2 completion2 job_id payment_id
                       action payload first) in
  (exists j1, jobs first !! job_id = Some j1 /\ terminal (Job.status j1) = true) /\
  (exists j2, jobs second !! job_id = Some j2 /\ Job.status j2 = failed) /\
  length (dispatches second) = S (S (length (dispatches w))).
Proof.
  intros Hj Hm first second. subst second first.
  rewrite (process_payment_and_execute_known _ _ _ _ _ _ _ _ Hj). cbn [snd].
  destruct (settled_status reply1 completion1 job_id payment_id action payload j w)
    as (j1 & Hj1 & Hp1 & Hs1).
  rewrite (process_payment_and_execute_known _ _ _ _ _ _ _ _ Hj1). cbn [snd].
  split; [|split].
  - exists j1. split; [exact Hj1|]. destruct Hs1 as [-> | [-> _]]; reflexivity.
  - apply settled_unregistered, Hp1.
  - rewrite !dispatches_settled by exact Hm. reflexivity.
Qed.

Lemma duplicate_settlement_dispatches_again_witness :
  length (dispatches demo_settled_twice) = 2%nat.
Proof.
  apply (duplicate_settlement_dispatches_again demo_world demo_job "job-1" "pay-1"
           "create_project" demo_payload demo_reply (Ret tt) demo_reply (Ret tt)).
  - vm_compute. reflexivity.
  - left. reflexivity.
Defined.

(** C1 fails as stated: after a second delivery of the same settlement the
    Express server has been called twice and the completed job has become
    failed. *)
Lemma duplicate_settlement_counterexample :
  Job.status <$> jobs demo_settled !! "job-1" = Some completed /\
  length (dispatches demo_settled) = 1%nat /\
  Job.status <$> jobs demo_settled_twice !! "job-1" = Some failed /\
  length (dispatches demo_settled_twice) = 2%nat.
Proof. vm_compute. repeat split; reflexivity. Qed.

(** C3, as the code has it.  Once the job is in the store the settlement
    callback never raises and never leaves the job running: it ends completed,
    or failed with the error recorded, and the payment instance is released.
    An exception of the Express call, of complete_payment, or the KeyError of a
    missing payment instance each end in failed with that exception's text in
    the error field. *)
Theorem settlement_errors_fail_job w reply completion job_id payment_id action payload j :
  jobs w !! job_id = Some j ->
  let run := process_payment_and_execute reply completion job_id payment_id action payload w in
  let dispatch := fst (call_express_api reply (Payload.endpoint payload)
                         (Payload.method payload) (Some (Payload.data payload)) w) in
  fst run = Ret tt /\
  exists j',
    jobs (snd run) !! job_id = Some j' /\
    payment_instances (snd run) !! job_id = None /\
    (Job.status j' = completed \/
     Job.status j' = failed /\ exists e, Job.error j' = Some (str e)) /\
    (forall e, dispatch = Raise e ->
       Job.status j' = failed /\ Job.error j' = Some (str e)) /\
    (forall body e, dispatch = Ret body -> is_Some (payment_instances w !! job_id) ->
       completion = Raise e ->
       Job.status j' = failed /\ Job.error j' = Some (str e)) /\
    (forall body, dispatch = Ret body -> payment_instances w !! job_id = None ->
       Job.status j' = failed /\ Job.error j' = Some (str (KeyError job_id))).
Proof.
  intros Hj run dispatch. subst run dispatch.
  rewrite (process_payment_and_execute_known _ _ _ _ _ _ _ _ Hj), call_express_api_eq.
  cbn [fst snd]. split; [reflexivity|].
  destruct (settled_status reply completion job_id payment_id action payload j w)
    as (j' & Hj' & Hp' & Hs').
  exists j'. split; [exact Hj'|]. split; [exact Hp'|]. split; [exact Hs'|].
  unfold settled in Hj'.
  destruct (express_outcome reply (Payload.method payload)) as [r|e0];
    [destruct (payment_instances w !! job_id) as [pay|]; [destruct completion as [[]|e1]|]|];
    cbn [jobs] in Hj'; rewrite lookup_insert_eq in Hj'; injection Hj' as <-;
    repeat split; intros;
    try match goal with H : is_Some None |- _ => destruct H as [? [=]] end;
    simplify_eq; reflexivity.
Qed.

Lemma settlement_errors_fail_job_witness :
  Job.status <$> jobs (snd (process_payment_and_execute ReplyTimeout (Ret tt) "job-1" "pay-1"
                              "create_project" demo_payload demo_world)) !! "job-1" =
    Some failed.
Proof.
  destruct (settlement_errors_fail_job demo_world ReplyTimeout (Ret tt) "job-1" "pay-1"
              "create_project" demo_payload demo_job) as (_ & j' & Hj' & _ & _ & He & _).
  - vm_compute. reflexivity.
  - rewrite Hj'. cbn. f_equal. apply (He (HTTPException 504 "Express server timeout")).
    reflexivity.
Defined.

(** C3 fails as stated: when monitoring cannot be started, create_project
    answers 500 and the job it has just stored stays in awaiting_payment, with
    no error recorded; a later status query finds it there. *)
Lemma monitoring_failure_counterexample :
  fst (create_project demo_unmonitored 7 demo_project (init ∅)) =
    Raise (HTTPException 500 "Failed to create project: monitoring unavailable") /\
  Job.status <$> jobs (snd (create_project demo_unmonitored 7 demo_project (init ∅)))
                   !! "job-1" = Some awaiting_payment /\
  Job.error <$> jobs (snd (create_project demo_unmonitored 7 demo_project (init ∅)))
                  !! "job-1" = Some None /\
  fst (get_status (Ret ∅) "job-1"
         (snd (create_project demo_unmonitored 7 demo_project (init ∅)))) =
    Ret (View.mk "job-1" awaiting_payment None "create_project" JNull).
Proof. vm_compute. repeat split; reflexivity. Qed.

(** * Entitlements and the gate of free operations (C4, C5) *)

Lemma project_key_create_project data time_low :
  project_key (create_project_payload data time_low) =
    new_project_id (CreateProjectRequest.repoUrl data) time_low.
Proof. reflexivity. Qed.

Lemma setup_info_gate reply data w :
  fst (setup_info reply data w) = Raise payment_required <->
  project_payments w !! SetupInfoRequest.projectId data = None.
Proof.
  rewrite setup_info_eq.
  destruct (project_payments w !! SetupInfoRequest.projectId data) as [b|]; cbn [fst].
  - split; [|discriminate]. intros H.
    destruct (express_outcome reply "POST") as [r|e] eqn:He; [discriminate|].
    injection H as ->. revert He. unfold express_outcome.
    destruct (decide _); [destruct reply|]; discriminate.
  - split; reflexivity.
Qed.

(** C4, as the code has it.  When a create_project job completes, the job is
    completed with the dispatcher's result, and the entitlement is written for
    the key taken from the job's payload (its projectId, else the last segment
    of its repoUrl), whatever the result contains; for a job made by
    create_project that key is the project id generated at creation.  A later
    setup_info for that key passes the gate, and succeeds when the Express
    server answers. *)
Theorem entitlement_keyed_by_payload w job_id payment_id payload body j pay :
  jobs w !! job_id = Some j ->
  payment_instances w !! job_id = Some pay ->
  sends_request (Payload.method payload) ->
  let w' := snd (process_payment_and_execute (ReplyJson body) (Ret tt) job_id payment_id
                   "create_project" payload w) in
  (exists j', jobs w' !! job_id = Some j' /\
              Job.status j' = completed /\ Job.result j' = body) /\
  project_payments w' = <[project_key payload := true]> (project_payments w) /\
  (forall data time_low, payload = create_project_payload data time_low ->
     project_key payload = new_project_id (CreateProjectRequest.repoUrl data) time_low) /\
  (forall reply data, SetupInfoRequest.projectId data = project_key payload ->
     fst (setup_info reply data w') <> Raise payment_required /\
     forall answer, reply = ReplyJson answer ->
       fst (setup_info reply data w') = Ret (Done.mk "success" answer)).
Proof.
  intros Hj Hpay Hm w'. subst w'.
  rewrite (process_payment_and_execute_known _ _ _ _ _ _ _ _ Hj). cbn [snd].
  unfold settled, express_outcome. rewrite decide_True by exact Hm. rewrite Hpay.
  rewrite decide_True by reflexivity.
  cbn [jobs project_payments]. rewrite lookup_insert_eq.
  split; [eexists; repeat split|]. split; [reflexivity|].
  split; [intros ? ? ->; apply project_key_create_project|].
  intros reply data Hk.
  split.
  - rewrite setup_info_gate. cbn [project_payments]. rewrite Hk, lookup_insert_eq. discriminate.
  - intros answer ->. rewrite setup_info_eq. cbn [project_payments fst].
    rewrite Hk, lookup_insert_eq. reflexivity.
Qed.

Lemma entitlement_keyed_by_payload_witness :
  project_payments demo_settled = {[ "repo-7" := true ]}.
Proof.
  refine (proj1 (proj2 (entitlement_keyed_by_payload demo_world "job-1" "pay-1" demo_payload
                          (JObj [("projectId", JStr "p1")]) demo_job demo_payment _ _ _))).
  - vm_compute. reflexivity.
  - vm_compute. reflexivity.
  - left. reflexivity.
Defined.

(** C4 fails as stated: the dispatcher answers with projectId p1, yet the
    entitlement is written for the payload's project id repo-7 and not for p1,
    so setup_info for p1 is still refused. *)
Lemma entitlement_key_counterexample :
  Job.status <$> jobs demo_settled !! "job-1" = Some completed /\
  Job.result <$> jobs demo_settled !! "job-1" = Some (JObj [("projectId", JStr "p1")]) /\
  project_payments demo_settled !! "p1" = None /\
  project_payments demo_settled !! "repo-7" = Some true /\
  fst (setup_info (ReplyJson JNull) (demo_setup "p1") demo_settled) = Raise payment_required.
Proof. vm_compute. repeat split; reflexivity. Qed.

Lemma step_creation w o f : creation_of o = Some f -> step w o = f w.
Proof.
  destruct o; intros [= <-]; cbn [step];
    unfold create_project, interact, analyze;
    rewrite snd_try_raise; apply create_payment_job_world.
Qed.

Lemma payment_callback_known reply completion job_id payment_id j w :
  jobs w !! job_id = Some j ->
  payment_callback reply completion job_id payment_id w =
    settled reply completion job_id payment_id (Job.action j) (Job.payload j) j w.
Proof.
  intros Hj. unfold payment_callback. rewrite Hj.
  rewrite (process_payment_and_execute_known _ _ _ _ _ _ _ _ Hj). reflexivity.
Qed.

Lemma payment_callback_unknown reply completion job_id payment_id w :
  jobs w !! job_id = None -> payment_callback reply completion job_id payment_id w = w.
Proof. intros Hj. unfold payment_callback. rewrite Hj. reflexivity. Qed.

Lemma project_payments_created o identifier_from_purchaser amount action payload w :
  project_payments (created o identifier_from_purchaser amount action payload w) =
    project_payments w.
Proof. unfold created. destruct (requested o); reflexivity. Qed.

Lemma project_payments_settled reply completion job_id payment_id action payload j w :
  project_payments (settled reply completion job_id payment_id action payload j w) =
    project_payments w \/
  project_payments (settled reply completion job_id payment_id action payload j w) =
    <[project_key payload := true]> (project_payments w).
Proof.
  unfold settled.
  destruct (express_outcome reply (Payload.method payload));
    [destruct (payment_instances w !! job_id); [destruct completion|]|];
    cbn [project_payments]; auto.
  destruct (decide (action = "create_project")); auto.
Qed.

(** A step leaves the entitlements alone or adds one, with the flag true. *)
Lemma project_payments_step w o :
  project_payments (step w o) = project_payments w \/
  exists key, project_payments (step w o) = <[key := true]> (project_payments w).
Proof.
  destruct (creation_of o) as [f|] eqn:Hc.
  - rewrite (step_creation _ _ _ Hc). left.
    destruct o; try discriminate; injection Hc as <-; apply project_payments_created.
  - destruct o; try discriminate; cbn [step].
    + left. rewrite setup_info_eq.
      destruct (project_payments w !! SetupInfoRequest.projectId data); reflexivity.
    + left. rewrite get_status_eq.
      destruct (jobs w !! job_id); [destruct (payment_instances w !! job_id)|]; reflexivity.
    + destruct (jobs w !! job_id) as [j|] eqn:Hj.
      * rewrite (payment_callback_known _ _ _ _ _ _ Hj).
        destruct (project_payments_settled reply completion job_id payment_id
                    (Job.action j) (Job.payload j) j w) as [H|H]; eauto.
      * rewrite (payment_callback_unknown _ _ _ _ _ Hj). auto.
Qed.

Lemma entitlement_persists ops w key :
  project_payments w !! key = Some true ->
  project_payments (run ops w) !! key = Some true.
Proof.
  revert w. induction ops as [|o ops IH]; intros w H; [exact H|].
  cbn. apply IH.
  destruct (project_payments_step w o) as [-> | [k ->]]; [exact H|].
  destruct (decide (k = key)) as [->|Hne].
  - apply lookup_insert_eq.
  - rewrite lookup_insert_ne by exact Hne. exact H.
Qed.

Lemma entitlement_flags_true ops w :
  (forall key flag, project_payments w !! key = Some flag -> flag = true) ->
  forall key flag, project_payments (run ops w) !! key = Some flag -> flag = true.
Proof.
  revert w. induction ops as [|o ops IH]; intros w H; [exact H|].
  cbn. apply IH. intros key flag.
  destruct (project_payments_step w o) as [-> | [k ->]]; [apply H|].
  destruct (decide (k = key)) as [->|Hne].
  - rewrite lookup_insert_eq. congruence.
  - rewrite lookup_insert_ne by exact Hne. apply H.
Qed.

Lemma settled_completed reply completion job_id payment_id action payload j w :
  Job.status <$> jobs (settled reply completion job_id payment_id action payload j w)
                   !! job_id = Some completed ->
  action = "create_project" ->
  project_payments (settled reply completion job_id payment_id action payload j w)
    !! project_key payload = Some true.
Proof.
  unfold settled. intros Hs ->.
  destruct (express_outcome reply (Payload.method payload));
    [destruct (payment_instances w !! job_id); [destruct completion|]|];
    cbn [jobs project_payments] in *; rewrite lookup_insert_eq in Hs; try discriminate.
  rewrite decide_True by reflexivity. apply lookup_insert_eq.
Qed.

(** C5. In every state the engine reaches, setup_info fails with the
    payment-required signal (the gate's HTTPException 402) exactly when no
    entitlement with a true flag exists for the project id; and once the
    callback of a create_project job has completed it, setup_info for that
    job's project key does not fail the gate check any more, whatever happens
    afterwards. *)
Theorem gate_refuses_iff_not_entitled env ops :
  (forall reply data,
     fst (setup_info reply data (run ops (init env))) = Raise payment_required <->
     project_payments (run ops (init env)) !! SetupInfoRequest.projectId data <> Some true) /\
  (forall reply completion job_id payment_id j later reply' data,
     jobs (run ops (init env)) !! job_id = Some j ->
     Job.action j = "create_project" ->
     Job.status <$> jobs (payment_callback reply completion job_id payment_id
                            (run ops (init env))) !! job_id = Some completed ->
     SetupInfoRequest.projectId data = project_key (Job.payload j) ->
     fst (setup_info reply' data
            (run later (payment_callback reply completion job_id payment_id
                          (run ops (init env))))) <> Raise payment_required).
Proof.
  split.
  - intros reply data. rewrite setup_info_gate.
    destruct (project_payments (run ops (init env)) !! SetupInfoRequest.projectId data)
      as [flag|] eqn:Hk.
    + assert (flag = true) as ->.
      { eapply (entitlement_flags_true ops (init env)); [|exact Hk].
        intros key f. cbn. rewrite lookup_empty. discriminate. }
      split; [discriminate|]. intros H. exfalso. apply H. reflexivity.
    + split; [discriminate | reflexivity].
  - intros reply completion job_id payment_id j later reply' data Hj Ha Hs Hk.
    rewrite setup_info_gate, Hk.
    rewrite (payment_callback_known _ _ _ _ _ _ Hj) in *.
    rewrite (entitlement_persists later); [discriminate|].
    apply settled_completed; assumption.
Qed.

Lemma gate_refuses_iff_not_entitled_witness :
  fst (setup_info (ReplyJson JNull) (demo_setup "repo-7")
         (run [] (payment_callback demo_reply (Ret tt) "job-1" "pay-1"
                    (run [CreateProject demo_creation 7 demo_project] (init ∅))))) <>
    Raise payment_required.
Proof.
  apply (proj2 (gate_refuses_iff_not_entitled ∅ [CreateProject demo_creation 7 demo_project])
           demo_reply (Ret tt) "job-1" "pay-1" demo_job [] (ReplyJson JNull)
           (demo_setup "repo-7")).
  - vm_compute. reflexivity.
  - reflexivity.
  - vm_compute. reflexivity.
  - vm_compute. reflexivity.
Defined.

(** * Handlers that overlap: equations of the segments *)

Section Segments.
Context (js : gmap string Job.t) (pis : gmap string Payment.t)
        (pp : gmap string bool) (env : gmap string string) (tr : list event).

Lemma callback_except_known job_id e j :
  js !! job_id = Some j ->
  callback_except job_id e (World js pis pp env tr) =
    (Ret tt, World (<[job_id := set_error (str e) (set_status failed j)]> js)
                   (delete job_id pis) pp env
                   (tr ++ SetStatus job_id failed :: stop_events pis job_id)).
Proof.
  intros Hj. unfold callback_except, stop_events.
  unfold bind at 1. job_step. unfold bind at 1. job_step. job_step.
  rewrite <- !app_assoc. reflexivity.
Qed.

Lemma callback_finish_known job_id action payload result j :
  js !! job_id = Some j ->
  callback_finish job_id action payload result (World js pis pp env tr) =
    (Ret tt,
     World (<[job_id := set_result result
                          (set_payment_status (Some "completed") (set_status completed j))]> js)
           (delete job_id pis)
           (if decide (action = "create_project")
            then <[project_key payload := true]> pp else pp)
           env
           (tr ++ SetStatus job_id completed :: stop_events pis job_id)).
Proof.
  intros Hj. unfold callback_finish, try_except, stop_events.
  unfold bind at 1. job_step. unfold bind at 1. job_step. unfold bind at 1. job_step.
  unfold bind at 1, mark_paid, ret, with_project_payments.
  destruct (decide (action = "create_project")); cbv beta iota;
    cbn [jobs payment_instances project_payments environ trace];
    job_step; rewrite <- !app_assoc; reflexivity.
Qed.

Lemma get_status_resume_known poll job_id j :
  js !! job_id = Some j ->
  get_status_resume poll job_id (World js pis pp env tr) =
    (Ret tt, World (<[job_id := set_payment_status (refreshed poll) j]> js) pis pp env tr).
Proof.
  intros Hj. unfold get_status_resume, try_except, refreshed, bind, answer.
  destruct poll as [status|e]; cbv beta iota;
    erewrite update_job_eq by eassumption; reflexivity.
Qed.

Lemma get_status_resume_unknown poll job_id :
  js !! job_id = None ->
  snd (get_status_resume poll job_id (World js pis pp env tr)) = World js pis pp env tr.
Proof.
  intros Hj. unfold get_status_resume, try_except, bind, answer, update_job.
  destruct poll as [status|e]; cbn; rewrite Hj; cbn; rewrite ?Hj; reflexivity.
Qed.
End Segments.

Lemma create_payment_job_begin_eq o identifier_from_purchaser amount action payload w :
  create_payment_job_begin o identifier_from_purchaser amount action payload w =
    (Ret (new_payment o identifier_from_purchaser amount action payload w),
     logged w [CreatePaymentRequest
                 (new_payment o identifier_from_purchaser amount action payload w)]).
Proof. reflexivity. Qed.

Lemma create_payment_job_store_eq o payment identifier_from_purchaser action payload w :
  snd (create_payment_job_store o payment identifier_from_purchaser action payload w) =
    match requested o with
    | Raise _ => w
    | Ret payment_id =>
        World (<[Creation.uuid4 o := new_job payment_id action payload
                                       identifier_from_purchaser]> (jobs w))
              (<[Creation.uuid4 o := add_payment_id payment_id payment]> (payment_instances w))
              (project_payments w) (environ w)
              (trace w ++ [SetStatus (Creation.uuid4 o) awaiting_payment;
                           StartStatusMonitoring (Creation.uuid4 o)])
    end.
Proof.
  unfold create_payment_job_store, requested, bind, answer, getitem, ret, raise, store_job,
    emit, with_jobs, with_payment_instances, new_job.
  destruct (Creation.payment_request o) as [pr|e]; [|reflexivity].
  destruct (pr !! "data") as [d|]; [|reflexivity].
  destruct (d !! "blockchainIdentifier") as [pid|]; [|reflexivity].
  cbn [snd jobs payment_instances project_payments environ trace].
  rewrite <- !app_assoc. reflexivity.
Qed.

Lemma callbacks_of_app job_id l1 l2 :
  callbacks_of job_id (l1 ++ l2) = (callbacks_of job_id l1 + callbacks_of job_id l2)%nat.
Proof. unfold callbacks_of. rewrite List.filter_app, length_app. reflexivity. Qed.

Lemma callbacks_of_delete job_id l i t :
  l !! i = Some t ->
  callbacks_of job_id l =
    ((if is_callback_of job_id t then 1 else 0) + callbacks_of job_id (delete i l))%nat.
Proof.
  unfold callbacks_of. revert i. induction l as [|x l IH]; intros i Hi; [discriminate|].
  destruct i as [|i].
  - injection Hi as ->. change (delete 0%nat (t :: l)) with l. simpl List.filter.
    destruct (is_callback_of job_id t); reflexivity.
  - change (delete (S i) (x :: l)) with (x :: delete i l).
    change ((x :: l) !! S i) with (l !! i) in Hi. simpl List.filter.
    destruct (is_callback_of job_id x); simpl length; rewrite (IH i Hi); lia.
Qed.

(** * Handlers that overlap: the invariant *)

Lemma statuses_app job_id es1 es2 :
  statuses job_id (es1 ++ es2) = statuses job_id es1 ++ statuses job_id es2.
Proof. unfold statuses. apply omap_app. Qed.

Lemma statuses_express_events job_id endpoint method data :
  statuses job_id (express_events endpoint method data) = [].
Proof. unfold express_events. repeat case_decide; reflexivity. Qed.

Lemma statuses_stop_events job_id pis job_id' :
  statuses job_id (stop_events pis job_id') = [].
Proof. unfold stop_events. destruct (pis !! job_id'); reflexivity. Qed.

Lemma statuses_SetStatus job_id job_id' s es :
  statuses job_id (SetStatus job_id' s :: es) =
    if decide (job_id' = job_id) then s :: statuses job_id es else statuses job_id es.
Proof. unfold statuses. cbn. destruct (decide (job_id' = job_id)); reflexivity. Qed.

Lemma job_inv_frame c c' job_id :
  Job.status <$> jobs (state c') !! job_id = Job.status <$> jobs (state c) !! job_id ->
  payment_instances (state c') !! job_id = payment_instances (state c) !! job_id ->
  status_history job_id (state c') = status_history job_id (state c) ->
  callbacks_of job_id (in_flight c') = callbacks_of job_id (in_flight c) ->
  job_inv c job_id -> job_inv c' job_id.
Proof. unfold job_inv. intros -> -> -> ->. auto. Qed.

Lemma status_history_logged job_id w es :
  statuses job_id es = [] -> status_history job_id (logged w es) = status_history job_id w.
Proof.
  intros H. unfold status_history, logged. cbn [trace]. rewrite statuses_app, H.
  apply app_nil_r.
Qed.

(** A suspended callback belongs to a job that is running. *)
Lemma running_of_callback c i t job_id :
  (forall k, job_inv c k) ->
  in_flight c !! i = Some t -> is_callback_of job_id t = true ->
  exists j, jobs (state c) !! job_id = Some j /\
            Job.status j = running /\
            status_history job_id (state c) = [awaiting_payment; running] /\
            is_Some (payment_instances (state c) !! job_id) /\
            callbacks_of job_id (delete i (in_flight c)) = 0%nat.
Proof.
  intros Hinv Hi Ht. pose proof (Hinv job_id) as H. unfold job_inv in H.
  pose proof (callbacks_of_delete job_id _ _ _ Hi) as Hc. rewrite Ht in Hc.
  destruct (jobs (state c) !! job_id) as [j|]; simpl (_ <$> _) in H.
  - destruct H as (Hh & Hn & Hp). destruct (decide (Job.status j = running)) as [Hr|Hr].
    + exists j. rewrite Hr in *. split; [reflexivity|]. split; [reflexivity|].
      split; [exact Hh|]. split; [apply Hp; reflexivity | lia].
    + lia.
  - destruct H as (_ & Hn & _). lia.
Qed.

Lemma is_callback_of_other job_id other t :
  is_callback_of job_id t = true -> other <> job_id -> is_callback_of other t = false.
Proof.
  destruct t; cbn; try discriminate; intros H Hne;
    apply bool_decide_eq_true in H; subst; apply bool_decide_eq_false; congruence.
Qed.

(** The end of a callback, in either branch, keeps the invariant. *)
Lemma job_inv_callback_ends c i t job_id0 j' paid job_id :
  (forall k, job_inv c k) ->
  in_flight c !! i = Some t -> is_callback_of job_id0 t = true ->
  terminal (Job.status j') = true ->
  job_inv (Config (World (<[job_id0 := j']> (jobs (state c)))
                         (delete job_id0 (payment_instances (state c))) paid
                         (environ (state c))
                         (trace (state c) ++
                            SetStatus job_id0 (Job.status j')
                            :: stop_events (payment_instances (state c)) job_id0))
                  (delete i (in_flight c))) job_id.
Proof.
  intros Hinv Hi Ht Hterm.
  destruct (running_of_callback c i t job_id0 Hinv Hi Ht) as (j0 & Hj0 & Hr & Hh & Hp & Hn).
  destruct (decide (job_id0 = job_id)) as [<-|Hne].
  - unfold job_inv. cbn [state in_flight jobs payment_instances].
    rewrite lookup_insert_eq, lookup_delete_eq. simpl (_ <$> Some _).
    unfold status_history in *. cbn [trace].
    rewrite statuses_app, Hh, statuses_SetStatus, decide_True, statuses_stop_events, Hn
      by reflexivity.
    destruct (Job.status j'); try discriminate; cbn;
      (split; [reflexivity|]; split; [reflexivity|]; split; [intros [? [=]] | discriminate]).
  - apply (job_inv_frame c); [| | | |apply Hinv].
    + cbn [state jobs]. rewrite lookup_insert_ne by exact Hne. reflexivity.
    + cbn [state payment_instances]. rewrite lookup_delete_ne by exact Hne. reflexivity.
    + unfold status_history. cbn [state trace].
      rewrite statuses_app, statuses_SetStatus, decide_False, statuses_stop_events by exact Hne.
      apply app_nil_r.
    + cbn [in_flight]. rewrite (callbacks_of_delete job_id _ _ _ Hi).
      rewrite (is_callback_of_other _ _ _ Ht) by congruence. reflexivity.
Qed.

Lemma job_inv_callback_except c i t job_id0 e job_id :
  (forall k, job_inv c k) ->
  in_flight c !! i = Some t -> is_callback_of job_id0 t = true ->
  job_inv (Config (snd (callback_except job_id0 e (state c))) (delete i (in_flight c))) job_id.
Proof.
  intros Hinv Hi Ht.
  destruct (running_of_callback c i t job_id0 Hinv Hi Ht) as (j0 & Hj0 & _).
  destruct c as [[js pis pp env tr] l]. cbn [state jobs] in *.
  rewrite (callback_except_known _ _ _ _ _ _ _ _ Hj0). cbn [snd].
  apply (job_inv_callback_ends (Config (World js pis pp env tr) l) i t job_id0
           (set_error (str e) (set_status failed j0)) pp job_id Hinv Hi Ht).
  reflexivity.
Qed.

Lemma job_inv_play1 c m job_id :
  (forall k, job_inv c k) -> allowed c m -> job_inv (play1 c m) job_id.
Proof.
  intros Hinv Hm. destruct m; cbn [play1].
  - (* CreationBegins *)
    rewrite create_payment_job_begin_eq.
    apply (job_inv_frame c); [reflexivity | reflexivity | | | apply Hinv].
    + apply status_history_logged. reflexivity.
    + cbn [in_flight]. rewrite callbacks_of_app. cbn. lia.
  - (* PaymentRequestReplies *)
    destruct (in_flight c !! i) as [t|] eqn:Hi; [|apply Hinv].
    destruct t; try apply Hinv.
    cbn [allowed] in Hm. rewrite Hi in Hm.
    rewrite create_payment_job_store_eq.
    assert (callbacks_of job_id (delete i (in_flight c)) = callbacks_of job_id (in_flight c))
      as Hcount by (rewrite (callbacks_of_delete job_id _ _ _ Hi); reflexivity).
    destruct (requested o) as [pid|e].
    + destruct (decide (Creation.uuid4 o = job_id)) as [<-|Hne].
      * pose proof (Hinv (Creation.uuid4 o)) as H. unfold job_inv in *. rewrite Hm in H.
        simpl (_ <$> None) in H. destruct H as (Hh & Hn & Hp).
        cbn [state in_flight jobs payment_instances]. rewrite !lookup_insert_eq.
        simpl (_ <$> Some _). unfold status_history in *. cbn [trace].
        rewrite statuses_app, Hh, Hcount, Hn. unfold statuses. cbn.
        rewrite decide_True by reflexivity.
        split; [reflexivity|]. split; [reflexivity|]. split; [reflexivity | eauto].
      * apply (job_inv_frame c); [| | | exact Hcount | apply Hinv].
        -- cbn [state jobs]. rewrite lookup_insert_ne by exact Hne. reflexivity.
        -- cbn [state payment_instances]. rewrite lookup_insert_ne by exact Hne. reflexivity.
        -- unfold status_history. cbn [state trace]. rewrite statuses_app.
           unfold statuses at 2. cbn. rewrite decide_False by exact Hne. apply app_nil_r.
    + apply (job_inv_frame c); [reflexivity | reflexivity | reflexivity | exact Hcount
                               | apply Hinv].
  - (* SetupInfoCalled *)
    rewrite setup_info_eq.
    destruct (project_payments (state c) !! SetupInfoRequest.projectId data); cbn [snd].
    + apply (job_inv_frame c); [reflexivity | reflexivity | | reflexivity | apply Hinv].
      apply status_history_logged. reflexivity.
    + apply (job_inv_frame c); [reflexivity | reflexivity | reflexivity | reflexivity
                               | apply Hinv].
  - (* StatusBegins *)
    destruct (jobs (state c) !! job_id0); [|apply Hinv].
    destruct (payment_instances (state c) !! job_id0); [|apply Hinv].
    apply (job_inv_frame c); [reflexivity | reflexivity | | | apply Hinv].
    + apply status_history_logged. reflexivity.
    + cbn [in_flight]. rewrite callbacks_of_app. cbn. lia.
  - (* PollReplies *)
    destruct (in_flight c !! i) as [t|] eqn:Hi; [|apply Hinv].
    destruct t; try apply Hinv.
    assert (callbacks_of job_id (delete i (in_flight c)) = callbacks_of job_id (in_flight c))
      as Hcount by (rewrite (callbacks_of_delete job_id _ _ _ Hi); reflexivity).
    destruct c as [[js pis pp env tr] l]. cbn [state in_flight] in *.
    destruct (js !! job_id0) as [j|] eqn:Hj.
    + rewrite (get_status_resume_known _ _ _ _ _ _ _ _ Hj). cbn [snd].
      apply (job_inv_frame (Config (World js pis pp env tr) l));
        [ | reflexivity | reflexivity | exact Hcount | apply Hinv].
      cbn [state jobs]. destruct (decide (job_id0 = job_id)) as [<-|Hne].
      * rewrite lookup_insert_eq, Hj. reflexivity.
      * rewrite lookup_insert_ne by exact Hne. reflexivity.
    + rewrite (get_status_resume_unknown _ _ _ _ _ _ _ Hj).
      apply (job_inv_frame (Config (World js pis pp env tr) l));
        [reflexivity | reflexivity | reflexivity | exact Hcount | apply Hinv].
  - (* CallbackBegins *)
    cbn [allowed] in Hm.
    destruct (jobs (state c) !! job_id0) as [j0|] eqn:Hj0; [|apply Hinv].
    unfold callback_begin. destruct c as [[js pis pp env tr] l]. cbn [state in_flight jobs] in *.
    rewrite (write_status_eq _ _ _ _ _ _ _ _ Hj0).
    pose proof (Hinv job_id0) as H0. unfold job_inv in H0. cbn [state in_flight jobs] in H0.
    rewrite Hj0 in H0. simpl (_ <$> Some _) in H0. destruct H0 as (Hh & Hn & Hp).
    assert (Job.status j0 = awaiting_payment) as Hs.
    { clear Hn Hp. rewrite Hh in Hm. destruct (Job.status j0); [reflexivity| | |];
        exfalso; apply Hm; cbn; set_solver. }
    rewrite Hs in *.
    destruct (decide (job_id0 = job_id)) as [<-|Hne].
    + unfold job_inv, logged. cbn [state in_flight jobs payment_instances trace].
      rewrite lookup_insert_eq. simpl (_ <$> Some _).
      unfold status_history in *. cbn [trace] in *.
      rewrite statuses_app, statuses_app, Hh, statuses_SetStatus, decide_True,
        statuses_express_events, callbacks_of_app, Hn by reflexivity.
      cbn. rewrite bool_decide_eq_true_2 by reflexivity.
      split; [reflexivity|]. split; [reflexivity|]. cbn in Hp. exact Hp.
    + apply (job_inv_frame (Config (World js pis pp env tr) l)); [| | | | apply Hinv].
      * unfold logged. cbn [state jobs]. rewrite lookup_insert_ne by exact Hne. reflexivity.
      * reflexivity.
      * unfold status_history, logged. cbn [state trace].
        rewrite !statuses_app, statuses_SetStatus, decide_False, statuses_express_events
          by exact Hne.
        rewrite !app_nil_r. reflexivity.
      * cbn [in_flight]. rewrite callbacks_of_app. cbn.
        rewrite bool_decide_eq_false_2 by exact Hne. cbn. lia.
  - (* ExpressReplies *)
    destruct (in_flight c !! i) as [t|] eqn:Hi; [|apply Hinv].
    destruct t; try apply Hinv.
    assert (is_callback_of job_id0 (AwaitingExpress job_id0 payment_id action payload) = true)
      as Ht by (cbn; apply bool_decide_eq_true_2; reflexivity).
    destruct (running_of_callback c i _ job_id0 Hinv Hi Ht)
      as (j0 & Hj0 & Hr & Hh & [pay Hp] & Hn).
    unfold callback_dispatched.
    destruct (express_outcome reply (Payload.method payload)) as [r|e].
    + unfold bind, payment_instance, getitem, emit, ret. rewrite Hp.
      cbn [app]. rewrite app_nil_r || idtac.
      apply (job_inv_frame c); [reflexivity | reflexivity | | | apply Hinv].
      * unfold status_history. cbn [state trace]. rewrite statuses_app. apply app_nil_r.
      * cbn [in_flight]. rewrite callbacks_of_app, (callbacks_of_delete job_id _ _ _ Hi).
        cbn. destruct (bool_decide (job_id0 = job_id)); cbn; lia.
    + rewrite app_nil_r. apply (job_inv_callback_except c i _ job_id0 e job_id Hinv Hi Ht).
  - (* CompletionReplies *)
    destruct (in_flight c !! i) as [t|] eqn:Hi; [|apply Hinv].
    destruct t; try apply Hinv.
    assert (is_callback_of job_id0
              (AwaitingCompletion job_id0 payment_id action payload result) = true)
      as Ht by (cbn; apply bool_decide_eq_true_2; reflexivity).
    destruct completion as [[]|e].
    + destruct (running_of_callback c i _ job_id0 Hinv Hi Ht) as (j0 & Hj0 & _).
      destruct c as [[js pis pp env tr] l]. cbn [state jobs] in *.
      rewrite (callback_finish_known _ _ _ _ _ _ _ _ _ _ Hj0). cbn [snd].
      apply (job_inv_callback_ends (Config (World js pis pp env tr) l) i _ job_id0
               (set_result result
                  (set_payment_status (Some "completed") (set_status completed j0)))
               _ job_id Hinv Hi Ht).
      reflexivity.
    + apply (job_inv_callback_except c i _ job_id0 e job_id Hinv Hi Ht).
Qed.

Lemma job_inv_initial env job_id : job_inv (initial env) job_id.
Proof.
  unfold job_inv, initial, init. cbn [state in_flight jobs payment_instances].
  rewrite !lookup_empty. simpl (_ <$> None). repeat split.
Qed.

Lemma play_cons m moves c : play (m :: moves) c = play moves (play1 c m).
Proof. reflexivity. Qed.

Lemma play_app moves later c : play (moves ++ later) c = play later (play moves c).
Proof. unfold play. apply foldl_app. Qed.

Lemma job_inv_play moves c :
  (forall k, job_inv c k) -> allowed_schedule c moves -> forall k, job_inv (play moves c) k.
Proof.
  revert c. induction moves as [|m moves IH]; intros c Hinv Hs; [exact Hinv|].
  destruct Hs as [Hm Hs]. rewrite play_cons. apply IH; [|exact Hs].
  intros k. apply job_inv_play1; assumption.
Qed.

Lemma job_inv_reachable env moves job_id :
  allowed_schedule (initial env) moves -> job_inv (play moves (initial env)) job_id.
Proof. intros Hs. apply job_inv_play; [apply job_inv_initial | exact Hs]. Qed.

Lemma set_payment_status_same j : set_payment_status (Job.payment_status j) j = j.
Proof. destruct j. reflexivity. Qed.

Lemma set_payment_status_twice ps ps' j :
  set_payment_status ps (set_payment_status ps' j) = set_payment_status ps j.
Proof. reflexivity. Qed.

(** The callback of a job that is completed or failed is neither suspended
    nor allowed to begin. *)
Lemma terminal_not_in_flight c i t job_id j :
  (forall k, job_inv c k) ->
  jobs (state c) !! job_id = Some j -> terminal (Job.status j) = true ->
  in_flight c !! i = Some t -> is_callback_of job_id t = false.
Proof.
  intros Hinv Hj Hterm Hi. destruct (is_callback_of job_id t) eqn:Ht; [|reflexivity].
  destruct (running_of_callback c i t job_id Hinv Hi Ht) as (j0 & Hj0 & Hr & _).
  rewrite Hj in Hj0. injection Hj0 as <-. rewrite Hr in Hterm. discriminate.
Qed.

(** One move leaves the record of a job that is completed or failed as it is,
    unless the move is the answer to a poll of that job: then payment_status
    is written, and nothing else. *)
Lemma terminal_kept_play1 c m job_id j :
  (forall k, job_inv c k) -> allowed c m ->
  jobs (state c) !! job_id = Some j -> terminal (Job.status j) = true ->
  jobs (state (play1 c m)) !! job_id = Some j \/
  exists i poll,
    m = PollReplies i poll /\ in_flight c !! i = Some (AwaitingPoll job_id) /\
    jobs (state (play1 c m)) !! job_id = Some (set_payment_status (refreshed poll) j).
Proof.
  intros Hinv Hm Hj Hterm.
  destruct m; cbn [play1].
  - left. rewrite create_payment_job_begin_eq. exact Hj.
  - left. destruct (in_flight c !! i) as [t|] eqn:Hi; [|exact Hj].
    destruct t; try exact Hj.
    cbn [allowed] in Hm. rewrite Hi in Hm. rewrite create_payment_job_store_eq.
    destruct (requested o); [|exact Hj].
    cbn [state jobs]. rewrite lookup_insert_ne; [exact Hj|].
    intros Heq. rewrite Heq in Hm. rewrite Hm in Hj. discriminate.
  - left. rewrite setup_info_eq.
    destruct (project_payments (state c) !! SetupInfoRequest.projectId data); cbn [snd];
      exact Hj.
  - left. destruct (jobs (state c) !! job_id0); [|exact Hj].
    destruct (payment_instances (state c) !! job_id0); exact Hj.
  - destruct (in_flight c !! i) as [t|] eqn:Hi; [|left; exact Hj].
    destruct t; try (left; exact Hj).
    destruct c as [[js pis pp env tr] l]. cbn [state in_flight jobs] in *.
    destruct (decide (job_id0 = job_id)) as [->|Hne].
    + right. exists i, poll. split; [reflexivity|]. split; [exact Hi|].
      rewrite (get_status_resume_known _ _ _ _ _ _ _ _ Hj). cbn [snd jobs].
      apply lookup_insert_eq.
    + left. destruct (js !! job_id0) as [j0|] eqn:Hj0.
      * rewrite (get_status_resume_known _ _ _ _ _ _ _ _ Hj0). cbn [snd jobs].
        rewrite lookup_insert_ne by exact Hne. exact Hj.
      * rewrite (get_status_resume_unknown _ _ _ _ _ _ _ Hj0). exact Hj.
  - left. cbn [allowed] in Hm.
    destruct (jobs (state c) !! job_id0) as [j0|] eqn:Hj0; [|exact Hj].
    assert (job_id0 <> job_id) as Hne.
    { intros ->. pose proof (Hinv job_id) as H. unfold job_inv in H. rewrite Hj in H.
      simpl (_ <$> Some _) in H. destruct H as (Hh & _). rewrite Hh in Hm. apply Hm.
      destruct (Job.status j); try discriminate; cbn; set_solver. }
    unfold callback_begin. destruct c as [[js pis pp env tr] l]. cbn [state in_flight jobs] in *.
    rewrite (write_status_eq _ _ _ _ _ _ _ _ Hj0). unfold logged. cbn [state jobs].
    rewrite lookup_insert_ne by exact Hne. exact Hj.
  - left. destruct (in_flight c !! i) as [t|] eqn:Hi; [|exact Hj].
    destruct t; try exact Hj.
    pose proof (terminal_not_in_flight c i _ job_id j Hinv Hj Hterm Hi) as Hne.
    cbn in Hne. apply bool_decide_eq_false in Hne.
    assert (is_callback_of job_id0 (AwaitingExpress job_id0 payment_id action payload) = true)
      as Ht by (cbn; apply bool_decide_eq_true_2; reflexivity).
    destruct (running_of_callback c i _ job_id0 Hinv Hi Ht)
      as (j0 & Hj0 & _ & _ & [pay Hp] & _).
    unfold callback_dispatched.
    destruct (express_outcome reply (Payload.method payload)) as [r|e].
    + unfold bind, payment_instance, getitem, emit, ret. rewrite Hp. cbn [state jobs].
      exact Hj.
    + destruct c as [[js pis pp env tr] l]. cbn [state in_flight jobs] in *.
      rewrite (callback_except_known _ _ _ _ _ _ _ _ Hj0). cbn [snd state jobs].
      rewrite lookup_insert_ne by exact Hne. exact Hj.
  - left. destruct (in_flight c !! i) as [t|] eqn:Hi; [|exact Hj].
    destruct t; try exact Hj.
    pose proof (terminal_not_in_flight c i _ job_id j Hinv Hj Hterm Hi) as Hne.
    cbn in Hne. apply bool_decide_eq_false in Hne.
    assert (is_callback_of job_id0
              (AwaitingCompletion job_id0 payment_id action payload result) = true)
      as Ht by (cbn; apply bool_decide_eq_true_2; reflexivity).
    destruct (running_of_callback c i _ job_id0 Hinv Hi Ht) as (j0 & Hj0 & _).
    destruct c as [[js pis pp env tr] l]. cbn [state in_flight jobs] in *.
    destruct completion as [[]|e].
    + rewrite (callback_finish_known _ _ _ _ _ _ _ _ _ _ Hj0). cbn [snd state jobs].
      rewrite lookup_insert_ne by exact Hne. exact Hj.
    + rewrite (callback_except_known _ _ _ _ _ _ _ _ Hj0). cbn [snd state jobs].
      rewrite lookup_insert_ne by exact Hne. exact Hj.
Qed.

Lemma terminal_kept_play later c job_id j :
  (forall k, job_inv c k) -> allowed_schedule c later ->
  jobs (state c) !! job_id = Some j -> terminal (Job.status j) = true ->
  exists payment_status,
    jobs (state (play later c)) !! job_id = Some (set_payment_status payment_status j).
Proof.
  revert c j. induction later as [|m later IH]; intros c j Hinv Hs Hj Hterm.
  - exists (Job.payment_status j). rewrite set_payment_status_same. exact Hj.
  - destruct Hs as [Hm Hs]. rewrite play_cons.
    assert (exists ps, jobs (state (play1 c m)) !! job_id = Some (set_payment_status ps j))
      as [ps Hps].
    { destruct (terminal_kept_play1 c m job_id j Hinv Hm Hj Hterm)
        as [H | (i & poll & _ & _ & H)]; [|eauto].
      exists (Job.payment_status j). rewrite set_payment_status_same. exact H. }
    destruct (IH (play1 c m) (set_payment_status ps j)) as [ps' Hps'];
      [intros k; apply job_inv_play1; assumption | exact Hs | exact Hps | exact Hterm |].
    exists ps'. exact Hps'.
Qed.

(** No status query begins to poll for a job that is completed or failed: its
    payment instance is gone. *)
Lemma no_poll_begins c m job_id j :
  (forall k, job_inv c k) ->
  jobs (state c) !! job_id = Some j -> terminal (Job.status j) = true ->
  AwaitingPoll job_id ∉ in_flight c -> AwaitingPoll job_id ∉ in_flight (play1 c m).
Proof.
  intros Hinv Hj Hterm Hno.
  assert (forall i w next,
            AwaitingPoll job_id ∉ next ->
            AwaitingPoll job_id ∉ in_flight (Config w (delete i (in_flight c) ++ next)))
    as Hdel.
  { intros i w next Hnext Hin. cbn [in_flight] in Hin. apply elem_of_app in Hin.
    destruct Hin as [Hin|Hin]; [|exact (Hnext Hin)].
    apply Hno. exact (list_elem_of_delete_inv _ _ _ Hin). }
  assert (forall i w, AwaitingPoll job_id ∉ in_flight (Config w (delete i (in_flight c))))
    as Hdel0.
  { intros i w Hin. apply Hno. exact (list_elem_of_delete_inv _ _ _ Hin). }
  assert (forall w t, t <> AwaitingPoll job_id ->
            AwaitingPoll job_id ∉ in_flight (Config w (in_flight c ++ [t]))) as Hadd.
  { intros w t Ht Hin. cbn [in_flight] in Hin. apply elem_of_app in Hin.
    destruct Hin as [Hin|Hin]; [exact (Hno Hin)|].
    apply list_elem_of_singleton in Hin. apply Ht. symmetry. exact Hin. }
  destruct m; cbn [play1].
  - rewrite create_payment_job_begin_eq. apply Hadd. discriminate.
  - destruct (in_flight c !! i) as [t|]; [|exact Hno]. destruct t; try exact Hno. apply Hdel0.
  - exact Hno.
  - destruct (jobs (state c) !! job_id0) as [j0|] eqn:Hj0; [|exact Hno].
    destruct (payment_instances (state c) !! job_id0) as [pay|] eqn:Hp; [|exact Hno].
    apply Hadd. intros [= ->].
    pose proof (Hinv job_id) as H. unfold job_inv in H. rewrite Hj in H.
    simpl (_ <$> Some _) in H. destruct H as (_ & _ & Hiff).
    rewrite Hp, Hterm in Hiff. destruct Hiff as [Hiff _].
    assert (true = false) as Habs by (apply Hiff; eauto). discriminate.
  - destruct (in_flight c !! i) as [t|]; [|exact Hno]. destruct t; try exact Hno. apply Hdel0.
  - destruct (jobs (state c) !! job_id0) as [j0|] eqn:Hj0; [|exact Hno].
    unfold callback_begin.
    destruct (write_status job_id0 running (state c)) as [[[]|e] w]; [|exact Hno].
    apply Hadd. discriminate.
  - destruct (in_flight c !! i) as [t|]; [|exact Hno]. destruct t; try exact Hno.
    unfold callback_dispatched.
    destruct (express_outcome reply (Payload.method payload)) as [r|e].
    + destruct ((_ <- payment_instance job_id0 ;;
                 emit (CompletePayment job_id0 payment_id r)) (state c)) as [[[]|e] w].
      * apply Hdel. intros Hin. apply list_elem_of_singleton in Hin. discriminate.
      * apply Hdel. intros Hin. inversion Hin.
    + apply Hdel. intros Hin. inversion Hin.
  - destruct (in_flight c !! i) as [t|]; [|exact Hno]. destruct t; try exact Hno. apply Hdel0.
Qed.

(** Once a job is completed or failed and no status query of it is suspended
    at its poll, its record stays as it is. *)
Lemma terminal_frozen_play later c job_id j :
  (forall k, job_inv c k) -> allowed_schedule c later ->
  jobs (state c) !! job_id = Some j -> terminal (Job.status j) = true ->
  AwaitingPoll job_id ∉ in_flight c ->
  jobs (state (play later c)) !! job_id = Some j.
Proof.
  revert c. induction later as [|m later IH]; intros c Hinv Hs Hj Hterm Hno; [exact Hj|].
  destruct Hs as [Hm Hs]. rewrite play_cons.
  apply IH; [intros k; apply job_inv_play1; assumption | exact Hs | | exact Hterm |].
  - destruct (terminal_kept_play1 c m job_id j Hinv Hm Hj Hterm)
      as [H | (i & poll & _ & Hi & _)]; [exact H|].
    exfalso. apply Hno. exact (list_elem_of_lookup_2 _ _ _ Hi).
  - apply (no_poll_begins c m job_id j); assumption.
Qed.

(** * Handlers that overlap: handlers that run without interruption *)

Lemma config_eta c : Config (state c) (in_flight c) = c.
Proof. destruct c. reflexivity. Qed.

Lemma set_status_twice s s' j : set_status s (set_status s' j) = set_status s j.
Proof. reflexivity. Qed.

(** A creation whose payment request is answered before anything else happens
    is [create_payment_job]. *)
Lemma uninterrupted_creation o identifier_from_purchaser amount action payload c :
  play [CreationBegins o identifier_from_purchaser amount action payload;
        PaymentRequestReplies (length (in_flight c))] c =
  Config (snd (create_payment_job o identifier_from_purchaser amount action payload (state c)))
         (in_flight c).
Proof.
  unfold play. cbn [foldl play1]. rewrite create_payment_job_begin_eq.
  cbn [in_flight state]. rewrite list_lookup_middle by reflexivity.
  rewrite delete_middle, app_nil_r, create_payment_job_store_eq, create_payment_job_world.
  unfold created, logged. cbn [jobs payment_instances project_payments environ trace].
  destruct (requested o); [|reflexivity].
  rewrite <- app_assoc. reflexivity.
Qed.

(** A status query whose poll is answered before anything else happens is
    [get_status]. *)
Lemma uninterrupted_status_query poll job_id c :
  play [StatusBegins job_id; PollReplies (length (in_flight c)) poll] c =
  Config (snd (get_status poll job_id (state c))) (in_flight c).
Proof.
  unfold play. cbn [foldl play1]. rewrite get_status_eq.
  destruct c as [[js pis pp env tr] l]. cbn [state in_flight jobs payment_instances].
  destruct (js !! job_id) as [j|] eqn:Hj.
  - destruct (pis !! job_id) as [pay|] eqn:Hp.
    + cbn [in_flight state]. rewrite list_lookup_middle by reflexivity.
      rewrite delete_middle, app_nil_r. unfold logged.
      cbn [jobs payment_instances project_payments environ trace].
      rewrite (get_status_resume_known _ _ _ _ _ _ _ _ Hj). reflexivity.
    + cbn [in_flight]. rewrite (proj2 (lookup_ge_None l (length l))) by lia. reflexivity.
  - cbn [in_flight]. rewrite (proj2 (lookup_ge_None l (length l))) by lia. reflexivity.
Qed.

(** A callback whose two awaits are answered before anything else happens is
    [process_payment_and_execute], called as the monitor calls it. *)
Lemma uninterrupted_callback reply completion job_id payment_id c :
  play [CallbackBegins job_id payment_id;
        ExpressReplies (length (in_flight c)) reply;
        CompletionReplies (length (in_flight c)) completion] c =
  Config (payment_callback reply completion job_id payment_id (state c)) (in_flight c).
Proof.
  unfold play. cbn [foldl]. cbn [play1].
  destruct c as [[js pis pp env tr] l]. cbn [state in_flight jobs].
  destruct (js !! job_id) as [j|] eqn:Hj.
  - rewrite (payment_callback_known reply completion job_id payment_id j
               (World js pis pp env tr) Hj). unfold callback_begin.
    cbn [state in_flight]. rewrite (write_status_eq _ _ _ _ _ _ _ _ Hj). unfold logged.
    cbn [jobs payment_instances project_payments environ trace play1 in_flight state].
    rewrite list_lookup_middle by reflexivity. rewrite delete_middle, app_nil_r.
    unfold callback_dispatched, settled, failed_job, completed_job.
    cbn [jobs payment_instances project_payments environ trace].
    assert (<[job_id := set_status running j]> js !! job_id = Some (set_status running j))
      as Hj' by apply lookup_insert_eq.
    destruct (express_outcome reply (Payload.method (Job.payload j))) as [r|e].
    + unfold bind, payment_instance, getitem, emit, ret.
      cbn [jobs payment_instances project_payments environ trace].
      destruct (pis !! job_id) as [pay|] eqn:Hp.
      * cbn [play1 in_flight state]. rewrite list_lookup_middle by reflexivity.
        rewrite delete_middle, app_nil_r.
        destruct completion as [[]|e].
        -- rewrite (callback_finish_known _ _ _ _ _ _ _ _ _ _ Hj').
           cbn [snd jobs payment_instances project_payments environ trace].
           rewrite insert_insert_eq. unfold stop_events. rewrite Hp.
           rewrite <- !app_assoc. reflexivity.
        -- rewrite (callback_except_known _ _ _ _ _ _ _ _ Hj').
           cbn [snd jobs payment_instances project_payments environ trace].
           rewrite insert_insert_eq. rewrite <- !app_assoc. reflexivity.
      * unfold raise. cbv beta iota.
        rewrite (callback_except_known _ _ _ _ _ _ _ _ Hj'). cbn [snd].
        rewrite insert_insert_eq, app_nil_r. cbn [play1 in_flight].
        rewrite (proj2 (lookup_ge_None l (length l))) by lia.
        rewrite <- !app_assoc. reflexivity.
    + rewrite (callback_except_known _ _ _ _ _ _ _ _ Hj'). cbn [snd].
      rewrite insert_insert_eq, app_nil_r. cbn [play1 in_flight].
      rewrite (proj2 (lookup_ge_None l (length l))) by lia.
      rewrite <- !app_assoc. reflexivity.
  - rewrite (payment_callback_unknown reply completion job_id payment_id
               (World js pis pp env tr) Hj).
    assert (l !! length l = None) as Hn by (apply lookup_ge_None; lia).
    cbn [play1 in_flight]. rewrite Hn. cbn [in_flight]. rewrite Hn. reflexivity.
Qed.

(** * The path of a job's status (C2) *)

(** C2, as the code has it.  Handlers overlap: each one runs up to its next
    await, and the awaits are answered in any order.  In every such schedule
    in which job ids are fresh and the settlement callback of a job is begun at
    most once, the values written to a job's status are awaiting_payment, then
    running, then completed or failed, in that order and nothing else.  Once a
    job is completed or failed, nothing that follows in such a schedule writes
    its status, result, error or any other field but payment_status; and
    payment_status is written only by status queries that were suspended at
    their poll when the job ended: when none is, the record stays as it is. *)
Theorem status_path_when_settled_once env moves :
  allowed_schedule (initial env) moves ->
  (forall job_id j,
     jobs (state (play moves (initial env))) !! job_id = Some j ->
     status_history job_id (state (play moves (initial env))) = lifecycle (Job.status j)) /\
  (forall job_id, jobs (state (play moves (initial env))) !! job_id = None ->
     status_history job_id (state (play moves (initial env))) = []) /\
  (forall job_id j later,
     jobs (state (play moves (initial env))) !! job_id = Some j ->
     terminal (Job.status j) = true ->
     allowed_schedule (play moves (initial env)) later ->
     (exists payment_status,
        jobs (state (play later (play moves (initial env)))) !! job_id =
          Some (set_payment_status payment_status j)) /\
     (AwaitingPoll job_id ∉ in_flight (play moves (initial env)) ->
        jobs (state (play later (play moves (initial env)))) !! job_id = Some j)).
Proof.
  intros Hs.
  pose proof (fun k => job_inv_reachable env moves k Hs) as Hinv.
  split; [|split].
  - intros job_id j Hj. pose proof (Hinv job_id) as H. unfold job_inv in H.
    rewrite Hj in H. apply H.
  - intros job_id Hj. pose proof (Hinv job_id) as H. unfold job_inv in H.
    rewrite Hj in H. apply H.
  - intros job_id j later Hj Hterm Hlater. split.
    + apply terminal_kept_play; assumption.
    + intros Hno. apply terminal_frozen_play; assumption.
Qed.

Lemma status_path_when_settled_once_witness :
  status_history "job-1" (state (play demo_overlap (initial ∅))) =
    [awaiting_payment; running; completed].
Proof.
  refine (proj1 (status_path_when_settled_once ∅ demo_overlap _)
            "job-1" (completed_job (JObj [("projectId", JStr "p1")]) demo_job) _).
  - cbn. repeat split. intros H. apply list_elem_of_singleton in H. discriminate.
  - vm_compute. reflexivity.
Defined.

(** C2 fails as stated.  A second settlement callback takes the completed job
    back to running and then to failed, and rewrites its record.  And with a
    single callback, a status query that was suspended at its poll when the
    callback ended writes payment_status of the completed job. *)
Lemma status_path_counterexample :
  (status_history "job-1"
     (run [CreateProject demo_creation 7 demo_project;
           Settled demo_reply (Ret tt) "job-1" "pay-1"] (init ∅)) =
     [awaiting_payment; running; completed] /\
   status_history "job-1"
     (run [CreateProject demo_creation 7 demo_project;
           Settled demo_reply (Ret tt) "job-1" "pay-1";
           Settled demo_reply (Ret tt) "job-1" "pay-1"] (init ∅)) =
     [awaiting_payment; running; completed; running; failed] /\
   jobs (run [CreateProject demo_creation 7 demo_project;
              Settled demo_reply (Ret tt) "job-1" "pay-1";
              Settled demo_reply (Ret tt) "job-1" "pay-1"] (init ∅)) !! "job-1" <>
   jobs (run [CreateProject demo_creation 7 demo_project;
              Settled demo_reply (Ret tt) "job-1" "pay-1"] (init ∅)) !! "job-1") /\
  (allowed_schedule (initial ∅)
     (demo_overlap ++ [PollReplies 0 (Raise (Exception "poll failed"))]) /\
   jobs (state (play demo_overlap (initial ∅))) !! "job-1" =
     Some (completed_job (JObj [("projectId", JStr "p1")]) demo_job) /\
   jobs (state (play (demo_overlap ++ [PollReplies 0 (Raise (Exception "poll failed"))])
                  (initial ∅))) !! "job-1" =
     Some (set_payment_status (Some "error")
             (completed_job (JObj [("projectId", JStr "p1")]) demo_job)) /\
   set_payment_status (Some "error")
     (completed_job (JObj [("projectId", JStr "p1")]) demo_job) <>
   completed_job (JObj [("projectId", JStr "p1")]) demo_job).
Proof.
  split.
  - split; [vm_compute; reflexivity|]. split; [vm_compute; reflexivity|].
    intros H. apply (f_equal (fmap Job.status)) in H. vm_compute in H. discriminate.
  - split.
    + cbn. repeat split. intros H. apply list_elem_of_singleton in H. discriminate.
    + split; [vm_compute; reflexivity|]. split; [vm_compute; reflexivity|].
      intros H. apply (f_equal Job.payment_status) in H. discriminate.
Qed.

(** Why at most once: the callback delivered twice while the payment instance
    is still registered, the two overlapping.  The first completes the job
    and the second, resumed afterwards, fails it. *)
Example racing_callbacks_break_the_path :
  is_Some (payment_instances
             (state (play [CreationBegins demo_creation "buyer" "5000000" "create_project"
                             demo_payload;
                           PaymentRequestReplies 0;
                           CallbackBegins "job-1" "pay-1"] (initial ∅))) !! "job-1") /\
  status_history "job-1"
    (state (play [CreationBegins demo_creation "buyer" "5000000" "create_project"
                    demo_payload;
                  PaymentRequestReplies 0;
                  CallbackBegins "job-1" "pay-1";
                  CallbackBegins "job-1" "pay-1";
                  ExpressReplies 0 demo_reply;
                  CompletionReplies 1 (Ret tt);
                  ExpressReplies 0 demo_reply] (initial ∅))) =
    [awaiting_payment; running; running; completed; failed].
Proof. split; [eexists|]; vm_compute; reflexivity. Qed.

(** * Beyond the claims: the Express call *)

(** X1. Whatever goes wrong in call_express_api, the caller sees an
    HTTPException and nothing else: 504 for a timeout, the downstream status
    code for an HTTP error status, 500 for anything else; and the call touches
    none of the three stores. *)
Theorem call_express_api_raises_http_only reply endpoint method data w :
  sends_request method ->
  (forall e, fst (call_express_api reply endpoint method data w) = Raise e ->
     exists status_code detail, e = HTTPException status_code detail) /\
  (reply = ReplyTimeout ->
     fst (call_express_api reply endpoint method data w) =
       Raise (HTTPException 504 "Express server timeout")) /\
  (forall status_code text, reply = ReplyStatusError status_code text ->
     fst (call_express_api reply endpoint method data w) =
       Raise (HTTPException status_code ("Express server error: " +:+ text))) /\
  (forall msg, reply = ReplyException msg ->
     fst (call_express_api reply endpoint method data w) =
       Raise (HTTPException 500 ("Failed to communicate with Express server: " +:+ msg))) /\
  jobs (snd (call_express_api reply endpoint method data w)) = jobs w /\
  payment_instances (snd (call_express_api reply endpoint method data w)) =
    payment_instances w /\
  project_payments (snd (call_express_api reply endpoint method data w)) =
    project_payments w.
Proof.
  intros Hm. rewrite call_express_api_eq. cbn [fst snd]. unfold express_outcome.
  rewrite decide_True by exact Hm.
  repeat split; try (intros; subst; reflexivity).
  intros e. destruct reply; intros [= <-]; eauto.
Qed.

Lemma call_express_api_raises_http_only_witness :
  fst (call_express_api ReplyTimeout "/api/github/analyze" "POST" None (init ∅)) =
    Raise (HTTPException 504 "Express server timeout").
Proof.
  apply (call_express_api_raises_http_only ReplyTimeout "/api/github/analyze" "POST" None
           (init ∅)).
  - left. reflexivity.
  - reflexivity.
Defined.

(** X2. For a method other than POST and GET, call_express_api sends nothing:
    it raises a 500 naming the method and leaves the world, trace included, as
    it was, whatever the server would have answered. *)
Theorem unsupported_method_sends_nothing reply endpoint method data w :
  method <> "POST" -> method <> "GET" ->
  call_express_api reply endpoint method data w =
    (Raise (HTTPException 500
              ("Failed to communicate with Express server: Unsupported HTTP method: "
               +:+ method)), w).
Proof.
  intros Hp Hg. rewrite call_express_api_eq. unfold express_outcome, express_events, logged.
  rewrite decide_False by (intros [?|?]; congruence).
  rewrite !decide_False by assumption.
  destruct w. cbn. rewrite app_nil_r. reflexivity.
Qed.

Lemma unsupported_method_sends_nothing_witness :
  call_express_api (ReplyJson JNull) "/api/projects/create" "PUT" None (init ∅) =
    (Raise (HTTPException 500
              "Failed to communicate with Express server: Unsupported HTTP method: PUT"),
     init ∅).
Proof.
  apply (unsupported_method_sends_nothing (ReplyJson JNull) "/api/projects/create" "PUT"
           None (init ∅)); discriminate.
Defined.

(** * Beyond the claims: the settlement callback *)

Lemma process_payment_and_execute_unknown
    reply completion job_id payment_id action payload w :
  jobs w !! job_id = None ->
  process_payment_and_execute reply completion job_id payment_id action payload w =
    (Raise (KeyError job_id), w).
Proof.
  intros Hj. unfold process_payment_and_execute, try_except, write_status, update_job.
  unfold bind at 1. unfold bind at 1. rewrite Hj. cbv beta iota.
  unfold bind at 1. unfold bind at 1. rewrite Hj. reflexivity.
Qed.

(** X3. Called for a job id that is not in the store, the callback raises
    KeyError out of its own except branch and does nothing else: no request is
    sent and the world is unchanged. *)
Theorem callback_for_unknown_job_raises reply completion job_id payment_id action payload w :
  jobs w !! job_id = None ->
  process_payment_and_execute reply completion job_id payment_id action payload w =
    (Raise (KeyError job_id), w) /\
  dispatches (snd (process_payment_and_execute reply completion job_id payment_id action
                     payload w)) = dispatches w.
Proof.
  intros Hj. rewrite (process_payment_and_execute_unknown _ _ _ _ _ _ _ Hj). auto.
Qed.

Lemma callback_for_unknown_job_raises_witness :
  process_payment_and_execute demo_reply (Ret tt) "job-9" "pay-9" "interact" demo_payload
    demo_world = (Raise (KeyError "job-9"), demo_world).
Proof.
  apply (callback_for_unknown_job_raises demo_reply (Ret tt) "job-9" "pay-9" "interact"
           demo_payload demo_world).
  vm_compute. reflexivity.
Defined.

Lemma settled_other_job reply completion job_id payment_id action payload j w other :
  other <> job_id ->
  jobs (settled reply completion job_id payment_id action payload j w) !! other =
    jobs w !! other /\
  payment_instances (settled reply completion job_id payment_id action payload j w) !! other =
    payment_instances w !! other.
Proof.
  intros Hne. unfold settled.
  destruct (express_outcome reply (Payload.method payload));
    [destruct (payment_instances w !! job_id); [destruct completion|]|];
    cbn [jobs payment_instances];
    rewrite lookup_insert_ne, lookup_delete_ne by congruence; auto.
Qed.

(** X4. The callback of one job never touches another job: whatever happens,
    the record and the payment instance of every other job id are what they
    were. *)
Theorem callback_leaves_other_jobs_alone
    reply completion job_id payment_id action payload w other :
  other <> job_id ->
  jobs (snd (process_payment_and_execute reply completion job_id payment_id action payload w))
    !! other = jobs w !! other /\
  payment_instances
    (snd (process_payment_and_execute reply completion job_id payment_id action payload w))
    !! other = payment_instances w !! other.
Proof.
  intros Hne. destruct (jobs w !! job_id) as [j|] eqn:Hj.
  - rewrite (process_payment_and_execute_known _ _ _ _ _ _ _ _ Hj). cbn [snd].
    apply settled_other_job, Hne.
  - rewrite (process_payment_and_execute_unknown _ _ _ _ _ _ _ Hj). auto.
Qed.

Lemma callback_leaves_other_jobs_alone_witness :
  jobs (snd (process_payment_and_execute ReplyTimeout (Ret tt) "job-2" "pay-2" "interact"
               demo_payload demo_world)) !! "job-1" = jobs demo_world !! "job-1".
Proof.
  apply (callback_leaves_other_jobs_alone ReplyTimeout (Ret tt) "job-2" "pay-2" "interact"
           demo_payload demo_world "job-1").
  discriminate.
Defined.

(** X5. When the Express call and complete_payment both succeed, the job (of
    any action) ends completed with payment status completed and the
    dispatcher's answer as result; that same answer is what was reported to
    the payment service; the job's other fields are untouched; the payment
    instance is released; and a status query made afterwards returns this
    record without polling the payment service. *)
Theorem successful_settlement_completes_job
    w body job_id payment_id action payload j pay poll :
  jobs w !! job_id = Some j ->
  payment_instances w !! job_id = Some pay ->
  Payload.method payload = "POST" ->
  let w' := snd (process_payment_and_execute (ReplyJson body) (Ret tt) job_id payment_id
                   action payload w) in
  jobs w' !! job_id =
    Some (Job.mk completed (Some "completed") (Job.payment_id j) (Job.action j)
                 (Job.payload j) body (Job.identifier_from_purchaser j) (Job.error j)) /\
  payment_instances w' !! job_id = None /\
  trace w' =
    trace w ++ [SetStatus job_id running;
                HttpRequest "POST" (Payload.endpoint payload) (Some (Payload.data payload));
                CompletePayment job_id payment_id body;
                SetStatus job_id completed;
                StopStatusMonitoring job_id] /\
  get_status poll job_id w' =
    (Ret (View.mk job_id completed (Some "completed") (Job.action j) body), w').
Proof.
  intros Hj Hpay Hm w'. subst w'.
  rewrite (process_payment_and_execute_known _ _ _ _ _ _ _ _ Hj). cbn [snd].
  rewrite get_status_eq.
  unfold settled, stop_events. rewrite Hm, Hpay.
  change (express_outcome (ReplyJson body) "POST") with (@Ret json body).
  change (express_events (Payload.endpoint payload) "POST" (Some (Payload.data payload)))
    with [HttpRequest "POST" (Payload.endpoint payload) (Some (Payload.data payload))].
  cbn [jobs payment_instances project_payments trace].
  rewrite lookup_insert_eq, lookup_delete_eq. auto.
Qed.

Lemma successful_settlement_completes_job_witness :
  payment_instances demo_settled !! "job-1" = None.
Proof.
  refine (proj1 (proj2 (successful_settlement_completes_job demo_world
                          (JObj [("projectId", JStr "p1")]) "job-1" "pay-1" "create_project"
                          demo_payload demo_job demo_payment (Ret ∅) _ _ _))).
  - vm_compute. reflexivity.
  - vm_compute. reflexivity.
  - reflexivity.
Defined.

(** X6. The callback writes an entitlement only when it completes a
    create_project job: if the job ends failed, or the action is anything
    else, project_payments is what it was; otherwise exactly one key, the
    payload's project key, is set to true. *)
Theorem entitlement_only_for_completed_create_project
    reply completion job_id payment_id action payload j w :
  jobs w !! job_id = Some j ->
  let w' := snd (process_payment_and_execute reply completion job_id payment_id action
                   payload w) in
  (Job.status <$> jobs w' !! job_id = Some failed ->
     project_payments w' = project_payments w) /\
  (action <> "create_project" -> project_payments w' = project_payments w) /\
  (Job.status <$> jobs w' !! job_id = Some completed -> action = "create_project" ->
     project_payments w' = <[project_key payload := true]> (project_payments w)).
Proof.
  intros Hj w'. subst w'.
  rewrite (process_payment_and_execute_known _ _ _ _ _ _ _ _ Hj). cbn [snd].
  unfold settled.
  destruct (express_outcome reply (Payload.method payload));
    [destruct (payment_instances w !! job_id); [destruct completion|]|];
    cbn [jobs project_payments]; rewrite lookup_insert_eq;
    (split; [|split]); try reflexivity; try discriminate.
  - intros Hne. rewrite decide_False by exact Hne. reflexivity.
  - intros _ ->. reflexivity.
Qed.

Lemma entitlement_only_for_completed_create_project_witness :
  project_payments (snd (process_payment_and_execute demo_reply (Ret tt) "job-1" "pay-1"
                           "interact" demo_payload demo_world)) = ∅.
Proof.
  refine (proj1 (proj2 (entitlement_only_for_completed_create_project demo_reply (Ret tt)
                          "job-1" "pay-1" "interact" demo_payload demo_job demo_world _)) _).
  - vm_compute. reflexivity.
  - discriminate.
Defined.

(** * Beyond the claims: creating a payment job *)

Lemma create_payment_job_stored o identifier_from_purchaser amount action payload w
    payment_request request_data payment_id :
  Creation.payment_request o = Ret payment_request ->
  payment_request !! "data" = Some request_data ->
  request_data !! "blockchainIdentifier" = Some payment_id ->
  create_payment_job o identifier_from_purchaser amount action payload w =
    (match Creation.monitoring o with
     | Raise e => Raise e
     | Ret _ =>
         match request_data !! "submitResultTime" with
         | None => Raise (KeyError "submitResultTime")
         | Some submitResultTime =>
             match request_data !! "unlockTime" with
             | None => Raise (KeyError "unlockTime")
             | Some unlockTime =>
                 match request_data !! "externalDisputeUnlockTime" with
                 | None => Raise (KeyError "externalDisputeUnlockTime")
                 | Some externalDisputeUnlockTime =>
                     Ret (Created.mk "success" (Creation.uuid4 o) payment_id submitResultTime
                            unlockTime externalDisputeUnlockTime
                            (environ w !! "AGENT_IDENTIFIER") (environ w !! "SELLER_VKEY")
                            identifier_from_purchaser [Amount.mk amount "lovelace"]
                            (Creation.input_hash o))
                 end
             end
         end
     end,
     created o identifier_from_purchaser amount action payload w).
Proof.
  intros Hreq Hdata Hid.
  rewrite <- (create_payment_job_world o identifier_from_purchaser amount action payload w).
  rewrite (surjective_pairing (create_payment_job _ _ _ _ _ _)) at 1. f_equal.
  unfold create_payment_job.
  unfold bind, getenv, emit, answer, getitem, ret, raise, store_job.
  rewrite Hreq, Hdata, Hid.
  destruct (Creation.monitoring o) as [[]|e]; [|reflexivity].
  destruct (request_data !! "submitResultTime"); [|reflexivity].
  destruct (request_data !! "unlockTime"); [|reflexivity].
  destruct (request_data !! "externalDisputeUnlockTime"); reflexivity.
Qed.

(** X7. When the payment service answers with all four fields and monitoring
    starts, create_payment_job returns the job id with the payment details,
    stores the job as awaiting_payment with payment status pending, no result
    and no error, and registers a Payment that knows the payment id; a status
    query for the returned id then finds the job, polls the payment service and
    reports what the poll said. *)
Theorem created_job_can_be_queried
    o identifier_from_purchaser amount action payload w payment_request request_data
    payment_id submitResultTime unlockTime externalDisputeUnlockTime poll :
  Creation.payment_request o = Ret payment_request ->
  payment_request !! "data" = Some request_data ->
  request_data !! "blockchainIdentifier" = Some payment_id ->
  request_data !! "submitResultTime" = Some submitResultTime ->
  request_data !! "unlockTime" = Some unlockTime ->
  request_data !! "externalDisputeUnlockTime" = Some externalDisputeUnlockTime ->
  Creation.monitoring o = Ret tt ->
  let call := create_payment_job o identifier_from_purchaser amount action payload w in
  fst call =
    Ret (Created.mk "success" (Creation.uuid4 o) payment_id submitResultTime unlockTime
           externalDisputeUnlockTime (environ w !! "AGENT_IDENTIFIER")
           (environ w !! "SELLER_VKEY") identifier_from_purchaser
           [Amount.mk amount "lovelace"] (Creation.input_hash o)) /\
  jobs (snd call) !! Creation.uuid4 o =
    Some (Job.mk awaiting_payment (Some "pending") payment_id action payload JNull
                 identifier_from_purchaser None) /\
  (exists payment,
     payment_instances (snd call) !! Creation.uuid4 o = Some payment /\
     payment_id ∈ Payment.payment_ids payment /\
     Payment.amounts payment = [Amount.mk amount "lovelace"] /\
     Payment.input_data payment = (action, payload)) /\
  fst (get_status poll (Creation.uuid4 o) (snd call)) =
    Ret (View.mk (Creation.uuid4 o) awaiting_payment (refreshed poll) action JNull).
Proof.
  intros Hreq Hdata Hid Hs Hu He Hmon call. subst call.
  rewrite (create_payment_job_stored _ _ _ _ _ _ _ _ _ Hreq Hdata Hid).
  rewrite Hmon, Hs, Hu, He. cbn [fst snd]. rewrite get_status_eq.
  unfold created, requested. rewrite Hreq, Hdata, Hid.
  cbn [jobs payment_instances]. rewrite !lookup_insert_eq.
  split; [reflexivity|]. split; [reflexivity|]. split; [|reflexivity].
  eexists. split; [reflexivity|]. cbn. split; [set_solver|auto].
Qed.

Lemma created_job_can_be_queried_witness :
  fst (get_status (Raise (Exception "poll failed")) "job-1"
         (snd (create_payment_job demo_creation "buyer" "5000000" "create_project"
                 demo_payload (init ∅)))) =
    Ret (View.mk "job-1" awaiting_payment (Some "error") "create_project" JNull).
Proof.
  refine (proj2 (proj2 (proj2 (created_job_can_be_queried demo_creation "buyer" "5000000"
            "create_project" demo_payload (init ∅)
            {[ "data" := list_to_map [("blockchainIdentifier", "pay-1");
                                      ("submitResultTime", "100");
                                      ("unlockTime", "200");
                                      ("externalDisputeUnlockTime", "300")] ]}
            (list_to_map [("blockchainIdentifier", "pay-1");
                          ("submitResultTime", "100");
                          ("unlockTime", "200");
                          ("externalDisputeUnlockTime", "300")])
            "pay-1" "100" "200" "300" (Raise (Exception "poll failed"))
            _ _ _ _ _ _ _)))); vm_compute; reflexivity.
Defined.

(** X8. The three time fields of the payment request are read only after the
    job is stored and monitoring has started.  If one of them is missing,
    create_payment_job raises KeyError and create_project answers 500, yet the
    job is in the store awaiting payment, with its payment instance
    registered and monitoring started. *)
Theorem missing_time_field_leaves_live_job
    o time_low data w payment_request request_data payment_id :
  Creation.payment_request o = Ret payment_request ->
  payment_request !! "data" = Some request_data ->
  request_data !! "blockchainIdentifier" = Some payment_id ->
  Creation.monitoring o = Ret tt ->
  request_data !! "submitResultTime" = None \/
  request_data !! "unlockTime" = None \/
  request_data !! "externalDisputeUnlockTime" = None ->
  let call := create_project o time_low data w in
  (exists key, fst call =
     Raise (HTTPException 500 ("Failed to create project: " +:+ str (KeyError key)))) /\
  Job.status <$> jobs (snd call) !! Creation.uuid4 o = Some awaiting_payment /\
  is_Some (payment_instances (snd call) !! Creation.uuid4 o) /\
  last (trace (snd call)) = Some (StartStatusMonitoring (Creation.uuid4 o)).
Proof.
  intros Hreq Hdata Hid Hmon Hmiss call. subst call.
  unfold create_project, try_except.
  rewrite (create_payment_job_stored _ _ _ _ _ _ _ _ _ Hreq Hdata Hid). rewrite Hmon.
  assert (exists key,
            match request_data !! "submitResultTime" with
            | None => Raise (KeyError "submitResultTime")
            | Some s =>
                match request_data !! "unlockTime" with
                | None => Raise (KeyError "unlockTime")
                | Some u =>
                    match request_data !! "externalDisputeUnlockTime" with
                    | None => Raise (KeyError "externalDisputeUnlockTime")
                    | Some x =>
                        Ret (Created.mk "success" (Creation.uuid4 o) payment_id s u x
                               (environ w !! "AGENT_IDENTIFIER") (environ w !! "SELLER_VKEY")
                               (CreateProjectRequest.identifier_from_purchaser data)
                               [Amount.mk "5000000" "lovelace"] (Creation.input_hash o))
                    end
                end
            end = Raise (KeyError key)) as [key ->].
  { destruct (request_data !! "submitResultTime"); [|eauto].
    destruct (request_data !! "unlockTime"); [|eauto].
    destruct (request_data !! "externalDisputeUnlockTime"); [|eauto].
    destruct Hmiss as [?|[?|?]]; discriminate. }
  unfold raise. cbn [fst snd]. split; [eauto|].
  unfold created, requested. rewrite Hreq, Hdata, Hid.
  cbn [jobs payment_instances trace]. rewrite !lookup_insert_eq.
  split; [reflexivity|]. split; [eauto|].
  rewrite last_app. reflexivity.
Qed.

Lemma missing_time_field_leaves_live_job_witness :
  Job.status <$> jobs (snd (create_project demo_incomplete 7 demo_project (init ∅)))
                   !! "job-1" = Some awaiting_payment.
Proof.
  refine (proj1 (proj2 (missing_time_field_leaves_live_job demo_incomplete 7 demo_project
            (init ∅)
            {[ "data" := list_to_map [("blockchainIdentifier", "pay-1");
                                      ("submitResultTime", "100")] ]}
            (list_to_map [("blockchainIdentifier", "pay-1"); ("submitResultTime", "100")])
            "pay-1" _ _ _ _ _))); try (vm_compute; reflexivity).
  right. left. vm_compute. reflexivity.
Defined.

(** X9. An answer of the payment service without data, or without a
    blockchainIdentifier in it, stops create_payment_job with a KeyError before
    anything is stored: no job, no payment instance, no entitlement, and
    monitoring is not started. *)
Theorem malformed_payment_request_stores_nothing
    o identifier_from_purchaser amount action payload w payment_request :
  Creation.payment_request o = Ret payment_request ->
  payment_request !! "data" = None \/
  (exists request_data, payment_request !! "data" = Some request_data /\
                        request_data !! "blockchainIdentifier" = None) ->
  let call := create_payment_job o identifier_from_purchaser amount action payload w in
  (fst call = Raise (KeyError "data") \/
   fst call = Raise (KeyError "blockchainIdentifier")) /\
  jobs (snd call) = jobs w /\
  payment_instances (snd call) = payment_instances w /\
  project_payments (snd call) = project_payments w /\
  StartStatusMonitoring (Creation.uuid4 o) ∉ drop (length (trace w)) (trace (snd call)).
Proof.
  intros Hreq Hbad call. subst call.
  assert (exists key, (key = "data" \/ key = "blockchainIdentifier") /\
                      requested o = Raise (KeyError key)) as (key & Hkey & Hr).
  { unfold requested. rewrite Hreq. destruct Hbad as [->|(d & -> & ->)]; eauto. }
  rewrite (create_payment_job_aborts _ _ _ _ _ _ _ Hr). cbn [fst snd].
  split; [destruct Hkey as [->| ->]; auto|].
  unfold logged. cbn [jobs payment_instances project_payments trace].
  repeat split. rewrite drop_app_length. intros Hin.
  apply list_elem_of_singleton in Hin. discriminate.
Qed.

Lemma malformed_payment_request_stores_nothing_witness :
  jobs (snd (create_payment_job (Creation.mk "job-1" "hash" (Ret ∅) (Ret tt)) "buyer"
               "1000000" "interact" demo_payload (init ∅))) = ∅.
Proof.
  refine (proj1 (proj2 (malformed_payment_request_stores_nothing
            (Creation.mk "job-1" "hash" (Ret ∅) (Ret tt)) "buyer" "1000000" "interact"
            demo_payload (init ∅) ∅ _ _))).
  - reflexivity.
  - left. reflexivity.
Defined.

Lemma created_other_job o identifier_from_purchaser amount action payload w other :
  other <> Creation.uuid4 o ->
  jobs (created o identifier_from_purchaser amount action payload w) !! other =
    jobs w !! other /\
  payment_instances (created o identifier_from_purchaser amount action payload w) !! other =
    payment_instances w !! other.
Proof.
  intros Hne. unfold created. destruct (requested o); [|auto].
  cbn [jobs payment_instances]. rewrite !lookup_insert_ne by congruence. auto.
Qed.

(** X10. create_payment_job does not look whether the job id is already in
    use: when the payment request yields a payment id, the record stored under
    that id, whatever it was (a completed job too), is replaced by a fresh one
    awaiting payment, and so is the payment instance. *)
Theorem creation_overwrites_existing_job
    o identifier_from_purchaser amount action payload w old payment_id :
  jobs w !! Creation.uuid4 o = Some old ->
  requested o = Ret payment_id ->
  let w' := snd (create_payment_job o identifier_from_purchaser amount action payload w) in
  jobs w' !! Creation.uuid4 o =
    Some (Job.mk awaiting_payment (Some "pending") payment_id action payload JNull
                 identifier_from_purchaser None) /\
  payment_instances w' !! Creation.uuid4 o =
    Some (add_payment_id payment_id
            (new_payment o identifier_from_purchaser amount action payload w)).
Proof.
  intros _ Hr w'. subst w'. rewrite create_payment_job_world. unfold created. rewrite Hr.
  cbn [jobs payment_instances]. rewrite !lookup_insert_eq. auto.
Qed.

Lemma creation_overwrites_existing_job_witness :
  Job.status <$> jobs (snd (create_payment_job demo_creation "buyer" "1000000" "interact"
                              demo_payload demo_settled)) !! "job-1" =
    Some awaiting_payment.
Proof.
  refine (eq_ind_r (fun x => Job.status <$> x = Some awaiting_payment) eq_refl
            (proj1 (creation_overwrites_existing_job demo_creation "buyer" "1000000"
                      "interact" demo_payload demo_settled
                      (completed_job (JObj [("projectId", JStr "p1")]) demo_job) "pay-1"
                      _ _))).
  - vm_compute. reflexivity.
  - vm_compute. reflexivity.
Defined.

(** X11. A creation endpoint touches one job id only: the records and the
    payment instances of all other ids are what they were, and it never
    writes an entitlement. *)
Theorem creation_leaves_other_jobs_alone o time_low project interaction analysis w other :
  other <> Creation.uuid4 o ->
  (jobs (snd (create_project o time_low project w)) !! other = jobs w !! other /\
   payment_instances (snd (create_project o time_low project w)) !! other =
     payment_instances w !! other /\
   project_payments (snd (create_project o time_low project w)) = project_payments w) /\
  (jobs (snd (interact o interaction w)) !! other = jobs w !! other /\
   payment_instances (snd (interact o interaction w)) !! other =
     payment_instances w !! other /\
   project_payments (snd (interact o interaction w)) = project_payments w) /\
  (jobs (snd (analyze o analysis w)) !! other = jobs w !! other /\
   payment_instances (snd (analyze o analysis w)) !! other =
     payment_instances w !! other /\
   project_payments (snd (analyze o analysis w)) = project_payments w).
Proof.
  intros Hne. unfold create_project, interact, analyze.
  rewrite !snd_try_raise, !create_payment_job_world, !project_payments_created.
  repeat split; apply created_other_job, Hne.
Qed.

Lemma creation_leaves_other_jobs_alone_witness :
  jobs (snd (interact (Creation.mk "job-2" "hash" (Creation.payment_request demo_creation)
                         (Ret tt))
               (InteractRequest.mk "buyer" "repo-7" "hello") demo_world)) !! "job-1" =
    jobs demo_world !! "job-1".
Proof.
  refine (proj1 (proj1 (proj2 (creation_leaves_other_jobs_alone
            (Creation.mk "job-2" "hash" (Creation.payment_request demo_creation) (Ret tt))
            7 demo_project (InteractRequest.mk "buyer" "repo-7" "hello")
            (AnalyzeRequest.mk "buyer" "https://github.com/acme/repo" "anonymous" "k")
            demo_world "job-1" _)))).
  discriminate.
Defined.

Lemma create_payment_job_raises_monitoring
    o identifier_from_purchaser amount action payload w payment_id e :
  requested o = Ret payment_id ->
  Creation.monitoring o = Raise e ->
  fst (create_payment_job o identifier_from_purchaser amount action payload w) = Raise e.
Proof.
  intros Hr Hmon. unfold requested in Hr.
  destruct (Creation.payment_request o) as [pr|] eqn:Hreq; [|discriminate].
  destruct (pr !! "data") as [d|] eqn:Hd; [|discriminate].
  destruct (d !! "blockchainIdentifier") as [pid|] eqn:Hid; [|discriminate].
  rewrite (create_payment_job_stored _ _ _ _ _ _ _ _ _ Hreq Hd Hid), Hmon. reflexivity.
Qed.

(** X12. A gated endpoint passes the answer of create_payment_job on and fails
    in one way only: whatever exception e create_payment_job raises,
    create_project, interact and analyze raise HTTPException 500 whose detail
    is their own message followed by str(e) of that very exception.  So a
    failed payment request, or a failure to start monitoring, with message m
    reaches the client of interact as 500, Failed to process interaction: m. *)
Theorem gated_endpoints_fail_with_500 o time_low project interaction analysis w :
  fst (create_project o time_low project w) =
    match fst (create_payment_job o (CreateProjectRequest.identifier_from_purchaser project)
                 "5000000" "create_project" (create_project_payload project time_low) w) with
    | Ret answer => Ret answer
    | Raise e => Raise (HTTPException 500 ("Failed to create project: " +:+ str e))
    end /\
  fst (interact o interaction w) =
    match fst (create_payment_job o (InteractRequest.identifier_from_purchaser interaction)
                 "1000000" "interact" (interact_payload interaction) w) with
    | Ret answer => Ret answer
    | Raise e => Raise (HTTPException 500 ("Failed to process interaction: " +:+ str e))
    end /\
  fst (analyze o analysis w) =
    match fst (create_payment_job o (AnalyzeRequest.identifier_from_purchaser analysis)
                 "2000000" "analyze" (analyze_payload analysis) w) with
    | Ret answer => Ret answer
    | Raise e => Raise (HTTPException 500 ("Failed to analyze repository: " +:+ str e))
    end /\
  (forall e, Creation.payment_request o = Raise e ->
     fst (create_project o time_low project w) =
       Raise (HTTPException 500 ("Failed to create project: " +:+ str e)) /\
     fst (interact o interaction w) =
       Raise (HTTPException 500 ("Failed to process interaction: " +:+ str e)) /\
     fst (analyze o analysis w) =
       Raise (HTTPException 500 ("Failed to analyze repository: " +:+ str e))) /\
  (forall payment_id e, requested o = Ret payment_id -> Creation.monitoring o = Raise e ->
     fst (create_project o time_low project w) =
       Raise (HTTPException 500 ("Failed to create project: " +:+ str e)) /\
     fst (interact o interaction w) =
       Raise (HTTPException 500 ("Failed to process interaction: " +:+ str e)) /\
     fst (analyze o analysis w) =
       Raise (HTTPException 500 ("Failed to analyze repository: " +:+ str e))).
Proof.
  assert (forall (m : M Created.t) (f : exn -> exn),
            fst (try_except m (fun e => raise (f e)) w) =
              match fst (m w) with Ret a => Ret a | Raise e => Raise (f e) end) as Htry.
  { intros m f. unfold try_except, raise. destruct (m w) as [[a|e] w']; reflexivity. }
  unfold create_project, interact, analyze.
  rewrite (Htry _ (fun e => HTTPException 500 ("Failed to create project: " +:+ str e))).
  rewrite (Htry _ (fun e => HTTPException 500 ("Failed to process interaction: " +:+ str e))).
  rewrite (Htry _ (fun e => HTTPException 500 ("Failed to analyze repository: " +:+ str e))).
  split; [reflexivity|]. split; [reflexivity|]. split; [reflexivity|]. split.
  - intros e He.
    assert (requested o = Raise e) as Hr by (unfold requested; rewrite He; reflexivity).
    rewrite !(create_payment_job_aborts _ _ _ _ _ _ _ Hr). auto.
  - intros payment_id e Hr Hmon.
    rewrite !(create_payment_job_raises_monitoring _ _ _ _ _ _ _ _ Hr Hmon). auto.
Qed.

Lemma gated_endpoints_fail_with_500_witness :
  fst (interact (Creation.mk "job-1" "hash" (Raise (Exception "network unreachable")) (Ret tt))
         (InteractRequest.mk "buyer" "repo-7" "hello") (init ∅)) =
    Raise (HTTPException 500 "Failed to process interaction: network unreachable").
Proof.
  refine (proj1 (proj2 (proj1 (proj2 (proj2 (proj2 (gated_endpoints_fail_with_500
            (Creation.mk "job-1" "hash" (Raise (Exception "network unreachable")) (Ret tt))
            7 demo_project (InteractRequest.mk "buyer" "repo-7" "hello")
            (AnalyzeRequest.mk "buyer" "https://github.com/acme/repo" "anonymous" "k")
            (init ∅))))) (Exception "network unreachable") _))).
  reflexivity.
Defined.

(** X13. analyze always asks the payment service for 2000000 lovelace, more
    than interact and less than create_project, and the job it stores has the
    action analyze and the fixed endpoint /api/github/analyze with the three
    request fields as data. *)
Theorem analyze_fee_and_job o data w :
  fee_requests (snd (analyze o data w)) = fee_requests w ++ [Amount.mk "2000000" "lovelace"] /\
  (exists fee, int_of_str "2000000" = Some fee /\
               int_of_str "1000000" = Some 1000000 /\
               int_of_str "5000000" = Some 5000000 /\ 1000000 < fee < 5000000) /\
  (forall payment_id, requested o = Ret payment_id ->
     exists j, jobs (snd (analyze o data w)) !! Creation.uuid4 o = Some j /\
               Job.action j = "analyze" /\
               Payload.endpoint (Job.payload j) = "/api/github/analyze" /\
               Payload.method (Job.payload j) = "POST" /\
               Payload.data (Job.payload j) !! "repoUrl" = Some (AnalyzeRequest.repoUrl data) /\
               Payload.data (Job.payload j) !! "userId" = Some (AnalyzeRequest.userId data) /\
               Payload.data (Job.payload j) !! "projectKey" =
                 Some (AnalyzeRequest.projectKey data)).
Proof.
  unfold analyze.
  rewrite (snd_try_raise _
             (fun e => HTTPException 500 ("Failed to analyze repository: " +:+ str e))).
  rewrite create_payment_job_world. split; [apply fee_requests_created|].
  split; [exists 2000000; vm_compute; repeat split; reflexivity|].
  intros payment_id Hr. unfold created. rewrite Hr. cbn [jobs]. rewrite lookup_insert_eq.
  eexists. split; [reflexivity|]. cbn. repeat split; reflexivity.
Qed.

Lemma analyze_fee_and_job_witness :
  exists j,
    jobs (snd (analyze demo_creation
                 (AnalyzeRequest.mk "buyer" "https://github.com/acme/repo" "anonymous" "k")
                 (init ∅))) !! "job-1" = Some j /\
    Job.action j = "analyze".
Proof.
  destruct (proj2 (proj2 (analyze_fee_and_job demo_creation
              (AnalyzeRequest.mk "buyer" "https://github.com/acme/repo" "anonymous" "k")
              (init ∅))) "pay-1") as (j & Hj & Ha & _).
  - vm_compute. reflexivity.
  - exists j. split; assumption.
Defined.

(** * Beyond the claims: status queries and free operations *)

Lemma setup_ip_eq reply data w :
  setup_ip reply data w =
    match project_payments w !! SetupIPRequest.projectId data with
    | None => (Raise payment_required, w)
    | Some _ =>
        (match express_outcome reply "POST" with
         | Ret r => Ret (Done.mk "success" r)
         | Raise e => Raise e
         end, logged w [setup_ip_request data])
    end.
Proof.
  unfold setup_ip, try_except, payment_required, setup_ip_request.
  unfold bind at 1. cbv beta iota. unfold bind at 1.
  destruct (project_payments w !! SetupIPRequest.projectId data) as [b|] eqn:Hp.
  - rewrite decide_False by discriminate. unfold ret at 1. cbv beta iota.
    unfold bind at 1. rewrite call_express_api_eq.
    destruct reply; reflexivity.
  - rewrite decide_True by reflexivity. reflexivity.
Qed.

(** X14. get_status writes nothing but the payment status of the job it is
    asked about: the status, action, payload, result, error, payment id and
    purchaser of every job are what they were, no job appears or disappears,
    and payment_instances and project_payments are untouched.  A poll can
    therefore never move a job out of completed or failed. *)
Theorem get_status_writes_payment_status_only poll job_id w other :
  let w' := snd (get_status poll job_id w) in
  set_payment_status None <$> jobs w' !! other =
    set_payment_status None <$> jobs w !! other /\
  (other <> job_id -> jobs w' !! other = jobs w !! other) /\
  payment_instances w' = payment_instances w /\
  project_payments w' = project_payments w.
Proof.
  intros w'. subst w'. rewrite get_status_eq.
  destruct (jobs w !! job_id) as [j|] eqn:Hj; [|auto].
  destruct (payment_instances w !! job_id) as [pay|] eqn:Hp; [|auto].
  cbn [snd jobs payment_instances project_payments].
  split; [|split; [|auto]].
  - destruct (decide (job_id = other)) as [<-|Hne].
    + rewrite lookup_insert_eq, Hj. reflexivity.
    + rewrite lookup_insert_ne by exact Hne. reflexivity.
  - intros Hne. rewrite lookup_insert_ne by congruence. reflexivity.
Qed.

Lemma get_status_writes_payment_status_only_witness :
  jobs (snd (get_status (Raise (Exception "poll failed")) "job-2" demo_world)) !! "job-1" =
    jobs demo_world !! "job-1".
Proof.
  refine (proj1 (proj2 (get_status_writes_payment_status_only
                          (Raise (Exception "poll failed")) "job-2" demo_world "job-1")) _).
  discriminate.
Defined.

(** X15. Once the callback has run for a job, whatever its outcome, a status
    query for that job is a pure read: the payment service is not polled, the
    world is unchanged, and the answer is the stored record whatever a poll
    would have said. *)
Theorem get_status_after_settlement_is_pure
    reply completion job_id payment_id action payload w j poll :
  jobs w !! job_id = Some j ->
  let w' := snd (process_payment_and_execute reply completion job_id payment_id action
                   payload w) in
  exists j',
    jobs w' !! job_id = Some j' /\
    terminal (Job.status j') = true /\
    get_status poll job_id w' =
      (Ret (View.mk job_id (Job.status j') (Job.payment_status j') (Job.action j')
              (Job.result j')), w').
Proof.
  intros Hj w'. subst w'.
  rewrite (process_payment_and_execute_known _ _ _ _ _ _ _ _ Hj). cbn [snd].
  destruct (settled_status reply completion job_id payment_id action payload j w)
    as (j' & Hj' & Hp' & Hs').
  exists j'. split; [exact Hj'|]. split.
  - destruct Hs' as [-> | [-> _]]; reflexivity.
  - rewrite get_status_eq, Hj', Hp'. reflexivity.
Qed.

Lemma get_status_after_settlement_is_pure_witness :
  exists j',
    jobs demo_settled !! "job-1" = Some j' /\
    terminal (Job.status j') = true /\
    get_status (Raise (Exception "poll failed")) "job-1" demo_settled =
      (Ret (View.mk "job-1" (Job.status j') (Job.payment_status j') (Job.action j')
              (Job.result j')), demo_settled).
Proof.
  apply (get_status_after_settlement_is_pure demo_reply (Ret tt) "job-1" "pay-1"
           "create_project" demo_payload demo_world demo_job
           (Raise (Exception "poll failed"))).
  vm_compute. reflexivity.
Defined.

(** X16. setup_info without an entitlement is refused before anything is
    sent: the world, trace included, is unchanged.  With one, exactly one POST
    goes to the project's setup-info path, and the outcome of the Express call
    is passed on as it is: the answer wrapped as success, 504 for a timeout,
    the downstream status code for an error status. *)
Theorem setup_info_relays_express_outcome reply data w :
  (project_payments w !! SetupInfoRequest.projectId data = None ->
     setup_info reply data w = (Raise payment_required, w)) /\
  (is_Some (project_payments w !! SetupInfoRequest.projectId data) ->
     trace (snd (setup_info reply data w)) =
       trace w ++
       [HttpRequest "POST"
          ("/api/projects/" +:+ SetupInfoRequest.projectId data +:+ "/setup-info")
          (Some (list_to_map
             [("name", SetupInfoRequest.name data);
              ("description", SetupInfoRequest.description data);
              ("technicalDescription", SetupInfoRequest.technicalDescription data);
              ("imageUrl", SetupInfoRequest.imageUrl data)]))] /\
     (forall answer, reply = ReplyJson answer ->
        fst (setup_info reply data w) = Ret (Done.mk "success" answer)) /\
     (reply = ReplyTimeout ->
        fst (setup_info reply data w) = Raise (HTTPException 504 "Express server timeout")) /\
     (forall status_code text, reply = ReplyStatusError status_code text ->
        fst (setup_info reply data w) =
          Raise (HTTPException status_code ("Express server error: " +:+ text))) /\
     (forall msg, reply = ReplyException msg ->
        fst (setup_info reply data w) =
          Raise (HTTPException 500
                   ("Failed to communicate with Express server: " +:+ msg)))).
Proof.
  rewrite setup_info_eq. split.
  - intros ->. reflexivity.
  - intros [flag ->]. cbn [fst snd]. unfold logged, setup_info_request. cbn [trace].
    repeat split; intros; subst; reflexivity.
Qed.

Lemma setup_info_relays_express_outcome_witness :
  fst (setup_info ReplyTimeout (demo_setup "repo-7") demo_settled) =
    Raise (HTTPException 504 "Express server timeout").
Proof.
  refine (proj1 (proj2 (proj2 (proj2 (setup_info_relays_express_outcome ReplyTimeout
            (demo_setup "repo-7") demo_settled) _))) _).
  - exists true. vm_compute. reflexivity.
  - reflexivity.
Defined.

(** X17. setup_ip is gated like setup_info: it is refused, with nothing sent,
    exactly when setup_info for the same project id is; otherwise it sends
    one POST to the project's setup-ip path with the five request fields and
    passes the outcome of the Express call on. *)
Theorem setup_ip_shares_the_gate reply data info w :
  SetupInfoRequest.projectId info = SetupIPRequest.projectId data ->
  (fst (setup_ip reply data w) = Raise payment_required <->
   fst (setup_info reply info w) = Raise payment_required) /\
  (project_payments w !! SetupIPRequest.projectId data = None ->
     setup_ip reply data w = (Raise payment_required, w)) /\
  (is_Some (project_payments w !! SetupIPRequest.projectId data) ->
     trace (snd (setup_ip reply data w)) =
       trace w ++
       [HttpRequest "POST"
          ("/api/projects/" +:+ SetupIPRequest.projectId data +:+ "/setup-ip")
          (Some (list_to_map
             [("title", SetupIPRequest.title data);
              ("description", SetupIPRequest.description data);
              ("imageURL", SetupIPRequest.imageURL data);
              ("remixFee", SetupIPRequest.remixFee data);
              ("commercialRevShare", SetupIPRequest.commercialRevShare data)]))] /\
     (forall answer, reply = ReplyJson answer ->
        fst (setup_ip reply data w) = Ret (Done.mk "success" answer)) /\
     (reply = ReplyTimeout ->
        fst (setup_ip reply data w) = Raise (HTTPException 504 "Express server timeout")) /\
     (forall status_code text, reply = ReplyStatusError status_code text ->
        fst (setup_ip reply data w) =
          Raise (HTTPException status_code ("Express server error: " +:+ text)))).
Proof.
  intros Hid. split; [|split].
  - rewrite setup_info_gate, Hid, setup_ip_eq.
    destruct (project_payments w !! SetupIPRequest.projectId data) as [b|]; cbn [fst].
    + split; [|discriminate]. intros H.
      destruct (express_outcome reply "POST") as [r|e] eqn:He; [discriminate|].
      injection H as ->. revert He. unfold express_outcome.
      destruct (decide _); [destruct reply|]; discriminate.
    + split; reflexivity.
  - rewrite setup_ip_eq. intros ->. reflexivity.
  - rewrite setup_ip_eq. intros [flag ->]. cbn [fst snd].
    unfold logged, setup_ip_request. cbn [trace].
    repeat split; intros; subst; reflexivity.
Qed.

Lemma setup_ip_shares_the_gate_witness :
  setup_ip (ReplyJson JNull)
    (SetupIPRequest.mk "p1" "Repo" "A repository" "https://example.org/logo.png" "1" "5")
    demo_settled = (Raise payment_required, demo_settled).
Proof.
  refine (proj1 (proj2 (setup_ip_shares_the_gate (ReplyJson JNull)
            (SetupIPRequest.mk "p1" "Repo" "A repository" "https://example.org/logo.png"
               "1" "5")
            (demo_setup "p1") demo_settled _)) _).
  - reflexivity.
  - vm_compute. reflexivity.
Defined.

(** * Beyond the claims: what every run keeps *)

(** What one operation can do to one job id: nothing; refresh its payment
    status; end it (the callback); or store it anew (a creation with this id). *)
Lemma step_job w o job_id :
  (jobs (step w o) !! job_id = jobs w !! job_id /\
   payment_instances (step w o) !! job_id = payment_instances w !! job_id) \/
  (exists j ps, jobs w !! job_id = Some j /\
                jobs (step w o) !! job_id = Some (set_payment_status ps j) /\
                payment_instances (step w o) !! job_id = payment_instances w !! job_id) \/
  (exists j j', jobs w !! job_id = Some j /\
                jobs (step w o) !! job_id = Some j' /\
                static_part j' = static_part j /\
                terminal (Job.status j') = true /\
                payment_instances (step w o) !! job_id = None) \/
  (creates o = Some job_id /\
   exists j', jobs (step w o) !! job_id = Some j' /\
              Job.status j' = awaiting_payment /\
              is_Some (payment_instances (step w o) !! job_id)).
Proof.
  destruct (creation_of o) as [f|] eqn:Hc.
  - rewrite (step_creation _ _ _ Hc).
    assert (forall c identifier amount action payload,
              creates o = Some (Creation.uuid4 c) ->
              f = created c identifier amount action payload ->
              (jobs (f w) !! job_id = jobs w !! job_id /\
               payment_instances (f w) !! job_id = payment_instances w !! job_id) \/
              (creates o = Some job_id /\
               exists j', jobs (f w) !! job_id = Some j' /\
                          Job.status j' = awaiting_payment /\
                          is_Some (payment_instances (f w) !! job_id))) as H.
    { intros c identifier amount action payload Ho ->.
      destruct (decide (job_id = Creation.uuid4 c)) as [->|Hne].
      - unfold created. destruct (requested c); [|auto].
        right. split; [exact Ho|]. cbn [jobs payment_instances].
        rewrite !lookup_insert_eq. eauto.
      - left. apply created_other_job, Hne. }
    destruct o; try discriminate; injection Hc as Hf; symmetry in Hf;
      (edestruct H as [?|?]; [reflexivity | exact Hf | auto | auto 10]).
  - destruct o; try discriminate; cbn [step].
    + left. rewrite setup_info_eq.
      destruct (project_payments w !! SetupInfoRequest.projectId data); auto.
    + rewrite get_status_eq.
      destruct (jobs w !! job_id0) as [j|] eqn:Hj; [|auto].
      destruct (payment_instances w !! job_id0) as [pay|] eqn:Hp; [|auto].
      cbn [snd jobs payment_instances].
      destruct (decide (job_id0 = job_id)) as [<-|Hne].
      * right. left. exists j, (refreshed poll). rewrite lookup_insert_eq. auto.
      * left. rewrite lookup_insert_ne by exact Hne. auto.
    + destruct (jobs w !! job_id0) as [j|] eqn:Hj.
      * rewrite (payment_callback_known _ _ _ _ _ _ Hj).
        destruct (decide (job_id = job_id0)) as [->|Hne].
        -- right. right. left. exists j.
           destruct (settled_status reply completion job_id0 payment_id (Job.action j)
                       (Job.payload j) j w) as (j' & Hj' & Hp' & Hs').
           exists j'. split; [exact Hj|]. split; [exact Hj'|].
           split; [|split; [destruct Hs' as [-> | [-> _]]; reflexivity | exact Hp']].
           revert Hj'. unfold settled.
           destruct (express_outcome reply (Payload.method (Job.payload j)));
             [destruct (payment_instances w !! job_id0); [destruct completion|]|];
             cbn [jobs]; rewrite lookup_insert_eq; intros [= <-]; reflexivity.
        -- left. apply settled_other_job, Hne.
      * rewrite (payment_callback_unknown _ _ _ _ _ Hj). auto.
Qed.

(** X18. No operation deletes a job: once an id is in the store it is there
    after every further run of operations, so a status query for it never
    answers 404 again. *)
Theorem jobs_are_never_removed ops w job_id poll :
  is_Some (jobs w !! job_id) ->
  is_Some (jobs (run ops w) !! job_id) /\
  fst (get_status poll job_id (run ops w)) <> Raise (HTTPException 404 "Job not found").
Proof.
  intros Hknown.
  assert (is_Some (jobs (run ops w) !! job_id)) as [j Hj].
  { revert w Hknown. induction ops as [|o ops IH]; intros w Hknown; [exact Hknown|].
    cbn. apply IH.
    destruct (step_job w o job_id)
      as [[-> _] | [(j & ps & _ & -> & _) | [(j & j' & _ & -> & _) | (_ & j' & -> & _)]]];
      eauto. }
  split; [eauto|]. rewrite get_status_eq, Hj.
  destruct (payment_instances (run ops w) !! job_id); discriminate.
Qed.

Lemma jobs_are_never_removed_witness :
  is_Some (jobs (run [Settled ReplyTimeout (Ret tt) "job-1" "pay-1";
                      GetStatus (Ret ∅) "job-1"] demo_world) !! "job-1").
Proof.
  refine (proj1 (jobs_are_never_removed
                   [Settled ReplyTimeout (Ret tt) "job-1" "pay-1"; GetStatus (Ret ∅) "job-1"]
                   demo_world "job-1" (Ret ∅) _)).
  exists demo_job. vm_compute. reflexivity.
Defined.

(** X19. Handlers overlap at their awaits.  In every configuration such a
    schedule reaches when job ids are fresh and the callback of a job is begun
    at most once, a job id has a registered payment instance exactly when its
    job is in the store with status awaiting_payment or running; and a job is
    running exactly while its callback is suspended at one of its two awaits,
    of which there is never more than one.  A status query that arrives while
    the job is running polls the payment service, and answers running when
    its poll is answered before anything else happens. *)
Theorem instance_registered_iff_not_terminal env moves job_id :
  allowed_schedule (initial env) moves ->
  (is_Some (payment_instances (state (play moves (initial env))) !! job_id) <->
   exists j, jobs (state (play moves (initial env))) !! job_id = Some j /\
             (Job.status j = awaiting_payment \/ Job.status j = running)) /\
  (Job.status <$> jobs (state (play moves (initial env))) !! job_id = Some running <->
   callbacks_of job_id (in_flight (play moves (initial env))) = 1%nat) /\
  (callbacks_of job_id (in_flight (play moves (initial env))) <= 1)%nat /\
  (Job.status <$> jobs (state (play moves (initial env))) !! job_id = Some running ->
   play1 (play moves (initial env)) (StatusBegins job_id) =
     Config (logged (state (play moves (initial env))) [CheckPaymentStatus job_id])
            (in_flight (play moves (initial env)) ++ [AwaitingPoll job_id]) /\
   forall poll, exists view,
     fst (get_status poll job_id (state (play moves (initial env)))) = Ret view /\
     View.status view = running).
Proof.
  intros Hs. pose proof (job_inv_reachable env moves job_id Hs) as H.
  unfold job_inv in H. cbn [play1]. setoid_rewrite get_status_eq.
  destruct (jobs (state (play moves (initial env))) !! job_id) as [j|];
    simpl (_ <$> _) in *.
  - destruct H as (_ & Hn & Hp). split; [|split; [|split]].
    + rewrite Hp. split.
      * intros Ht. exists j. split; [reflexivity|].
        destruct (Job.status j); try discriminate; auto.
      * intros (j' & [= <-] & [Hj|Hj]); rewrite Hj; reflexivity.
    + rewrite Hn. destruct (decide (Job.status j = running)) as [Hr|Hr].
      * rewrite Hr. split; reflexivity.
      * split; [intros [= ?]; contradiction | discriminate].
    + rewrite Hn. destruct (decide (Job.status j = running)); lia.
    + intros [= Hr]. rewrite Hr in Hp.
      destruct (proj2 Hp eq_refl) as [pay Hpay]. rewrite Hpay.
      split; [reflexivity|]. intros poll. eexists. split; [reflexivity|]. exact Hr.
  - destruct H as (_ & Hn & Hp). rewrite Hn, Hp. split; [|split; [|split]].
    + split; [intros [? [=]] | intros (? & [=] & _)].
    + split; discriminate.
    + lia.
    + discriminate.
Qed.

Lemma instance_registered_iff_not_terminal_witness :
  is_Some (payment_instances (state (play demo_dispatching (initial ∅))) !! "job-1").
Proof.
  refine (proj2 (proj1 (instance_registered_iff_not_terminal ∅ demo_dispatching "job-1" _)) _).
  - cbn. repeat split. intros H. apply list_elem_of_singleton in H. discriminate.
  - exists (set_status running demo_job). split; [vm_compute; reflexivity|].
    right. reflexivity.
Defined.

(** A status query served while the callback is suspended at the Express call
    finds the job running with its instance registered: it polls the payment
    service and answers running. *)
Example status_query_during_callback :
  in_flight (play demo_dispatching (initial ∅)) =
    [AwaitingExpress "job-1" "pay-1" "create_project" demo_payload] /\
  fst (get_status (Ret ∅) "job-1" (state (play demo_dispatching (initial ∅)))) =
    Ret (View.mk "job-1" running None "create_project" JNull) /\
  trace (state (play (demo_dispatching ++ [StatusBegins "job-1"]) (initial ∅))) =
    trace (state (play demo_dispatching (initial ∅))) ++ [CheckPaymentStatus "job-1"].
Proof. split; [|split]; vm_compute; reflexivity. Qed.

(** X20. The payment id, action, payload and purchaser of a job are written
    once: over any run in which no creation reuses the job's id they stay what
    they are, whatever callbacks and queries do.  (The callback closure
    captures the action and the payload; they are always those of the stored
    record.) *)
Theorem static_fields_never_change ops w job_id :
  Forall (fun o => creates o <> Some job_id) ops ->
  static_part <$> jobs (run ops w) !! job_id = static_part <$> jobs w !! job_id.
Proof.
  revert w. induction ops as [|o ops IH]; intros w Hops; [reflexivity|].
  apply Forall_cons in Hops as [Ho Hops].
  change (run (o :: ops) w) with (run ops (step w o)). rewrite (IH _ Hops).
  destruct (step_job w o job_id)
    as [[-> _] | [(j & ps & -> & -> & _) | [(j & j' & -> & -> & Hs & _) | (Hc & _)]]].
  - reflexivity.
  - reflexivity.
  - cbn. rewrite Hs. reflexivity.
  - contradiction.
Qed.

Lemma static_fields_never_change_witness :
  static_part <$> jobs (run [Settled demo_reply (Ret tt) "job-1" "pay-1";
                             Settled demo_reply (Ret tt) "job-1" "pay-1";
                             GetStatus (Ret ∅) "job-1"] demo_world) !! "job-1" =
    static_part <$> jobs demo_world !! "job-1".
Proof.
  apply (static_fields_never_change
           [Settled demo_reply (Ret tt) "job-1" "pay-1";
            Settled demo_reply (Ret tt) "job-1" "pay-1";
            GetStatus (Ret ∅) "job-1"] demo_world "job-1").
  repeat constructor; discriminate.
Defined.

(** X21. Entitlements only grow: an operation other than a settlement
    callback leaves project_payments as it is, and over any run a key that is
    entitled stays entitled, so a project that passed the gate once passes it
    ever after. *)
Theorem entitlements_only_grow ops w key reply data :
  (forall o, (forall r c j p, o <> Settled r c j p) ->
             project_payments (step w o) = project_payments w) /\
  (is_Some (project_payments w !! key) ->
   is_Some (project_payments (run ops w) !! key)) /\
  (SetupInfoRequest.projectId data = key ->
   fst (setup_info reply data w) <> Raise payment_required ->
   fst (setup_info reply data (run ops w)) <> Raise payment_required).
Proof.
  assert (forall w, is_Some (project_payments w !! key) ->
                    is_Some (project_payments (run ops w) !! key)) as Hkeep.
  { clear w. induction ops as [|o ops IH]; intros w Hk; [exact Hk|].
    cbn. apply IH.
    destruct (project_payments_step w o) as [-> | [k ->]]; [exact Hk|].
    destruct (decide (k = key)) as [->|Hne].
    - rewrite lookup_insert_eq. eauto.
    - rewrite lookup_insert_ne by exact Hne. exact Hk. }
  split; [|split; [apply Hkeep|]].
  - intros o Ho. destruct (creation_of o) as [f|] eqn:Hc.
    + rewrite (step_creation _ _ _ Hc).
      destruct o; try discriminate; injection Hc as <-; apply project_payments_created.
    + destruct o; try discriminate; cbn [step].
      * rewrite setup_info_eq.
        destruct (project_payments w !! SetupInfoRequest.projectId data0); reflexivity.
      * rewrite get_status_eq.
        destruct (jobs w !! job_id); [destruct (payment_instances w !! job_id)|]; reflexivity.
      * exfalso. eapply Ho. reflexivity.
  - intros <-. rewrite !setup_info_gate. intros Hw Hn. apply Hw.
    destruct (project_payments w !! SetupInfoRequest.projectId data) eqn:E; [|reflexivity].
    destruct (Hkeep w) as [flag Hflag]; [rewrite E; eauto|]. rewrite Hflag in Hn.
    discriminate.
Qed.

Lemma entitlements_only_grow_witness :
  is_Some (project_payments
             (run [Settled demo_reply (Ret tt) "job-1" "pay-1"; GetStatus (Ret ∅) "job-1"]
                demo_settled) !! "repo-7").
Proof.
  refine (proj1 (proj2 (entitlements_only_grow
            [Settled demo_reply (Ret tt) "job-1" "pay-1"; GetStatus (Ret ∅) "job-1"]
            demo_settled "repo-7" (ReplyJson JNull) (demo_setup "repo-7"))) _).
  exists true. vm_compute. reflexivity.
Defined.

(** * Beyond the claims: project ids and resource keys *)

Lemma split_nonempty sep s : split sep s <> [].
Proof.
  destruct s as [|c s]; cbn; [discriminate|].
  destruct (decide (c = sep)); [discriminate|]. destruct (split sep s); discriminate.
Qed.

Lemma has_char_app c s1 s2 :
  has_char c (s1 +:+ s2) = has_char c s1 || has_char c s2.
Proof.
  induction s1 as [|c' s1 IH]; simpl; [reflexivity|].
  destruct (decide (c' = c)); [reflexivity | exact IH].
Qed.

Lemma split_segments sep s :
  join (String sep EmptyString) (split sep s) = s /\
  Forall (fun segment => has_char sep segment = false) (split sep s).
Proof.
  induction s as [|c s [IHj IHf]]; cbn [split].
  - split; [reflexivity | repeat constructor].
  - destruct (decide (c = sep)) as [->|Hne].
    + split.
      * pose proof (split_nonempty sep s) as Hn.
        destruct (split sep s) as [|h t]; [contradiction|].
        change (join (String sep EmptyString) (EmptyString :: h :: t))
          with (String sep (join (String sep EmptyString) (h :: t))).
        rewrite IHj. reflexivity.
      * constructor; [reflexivity | exact IHf].
    + pose proof (split_nonempty sep s) as Hn.
      destruct (split sep s) as [|h t]; [contradiction|]. split.
      * destruct t as [|h' t]; simpl in IHj |- *; rewrite <- IHj; reflexivity.
      * apply Forall_cons in IHf as [Hh Ht]. constructor; [|exact Ht].
        cbn. rewrite decide_False by exact Hne. exact Hh.
Qed.

Lemma last_item_no_sep sep s : has_char sep (last_item (split sep s)) = false.
Proof.
  destruct (split_segments sep s) as [_ Hf]. pose proof (split_nonempty sep s) as Hn.
  unfold last_item. induction Hf as [|x l Hx Hl IH]; [contradiction|].
  destruct l as [|y l]; [exact Hx|]. apply IH. discriminate.
Qed.

(** X22. The model of split is Python's: the segments joined by the separator
    give the string back, no segment contains the separator, and there is
    always at least one segment, so taking the last one never fails. *)
Theorem split_join_round_trip sep s :
  join (String sep EmptyString) (split sep s) = s /\
  Forall (fun segment => has_char sep segment = false) (split sep s) /\
  split sep s <> [] /\
  has_char sep (last_item (split sep s)) = false.
Proof.
  destruct (split_segments sep s) as [Hj Hf].
  repeat split; [exact Hj | exact Hf | apply split_nonempty | apply last_item_no_sep].
Qed.

Lemma split_join_round_trip_witness :
  join "/" (split "/" "https://github.com/acme/repo.git") = "https://github.com/acme/repo.git".
Proof. exact (proj1 (split_join_round_trip "/" "https://github.com/acme/repo.git")). Defined.

Lemma split_trailing sep s :
  exists first rest,
    split sep (s +:+ String sep EmptyString) = (first :: rest) ++ [EmptyString].
Proof.
  induction s as [|c s (first & rest & IH)]; simpl.
  - rewrite decide_True by reflexivity. exists EmptyString, []. reflexivity.
  - rewrite IH. destruct (decide (c = sep)).
    + exists EmptyString, (first :: rest). reflexivity.
    + exists (String c first), rest. reflexivity.
Qed.

Lemma last_item_trailing sep s :
  last_item (split sep (s +:+ String sep EmptyString)) = EmptyString.
Proof.
  destruct (split_trailing sep s) as (first & rest & ->).
  unfold last_item. apply List.last_last.
Qed.

Lemma append_assoc_str a b c : (a +:+ b) +:+ c = a +:+ b +:+ c.
Proof.
  induction a as [|x a IH]; [reflexivity|].
  change (String x ((a +:+ b) +:+ c) = String x (a +:+ b +:+ c)). rewrite IH. reflexivity.
Qed.

Lemma join_last_cases sep l :
  l <> [] ->
  join sep l = List.last l EmptyString \/
  exists stem, join sep l = stem +:+ sep +:+ List.last l EmptyString.
Proof.
  induction l as [|x l IH]; intros Hl; [contradiction|].
  destruct l as [|y l]; [left; reflexivity|]. right.
  change (join sep (x :: y :: l)) with (x +:+ sep +:+ join sep (y :: l)).
  change (List.last (x :: y :: l) EmptyString) with (List.last (y :: l) EmptyString).
  destruct IH as [-> | [stem ->]]; [discriminate | |].
  - exists x. reflexivity.
  - exists (x +:+ sep +:+ stem). rewrite !append_assoc_str. reflexivity.
Qed.

(** What follows the last separator of [s]: all of [s] when it has none. *)
Lemma last_item_is_last_segment sep s :
  has_char sep (last_item (split sep s)) = false /\
  (has_char sep s = false /\ last_item (split sep s) = s \/
   exists stem, s = stem +:+ String sep EmptyString +:+ last_item (split sep s)).
Proof.
  split; [apply last_item_no_sep|].
  destruct (split_segments sep s) as [Hj Hf]. unfold last_item.
  destruct (join_last_cases (String sep EmptyString) (split sep s) (split_nonempty sep s))
    as [Hl | [stem Hl]].
  - left. rewrite <- Hl, Hj. split; [|reflexivity].
    rewrite <- Hj at 1. rewrite Hl. apply (last_item_no_sep sep s).
  - right. exists stem. rewrite <- Hl. symmetry. exact Hj.
Qed.

(** X23. The resource key of a create_project job is the payload's projectId
    whenever there is one, whatever the repoUrl.  Without a projectId it is
    exactly what follows the last slash of the repoUrl (the whole repoUrl when
    it has no slash): the key has no slash and the repoUrl is the key itself
    or some text, a slash, and the key.  So a repoUrl that ends in a slash, or
    a payload without repoUrl, gives the empty key. *)
Theorem project_key_derivation payload :
  (forall project_id, Payload.data payload !! "projectId" = Some project_id ->
     project_key payload = project_id) /\
  (Payload.data payload !! "projectId" = None ->
     (forall repoUrl, Payload.data payload !! "repoUrl" = Some repoUrl ->
        has_char "/" (project_key payload) = false /\
        (has_char "/" repoUrl = false /\ project_key payload = repoUrl \/
         exists stem, repoUrl = stem +:+ "/" +:+ project_key payload)) /\
     (forall stem, Payload.data payload !! "repoUrl" = Some (stem +:+ "/") ->
        project_key payload = EmptyString) /\
     (Payload.data payload !! "repoUrl" = None -> project_key payload = EmptyString)).
Proof.
  unfold project_key. split.
  - intros project_id ->. reflexivity.
  - intros ->. split; [|split].
    + intros repoUrl ->. change (default EmptyString (Some repoUrl)) with repoUrl.
      apply last_item_is_last_segment.
    + intros stem ->. apply last_item_trailing.
    + intros ->. reflexivity.
Qed.

Lemma project_key_derivation_witness :
  has_char "/" (project_key (Payload.mk "/api/projects/create" "POST"
                               {[ "repoUrl" := "https://github.com/acme/repo" ]})) = false.
Proof.
  refine (proj1 (proj1 (proj2 (project_key_derivation
            (Payload.mk "/api/projects/create" "POST"
               {[ "repoUrl" := "https://github.com/acme/repo" ]})) _)
            "https://github.com/acme/repo" _)).
  - vm_compute. reflexivity.
  - vm_compute. reflexivity.
Defined.

Lemma has_char_replace_from c old skip s :
  has_char c s = false -> has_char c (replace_from old EmptyString skip s) = false.
Proof.
  revert skip. induction s as [|x s IH]; intros skip Hs; [reflexivity|].
  simpl in Hs. destruct (decide (x = c)) as [|Hne]; [discriminate|].
  destruct skip as [|k]; [|apply (IH k), Hs].
  change (replace_from old EmptyString 0 (String x s))
    with (if String.prefix old (String x s)
          then EmptyString +:+ replace_from old EmptyString (Nat.pred (String.length old)) s
          else String x (replace_from old EmptyString 0 s)).
  destruct (String.prefix old (String x s)).
  - apply (IH _ Hs).
  - simpl. rewrite decide_False by exact Hne. apply (IH _ Hs).
Qed.

Lemma has_char_string_of_uint d :
  has_char "/" (NilEmpty.string_of_uint d) = false.
Proof. induction d; simpl; try rewrite decide_False by discriminate; assumption || reflexivity. Qed.

Lemma has_char_str_of_Z n : has_char "/" (str_of_Z n) = false.
Proof.
  unfold str_of_Z, NilZero.string_of_int, NilZero.string_of_uint.
  destruct (Z.to_int n) as [d|d]; destruct d; simpl;
    try rewrite !decide_False by discriminate;
    try apply has_char_string_of_uint; reflexivity.
Qed.

Lemma prefix_git_other x s :
  x <> "."%char -> String.prefix ".git" (String x s) = false.
Proof.
  intros Hx.
  change (String.prefix ".git" (String x s))
    with (if ascii_dec "." x then String.prefix "git" s else false).
  destruct (ascii_dec "." x) as [Heq|]; [|reflexivity].
  exfalso. apply Hx. symmetry. exact Heq.
Qed.

Lemma replace_git_no_dot s :
  has_char "." s = false -> replace ".git" EmptyString s = s.
Proof.
  unfold replace. induction s as [|x s IH]; intros Hs; [reflexivity|].
  simpl in Hs. destruct (decide (x = "."%char)) as [|Hx]; [discriminate|].
  change (replace_from ".git" EmptyString 0 (String x s))
    with (if String.prefix ".git" (String x s)
          then EmptyString +:+ replace_from ".git" EmptyString 3 s
          else String x (replace_from ".git" EmptyString 0 s)).
  rewrite (prefix_git_other x s Hx), (IH Hs). reflexivity.
Qed.

Lemma replace_git_suffix name :
  has_char "." name = false -> replace ".git" EmptyString (name +:+ ".git") = name.
Proof.
  unfold replace. induction name as [|x name IH]; intros Hs; [reflexivity|].
  simpl in Hs. destruct (decide (x = "."%char)) as [|Hx]; [discriminate|].
  change (replace_from ".git" EmptyString 0 (String x name +:+ ".git"))
    with (if String.prefix ".git" (String x (name +:+ ".git"))
          then EmptyString +:+ replace_from ".git" EmptyString 3 (name +:+ ".git")
          else String x (replace_from ".git" EmptyString 0 (name +:+ ".git"))).
  rewrite (prefix_git_other x _ Hx), (IH Hs). reflexivity.
Qed.

(** X24. The project id create_project generates is built from the last path
    segment of the repoUrl (what follows its last slash): the segment with
    every .git taken out from left to right, then a dash and the decimal
    time_low.  For a segment without a dot that is the segment itself, and
    for a segment name.git with no dot in name it is name.  The id never
    contains a slash; it is the projectId of the job's payload and so the key
    under which the callback writes the entitlement (the repoUrl fallback is
    never used for a job made by create_project). *)
Theorem generated_project_id_has_no_slash data time_low :
  (exists segment,
     has_char "/" segment = false /\
     (has_char "/" (CreateProjectRequest.repoUrl data) = false /\
      segment = CreateProjectRequest.repoUrl data \/
      exists stem, CreateProjectRequest.repoUrl data = stem +:+ "/" +:+ segment) /\
     new_project_id (CreateProjectRequest.repoUrl data) time_low =
       replace ".git" EmptyString segment +:+ "-" +:+ str_of_Z time_low /\
     (has_char "." segment = false ->
        new_project_id (CreateProjectRequest.repoUrl data) time_low =
          segment +:+ "-" +:+ str_of_Z time_low) /\
     (forall name, segment = name +:+ ".git" -> has_char "." name = false ->
        new_project_id (CreateProjectRequest.repoUrl data) time_low =
          name +:+ "-" +:+ str_of_Z time_low)) /\
  has_char "/" (new_project_id (CreateProjectRequest.repoUrl data) time_low) = false /\
  Payload.data (create_project_payload data time_low) !! "projectId" =
    Some (new_project_id (CreateProjectRequest.repoUrl data) time_low) /\
  project_key (create_project_payload data time_low) =
    new_project_id (CreateProjectRequest.repoUrl data) time_low.
Proof.
  assert (has_char "/" (replace ".git" EmptyString
                          (last_item (split "/" (CreateProjectRequest.repoUrl data)))) = false)
    as Hstem by apply has_char_replace_from, last_item_no_sep.
  unfold new_project_id. split; [|split; [|split; reflexivity]].
  - exists (last_item (split "/" (CreateProjectRequest.repoUrl data))).
    destruct (last_item_is_last_segment "/" (CreateProjectRequest.repoUrl data)) as [Hno Hcase].
    split; [exact Hno|]. split; [exact Hcase|]. split; [reflexivity|]. split.
    + intros Hdot. rewrite (replace_git_no_dot _ Hdot). reflexivity.
    + intros name -> Hdot. rewrite (replace_git_suffix _ Hdot). reflexivity.
  - rewrite !has_char_app, Hstem, has_char_str_of_Z. reflexivity.
Qed.

Lemma generated_project_id_has_no_slash_witness :
  has_char "/" (new_project_id "https://github.com/acme/repo.git" 7) = false.
Proof. exact (proj1 (proj2 (generated_project_id_has_no_slash demo_project 7))). Defined.

(** * Beyond the claims: gated endpoints and the gate *)

Lemma create_payment_job_ignores_entitlements
    o identifier_from_purchaser amount action payload w paid :
  create_payment_job o identifier_from_purchaser amount action payload
    (with_project_payments (fun _ => paid) w) =
  (fst (create_payment_job o identifier_from_purchaser amount action payload w),
   with_project_payments (fun _ => paid)
     (snd (create_payment_job o identifier_from_purchaser amount action payload w))).
Proof.
  destruct (requested o) as [pid|e] eqn:Hr.
  - unfold requested in Hr.
    destruct (Creation.payment_request o) as [pr|] eqn:Hreq; [|discriminate].
    destruct (pr !! "data") as [d|] eqn:Hd; [|discriminate].
    destruct (d !! "blockchainIdentifier") as [pid'|] eqn:Hid; [|discriminate].
    rewrite !(create_payment_job_stored _ _ _ _ _ _ _ _ _ Hreq Hd Hid). cbn [fst snd].
    f_equal. unfold created, requested. rewrite Hreq, Hd, Hid. reflexivity.
  - rewrite !(create_payment_job_aborts _ _ _ _ _ _ _ Hr). reflexivity.
Qed.

(** X25. The gated endpoints never look at project_payments: interact and
    analyze (and create_project) answer the same and store the same job
    whether or not the project they name was ever paid for or exists. *)
Theorem gated_endpoints_ignore_entitlements o time_low project interaction analysis w paid :
  (fst (interact o interaction (with_project_payments (fun _ => paid) w)) =
     fst (interact o interaction w) /\
   jobs (snd (interact o interaction (with_project_payments (fun _ => paid) w))) =
     jobs (snd (interact o interaction w))) /\
  (fst (analyze o analysis (with_project_payments (fun _ => paid) w)) =
     fst (analyze o analysis w) /\
   jobs (snd (analyze o analysis (with_project_payments (fun _ => paid) w))) =
     jobs (snd (analyze o analysis w))) /\
  (fst (create_project o time_low project (with_project_payments (fun _ => paid) w)) =
     fst (create_project o time_low project w) /\
   jobs (snd (create_project o time_low project (with_project_payments (fun _ => paid) w))) =
     jobs (snd (create_project o time_low project w))).
Proof.
  unfold interact, analyze, create_project, try_except.
  rewrite !create_payment_job_ignores_entitlements.
  repeat split;
    match goal with
    | |- context [create_payment_job ?a ?b ?c ?d ?p w] =>
        destruct (create_payment_job a b c d p w) as [[r|cause] w']
    end; reflexivity.
Qed.

Lemma settled_success body job_id payment_id action payload j w pay :
  payment_instances w !! job_id = Some pay ->
  Payload.method payload = "POST" ->
  settled (ReplyJson body) (Ret tt) job_id payment_id action payload j w =
    World (<[job_id := completed_job body j]> (jobs w))
          (delete job_id (payment_instances w))
          (if decide (action = "create_project")
           then <[project_key payload := true]> (project_payments w)
           else project_payments w)
          (environ w)
          (trace w ++ [SetStatus job_id running;
                       HttpRequest "POST" (Payload.endpoint payload)
                                   (Some (Payload.data payload));
                       CompletePayment job_id payment_id body;
                       SetStatus job_id completed;
                       StopStatusMonitoring job_id]).
Proof.
  intros Hp Hm. unfold settled. rewrite Hm, Hp. reflexivity.
Qed.

(** X26. An interaction from request to result: when interact obtains a
    payment id and the callback of its job then runs with the Express server
    and the payment service both answering, exactly one request has been
    sent, a POST of the prompt to the project's interact path; the job is
    completed with the answer as result; and no entitlement is written. *)
Theorem interaction_end_to_end o data w payment_id paid_id body :
  requested o = Ret payment_id ->
  let w' := run [Interact o data;
                 Settled (ReplyJson body) (Ret tt) (Creation.uuid4 o) paid_id] w in
  dispatches w' =
    dispatches w ++
    [HttpRequest "POST" ("/api/projects/" +:+ InteractRequest.projectId data +:+ "/interact")
       (Some {[ "prompt" := InteractRequest.prompt data ]})] /\
  jobs w' !! Creation.uuid4 o =
    Some (Job.mk completed (Some "completed") payment_id "interact" (interact_payload data)
            body (InteractRequest.identifier_from_purchaser data) None) /\
  payment_instances w' !! Creation.uuid4 o = None /\
  project_payments w' = project_payments w.
Proof.
  intros Hr w'. subst w'. unfold run. cbn [foldl step].
  unfold interact. rewrite snd_try_raise, create_payment_job_world.
  assert (jobs (created o (InteractRequest.identifier_from_purchaser data) "1000000"
                  "interact" (interact_payload data) w) !! Creation.uuid4 o =
          Some (new_job payment_id "interact" (interact_payload data)
                  (InteractRequest.identifier_from_purchaser data))) as Hj.
  { unfold created. rewrite Hr. cbn [jobs]. apply lookup_insert_eq. }
  assert (is_Some (payment_instances
                     (created o (InteractRequest.identifier_from_purchaser data) "1000000"
                        "interact" (interact_payload data) w) !! Creation.uuid4 o))
    as [pay Hp].
  { unfold created. rewrite Hr. cbn [payment_instances]. rewrite lookup_insert_eq. eauto. }
  assert (project_payments
            (created o (InteractRequest.identifier_from_purchaser data) "1000000"
               "interact" (interact_payload data) w) = project_payments w /\
          dispatches
            (created o (InteractRequest.identifier_from_purchaser data) "1000000"
               "interact" (interact_payload data) w) = dispatches w) as [Hpp Hd].
  { unfold created. rewrite Hr. split; [reflexivity|].
    unfold dispatches. cbn [trace]. rewrite List.filter_app. apply app_nil_r. }
  rewrite (payment_callback_known _ _ _ _ _ _ Hj).
  erewrite settled_success; [|exact Hp|reflexivity].
  cbn [jobs payment_instances project_payments].
  rewrite lookup_insert_eq, lookup_delete_eq, Hpp.
  split; [|auto].
  unfold dispatches in *. cbn [trace]. rewrite List.filter_app, Hd. reflexivity.
Qed.

Lemma interaction_end_to_end_witness :
  project_payments
    (run [Interact demo_creation (InteractRequest.mk "buyer" "repo-7" "hello");
          Settled (ReplyJson (JStr "hi")) (Ret tt) "job-1" "pay-1"] (init ∅)) = ∅.
Proof.
  refine (proj2 (proj2 (proj2 (interaction_end_to_end demo_creation
            (InteractRequest.mk "buyer" "repo-7" "hello") (init ∅) "pay-1" "pay-1"
            (JStr "hi") _)))).
  vm_compute. reflexivity.
Defined.
